(** * Gesture-control backend: movement calculator, gesture classifier and
      the [/sensor-data] request handler

    A shallow embedding of the glove-sensor server (the Express/socket.io
    backend that owns [previousFrameData] and [currentGestureState]) together
    with the properties of its per-frame pipeline.

    Numbers.  JavaScript numbers are modelled as real numbers: every
    arithmetic operation is exact and every value is finite.  The one
    operation of the code that can leave the finite numbers, a division whose
    divisor is zero, is modelled as partial (see [num_div]).

    Objects.  A request body is an object any of whose properties may be
    absent; reading a property of an absent object throws a [TypeError].
    Absent properties are [None], the throw is an abrupt completion.

    The [imu] of a frame, where present, is taken with its [orientation], as
    every sender of the repository sends it.  Request bodies whose imu comes
    without it are embedded in [Wire] further down, which gives the same
    responses and states as this embedding on all other frames
    ([wire_postSensorData]). *)

From Stdlib Require Import Reals Lra.
From stdpp Require Import base option list strings gmap.

#[local] Open Scope R_scope.

(** ** Completions: normal results, thrown exceptions, undefined divisions *)

Inductive Fault : Type :=
  | TypeError   (* a thrown JavaScript exception: property read on undefined *)
  | DivByZero.  (* not an exception: a division by zero, whose result (an
                   infinity or NaN) the real-number model does not contain *)

Inductive completion (A : Type) : Type :=
  | Normal (a : A)
  | Abrupt (e : Fault).
Arguments Normal {A} a.
Arguments Abrupt {A} e.

#[global] Instance completion_ret : MRet completion := @Normal.
#[global] Instance completion_bind : MBind completion := fun A B f m =>
  match m with
  | Normal a => f a
  | Abrupt e => Abrupt e
  end.

(** [o.p] where the object [o] may be undefined. *)
Definition prop_of {A : Type} (o : option A) : completion A :=
  match o with
  | Some a => Normal a
  | None => Abrupt TypeError
  end.

(** ** Numbers *)

Definition num_lt (a b : R) : bool := if Rlt_dec a b then true else false.
Definition num_gt (a b : R) : bool := num_lt b a.

(** [a / b]; a zero divisor is flagged instead of producing a value. *)
Definition num_div (a b : R) : completion R :=
  if Req_dec_T b 0 then Abrupt DivByZero else Normal (a / b).

(** [n || d] on numbers: [0] is falsy. *)
Definition num_or (n d : R) : R := if Req_dec_T n 0 then d else n.

(** [b || d] on booleans. *)
Definition bool_or (b d : bool) : bool := if b then b else d.

(** ** Data model *)

(** A three-element array of numbers, [[a, b, c]]. *)
Record Arr3 : Type := mkArr3 { at0 : R; at1 : R; at2 : R }.

(** An object [{x, y, z}]. *)
Record Vec3 : Type := mkVec3 { vx : R; vy : R; vz : R }.

Definition arr3_zero : Arr3 := mkArr3 0 0 0.
Definition vec3_zero : Vec3 := mkVec3 0 0 0.

Record Imu : Type := mkImu {
  orientation : Arr3;          (* [roll, pitch, yaw], radians *)
  acceleration : Arr3;
  gyroscope : option Arr3
}.

Record Fingers : Type := mkFingers {
  index : R; middle : R; ring : R; little : R
}.

Record Thumb : Type := mkThumb { bend : R }.
Record Palm : Type := mkPalm { pressure : R }.

Record Switches : Type := mkSwitches {
  selectButton : bool; modeButton : bool; confirmButton : bool
}.

(** The body of a [POST /sensor-data] request. *)
Record SensorFrame : Type := mkFrame {
  deviceId : string;           (* an absent id is the empty string *)
  timestamp : R;               (* milliseconds *)
  imu : option Imu;
  fingers : option Fingers;
  thumb : option Thumb;
  palm : option Palm;
  position : option Vec3;
  switches : option Switches
}.

(** The object returned by [calculateMovementData]. *)
Record MovementData : Type := mkMovement {
  orientationDelta : Arr3;
  positionDelta : Vec3;
  velocity : Vec3;
  scaleFactor : R;
  md_orientation : Arr3;
  md_position : Vec3;
  movementMagnitude : R;
  positionMagnitude : R;
  deltaTime : R;
  md_timestamp : R
}.

(** ** calculateMovementData *)

(** [thumb?.bend || 0.5] *)
Definition thumb_bend_or (t : option Thumb) (d : R) : R :=
  match t with
  | Some t => num_or (bend t) d
  | None => d
  end.

(** [currentData.position || { x: 0, y: 0, z: 0 }] *)
Definition position_or_zero (p : option Vec3) : Vec3 :=
  match p with
  | Some p => p
  | None => vec3_zero
  end.

Definition norm3 (a b c : R) : R := sqrt (a * a + b * b + c * c).

Definition pinchDistance (f : Fingers) (t : option Thumb) : R :=
  Rabs (index f - thumb_bend_or t 0.5).

Definition frame_deltaTime (currentData previousData : SensorFrame) : R :=
  (timestamp currentData - timestamp previousData) / 1000.

Definition calculateMovementData
    (currentData : SensorFrame) (previousData : option SensorFrame)
    : completion MovementData :=
  match previousData with
  | None =>
      cimu ← prop_of (imu currentData);
      mret {| orientationDelta := arr3_zero;
              positionDelta := vec3_zero;
              velocity := vec3_zero;
              scaleFactor := 1;
              md_orientation := orientation cimu;
              md_position := position_or_zero (position currentData);
              movementMagnitude := 0;
              positionMagnitude := 0;
              deltaTime := 0;
              md_timestamp := timestamp currentData |}
  | Some previousData =>
      let deltaTime := frame_deltaTime currentData previousData in
      let currentPos := position_or_zero (position currentData) in
      let prevPos := position_or_zero (position previousData) in
      let positionDelta :=
        mkVec3 (vx currentPos - vx prevPos)
               (vy currentPos - vy prevPos)
               (vz currentPos - vz prevPos) in
      velocity ←
        (if num_gt deltaTime 0 then
           qx ← num_div (vx positionDelta) deltaTime;
           qy ← num_div (vy positionDelta) deltaTime;
           qz ← num_div (vz positionDelta) deltaTime;
           mret (mkVec3 qx qy qz)
         else mret vec3_zero);
      cimu ← prop_of (imu currentData);
      pimu ← prop_of (imu previousData);
      let orientationDelta :=
        mkArr3 (at0 (orientation cimu) - at0 (orientation pimu))
               (at1 (orientation cimu) - at1 (orientation pimu))
               (at2 (orientation cimu) - at2 (orientation pimu)) in
      let positionMagnitude :=
        norm3 (vx positionDelta) (vy positionDelta) (vz positionDelta) in
      let orientationMagnitude :=
        norm3 (at0 orientationDelta) (at1 orientationDelta)
              (at2 orientationDelta) in
      let movementMagnitude := Rmax positionMagnitude orientationMagnitude in
      scaleFactor ←
        match fingers currentData, fingers previousData with
        | Some cf, Some pf =>
            let currentPinchDistance := pinchDistance cf (thumb currentData) in
            let prevPinchDistance := pinchDistance pf (thumb previousData) in
            if num_gt prevPinchDistance 0 then
              q ← num_div currentPinchDistance prevPinchDistance;
              mret (Rmax 0.5 (Rmin 2.0 q))
            else mret 1
        | _, _ => mret 1
        end;
      mret {| orientationDelta := orientationDelta;
              positionDelta := positionDelta;
              velocity := velocity;
              scaleFactor := scaleFactor;
              md_orientation := orientation cimu;
              md_position := currentPos;
              movementMagnitude := movementMagnitude;
              positionMagnitude := positionMagnitude;
              deltaTime := deltaTime;
              md_timestamp := timestamp currentData |}
  end.

(** ** classifyGesture and calculateConfidence *)

Record Thresholds : Type := mkThresholds {
  FINGER_CLOSED : R;
  FINGER_OPEN : R;
  PINCH_THRESHOLD : R;
  FIST_THRESHOLD : R;
  PALM_PRESSURE : R
}.

Definition GESTURE_THRESHOLDS : Thresholds :=
  {| FINGER_CLOSED := 0.7;
     FINGER_OPEN := 0.3;
     PINCH_THRESHOLD := 0.6;
     FIST_THRESHOLD := 0.7;
     PALM_PRESSURE := 0.5 |}.

Inductive Gesture : Type := neutral | pinch | fist | open_palm | pointing.

Record GestureDetails : Type := mkDetails {
  isPinch : bool;
  isFist : bool;
  isOpenPalm : bool;
  isPointing : bool;
  closedFingers : nat;
  openFingers : nat
}.

Record GestureResult : Type := mkGestureResult {
  gesture : Gesture;
  confidence : R;
  details : GestureDetails
}.

(** [Object.values(fingers)] *)
Definition Object_values (f : Fingers) : list R :=
  [index f; middle f; ring f; little f].

(** [xs.reduce((a, b) => a + b, 0)] *)
Definition sum_values (xs : list R) : R := fold_left Rplus xs 0.

Definition calculateConfidence
    (g : Gesture) (sensors_fingers : option Fingers)
    (sensors_thumb : option Thumb) : completion R :=
  confidence ←
    match g with
    | pinch =>
        f ← prop_of sensors_fingers;
        t ← prop_of sensors_thumb;
        mret (Rmax 0 (1 - Rabs (index f - bend t) * 2))
    | fist =>
        f ← prop_of sensors_fingers;
        let avgBend := sum_values (Object_values f) / 5 in
        mret (Rmin 1 avgBend)
    | open_palm =>
        f ← prop_of sensors_fingers;
        let avgOpen := 1 - sum_values (Object_values f) / 5 in
        mret (Rmin 1 avgOpen)
    | pointing =>
        f ← prop_of sensors_fingers;
        mret (1 - index f + middle f * 0.5)
    | neutral => mret 0.5
    end;
  mret (Rmax 0.1 (Rmin 1 confidence)).

Definition choose_gesture (isPinch isFist isOpenPalm isPointing : bool)
    : Gesture :=
  if isPinch then pinch
  else if isFist then fist
  else if isOpenPalm then open_palm
  else if isPointing then pointing
  else neutral.

Definition classifyGesture
    (fingers : option Fingers) (thumb : option Thumb) (palm : option Palm)
    : completion GestureResult :=
  f ← prop_of fingers;
  let closedFingers :=
    length (List.filter
              (fun bend => num_gt bend (FINGER_CLOSED GESTURE_THRESHOLDS))
              (Object_values f)) in
  let openFingers :=
    length (List.filter
              (fun bend => num_lt bend (FINGER_OPEN GESTURE_THRESHOLDS))
              (Object_values f)) in
  isPinch ←
    (if num_lt (index f) (PINCH_THRESHOLD GESTURE_THRESHOLDS) then
       t ← prop_of thumb;
       mret (num_lt (bend t) (PINCH_THRESHOLD GESTURE_THRESHOLDS)
             && num_lt (Rabs (index f - bend t)) 0.2)
     else mret false);
  let isFist := (4 <=? closedFingers)%nat in
  let isOpenPalm := (4 <=? openFingers)%nat in
  let isPointing :=
    num_lt (index f) (FINGER_OPEN GESTURE_THRESHOLDS)
    && num_gt (middle f) (FINGER_CLOSED GESTURE_THRESHOLDS)
    && num_gt (ring f) (FINGER_CLOSED GESTURE_THRESHOLDS) in
  let gesture := choose_gesture isPinch isFist isOpenPalm isPointing in
  c ← calculateConfidence gesture fingers thumb;
  mret {| gesture := gesture;
          confidence := c;
          details := mkDetails isPinch isFist isOpenPalm isPointing
                               closedFingers openFingers |}.

(** ** Cursor and mode mapping *)

Inductive TransformMode : Type := translate | rotate | scale | cursor.

Definition gestureToTransformMode (g : Gesture) : TransformMode :=
  match g with
  | open_palm => translate
  | fist => rotate
  | pinch => scale
  | pointing => cursor
  | neutral => translate
  end.

Definition normalizeCursorOrientation (imuData : option Imu)
    : completion Arr3 :=
  i ← prop_of imuData;
  let roll := at0 (orientation i) in
  let pitch := at1 (orientation i) in
  let yaw := at2 (orientation i) in
  mret (mkArr3 (sin yaw * cos pitch) (sin pitch) (cos yaw * cos pitch)).

(** ** processSensorData *)

Record Actions : Type := mkActions {
  selectAction : bool; modeSwitch : bool; confirmAction : bool
}.

Record RawSensorSummary : Type := mkRawSummary {
  raw_imu : Arr3;
  raw_position : option Vec3;
  fingerBends : option Fingers;
  thumbBend : R;
  palmPressure : R
}.

Record ProcessedData : Type := mkProcessed {
  pd_deviceId : string;
  pd_timestamp : R;
  cursorOrientation : Arr3;
  pd_gesture : Gesture;
  gestureConfidence : R;
  pd_transformMode : TransformMode;
  actions : Actions;
  movementData : MovementData;
  rawSensorData : RawSensorSummary
}.

(** The statements of [processSensorData] that follow the write to
    [previousFrameData]. *)
Definition assembleEvent (now : R) (rawData : SensorFrame)
    (movementData : MovementData) : completion ProcessedData :=
  gestureResult ← classifyGesture (fingers rawData) (thumb rawData)
                                  (palm rawData);
  cursorOrientation ← normalizeCursorOrientation (imu rawData);
  let transformMode := gestureToTransformMode (gesture gestureResult) in
  sw ← prop_of (switches rawData);
  let actions :=
    {| selectAction := bool_or (selectButton sw) false;
       modeSwitch := bool_or (modeButton sw) false;
       confirmAction := bool_or (confirmButton sw) false |} in
  i ← prop_of (imu rawData);
  t ← prop_of (thumb rawData);
  p ← prop_of (palm rawData);
  mret {| pd_deviceId := deviceId rawData;
          pd_timestamp := now;
          cursorOrientation := cursorOrientation;
          pd_gesture := gesture gestureResult;
          gestureConfidence := confidence gestureResult;
          pd_transformMode := transformMode;
          actions := actions;
          movementData := movementData;
          rawSensorData :=
            {| raw_imu := orientation i;
               raw_position := position rawData;
               fingerBends := fingers rawData;
               thumbBend := bend t;
               palmPressure := num_or (pressure p) 0 |} |}.

(** [previousFrameData] is threaded explicitly; a write made before an
    exception is thrown stays in the returned store.  [now] is the value of
    [Date.now()]. *)
Definition processSensorData (now : R) (rawData : SensorFrame)
    (previousFrameData : gmap string SensorFrame)
    : completion ProcessedData * gmap string SensorFrame :=
  let previousData := previousFrameData !! deviceId rawData in
  match calculateMovementData rawData previousData with
  | Abrupt e => (Abrupt e, previousFrameData)
  | Normal movementData =>
      let previousFrameData :=
        <[deviceId rawData := rawData]> previousFrameData in
      (assembleEvent now rawData movementData, previousFrameData)
  end.

(** ** The server state and the [POST /sensor-data] handler *)

Record GestureState : Type := mkGestureState {
  leftHand : option ProcessedData;
  rightHand : option ProcessedData;
  selectedObject : option string;
  transformMode : string
}.

Record Server : Type := mkServer {
  previousFrameData : gmap string SensorFrame;
  currentGestureState : GestureState;
  emitted : list ProcessedData   (* [io.emit('gesture-update', _)], in order *)
}.

Definition initialServer : Server :=
  {| previousFrameData := ∅;
     currentGestureState :=
       {| leftHand := None; rightHand := None;
          selectedObject := None; transformMode := "translate" |};
     emitted := [] |}.

Record Summary : Type := mkSummary {
  sum_gesture : Gesture;
  sum_transformMode : TransformMode;
  sum_confidence : R;
  sum_movementMagnitude : R
}.

Inductive Response : Type :=
  | Status400 (error : string) (required : list string)
  | Status200 (processedData : Summary)
  | Status500 (error : string).

(** [s.includes(needle)] *)
Fixpoint includes (s needle : string) : bool :=
  if String.prefix needle s then true
  else match s with
       | EmptyString => false
       | String _ rest => includes rest needle
       end.

(** A non-empty string is truthy. *)
Definition truthy (s : string) : bool :=
  match s with
  | EmptyString => false
  | String _ _ => true
  end.

Definition validFrame (rawSensorData : SensorFrame) : bool :=
  truthy (deviceId rawSensorData)
  && bool_decide (is_Some (imu rawSensorData))
  && bool_decide (is_Some (fingers rawSensorData)).

Definition updateHand (deviceId : string) (processedData : ProcessedData)
    (g : GestureState) : GestureState :=
  if includes deviceId "left" then
    {| leftHand := Some processedData; rightHand := rightHand g;
       selectedObject := selectedObject g; transformMode := transformMode g |}
  else
    {| leftHand := leftHand g; rightHand := Some processedData;
       selectedObject := selectedObject g; transformMode := transformMode g |}.

(** The handler.  Its [try]/[catch] turns a thrown exception into the 500
    response; a [DivByZero] is not an exception and is passed on. *)
Definition postSensorData (now : R) (rawSensorData : SensorFrame) (srv : Server)
    : completion Response * Server :=
  if negb (validFrame rawSensorData) then
    (Normal (Status400 "Missing required sensor data fields"
                       ["deviceId"; "imu"; "fingers"; "thumb"; "switches"]),
     srv)
  else
    match processSensorData now rawSensorData (previousFrameData srv) with
    | (Normal processedData, store) =>
        (Normal (Status200
                   {| sum_gesture := pd_gesture processedData;
                      sum_transformMode := pd_transformMode processedData;
                      sum_confidence := gestureConfidence processedData;
                      sum_movementMagnitude :=
                        movementMagnitude (movementData processedData) |}),
         {| previousFrameData := store;
            currentGestureState :=
              updateHand (deviceId rawSensorData) processedData
                         (currentGestureState srv);
            emitted := emitted srv ++ [processedData] |})
    | (Abrupt TypeError, store) =>
        (Normal (Status500 "Internal server error"),
         {| previousFrameData := store;
            currentGestureState := currentGestureState srv;
            emitted := emitted srv |})
    | (Abrupt DivByZero, store) =>
        (Abrupt DivByZero,
         {| previousFrameData := store;
            currentGestureState := currentGestureState srv;
            emitted := emitted srv |})
    end.

(** ** The movement calculator without its guards

    [velocityOf] and [scaleFactorOf] are the two guarded quotients of
    [calculateMovementData] written with the total division of the reals;
    [calculateMovementData_paired] shows the guards of the code make the
    partial division agree with them, so no division by zero is reached. *)

Definition rawPositionDelta (currentData previousData : SensorFrame) : Vec3 :=
  let c := position_or_zero (position currentData) in
  let p := position_or_zero (position previousData) in
  mkVec3 (vx c - vx p) (vy c - vy p) (vz c - vz p).

Definition rawOrientationDelta (cimu pimu : Imu) : Arr3 :=
  mkArr3 (at0 (orientation cimu) - at0 (orientation pimu))
         (at1 (orientation cimu) - at1 (orientation pimu))
         (at2 (orientation cimu) - at2 (orientation pimu)).

Definition in_range (lo hi x : R) : Prop := lo <= x <= hi.

Definition norm_vec (v : Vec3) : R := norm3 (vx v) (vy v) (vz v).
Definition norm_arr (a : Arr3) : R := norm3 (at0 a) (at1 a) (at2 a).

Definition velocityOf (positionDelta : Vec3) (deltaTime : R) : Vec3 :=
  if num_gt deltaTime 0 then
    mkVec3 (vx positionDelta / deltaTime) (vy positionDelta / deltaTime)
           (vz positionDelta / deltaTime)
  else vec3_zero.

Definition scaleFactorOf (currentData previousData : SensorFrame) : R :=
  match fingers currentData, fingers previousData with
  | Some cf, Some pf =>
      if num_gt (pinchDistance pf (thumb previousData)) 0 then
        Rmax 0.5 (Rmin 2.0 (pinchDistance cf (thumb currentData)
                            / pinchDistance pf (thumb previousData)))
      else 1
  | _, _ => 1
  end.


(** ** The classifier on a frame that carries fingers and thumb

    The tests and the confidence of [classifyGesture] as total functions of
    the finger and thumb bends, for frames on which no property read throws
    ([classifyGesture_present]). *)

Definition closedCount (f : Fingers) : nat :=
  length (List.filter
            (fun bend => num_gt bend (FINGER_CLOSED GESTURE_THRESHOLDS))
            (Object_values f)).

Definition openCount (f : Fingers) : nat :=
  length (List.filter
            (fun bend => num_lt bend (FINGER_OPEN GESTURE_THRESHOLDS))
            (Object_values f)).

Definition pinchTest (f : Fingers) (t : Thumb) : bool :=
  if num_lt (index f) (PINCH_THRESHOLD GESTURE_THRESHOLDS) then
    num_lt (bend t) (PINCH_THRESHOLD GESTURE_THRESHOLDS)
    && num_lt (Rabs (index f - bend t)) 0.2
  else false.

Definition pointingTest (f : Fingers) : bool :=
  num_lt (index f) (FINGER_OPEN GESTURE_THRESHOLDS)
  && num_gt (middle f) (FINGER_CLOSED GESTURE_THRESHOLDS)
  && num_gt (ring f) (FINGER_CLOSED GESTURE_THRESHOLDS).

Definition detailsOf (f : Fingers) (t : Thumb) : GestureDetails :=
  mkDetails (pinchTest f t) (4 <=? closedCount f)%nat (4 <=? openCount f)%nat
            (pointingTest f) (closedCount f) (openCount f).

Definition gestureOf (f : Fingers) (t : Thumb) : Gesture :=
  choose_gesture (pinchTest f t) (4 <=? closedCount f)%nat
                 (4 <=? openCount f)%nat (pointingTest f).

Definition rawConfidence (g : Gesture) (f : Fingers) (t : Thumb) : R :=
  match g with
  | pinch => Rmax 0 (1 - Rabs (index f - bend t) * 2)
  | fist => Rmin 1 (sum_values (Object_values f) / 5)
  | open_palm => Rmin 1 (1 - sum_values (Object_values f) / 5)
  | pointing => 1 - index f + middle f * 0.5
  | neutral => 0.5
  end.

Definition confidenceOf (g : Gesture) (f : Fingers) (t : Thumb) : R :=
  Rmax 0.1 (Rmin 1 (rawConfidence g f t)).

(** [x] is within [tol] of [c]. *)
Definition approx (c tol x : R) : Prop := Rabs (x - c) <= tol.

(** ** The handler on a frame that carries every object it reads *)

(** The event [assembleEvent] builds when no property read throws. *)
Definition eventOf (now : R) (rawData : SensorFrame) (md : MovementData)
    (i : Imu) (f : Fingers) (t : Thumb) (p : Palm) (sw : Switches)
    : ProcessedData :=
  {| pd_deviceId := deviceId rawData;
     pd_timestamp := now;
     cursorOrientation :=
       mkArr3 (sin (at2 (orientation i)) * cos (at1 (orientation i)))
              (sin (at1 (orientation i)))
              (cos (at2 (orientation i)) * cos (at1 (orientation i)));
     pd_gesture := gestureOf f t;
     gestureConfidence := confidenceOf (gestureOf f t) f t;
     pd_transformMode := gestureToTransformMode (gestureOf f t);
     actions :=
       {| selectAction := bool_or (selectButton sw) false;
          modeSwitch := bool_or (modeButton sw) false;
          confirmAction := bool_or (confirmButton sw) false |};
     movementData := md;
     rawSensorData :=
       {| raw_imu := orientation i;
          raw_position := position rawData;
          fingerBends := fingers rawData;
          thumbBend := bend t;
          palmPressure := num_or (pressure p) 0 |} |}.

Definition summaryOf (pd : ProcessedData) : Summary :=
  {| sum_gesture := pd_gesture pd;
     sum_transformMode := pd_transformMode pd;
     sum_confidence := gestureConfidence pd;
     sum_movementMagnitude := movementMagnitude (movementData pd) |}.

(** Every frame of the history store passed the handler's validation of
    [imu]: the invariant of [previousFrameData]. *)
Definition store_ok (store : gmap string SensorFrame) : Prop :=
  forall id fr, store !! id = Some fr -> is_Some (imu fr).

(** ** Sample frames

    Concrete request bodies, in the shape the glove simulator and the
    movement test script send them. *)

Definition sampleImu (o : Arr3) : Imu :=
  {| orientation := o;
     acceleration := mkArr3 0 9.8 0;
     gyroscope := Some arr3_zero |}.

Definition sampleFrame (id : string) (ts : R) (o : Arr3) (p : option Vec3)
    (f : Fingers) (t : option Thumb) : SensorFrame :=
  {| deviceId := id;
     timestamp := ts;
     imu := Some (sampleImu o);
     fingers := Some f;
     thumb := t;
     palm := Some (mkPalm 0.3);
     position := p;
     switches := Some (mkSwitches false false false) |}.

Definition relaxedFingers : Fingers := mkFingers 0.4 0.4 0.4 0.4.

(** A hand at rest at the origin at time 0. *)
Definition restFrame : SensorFrame :=
  sampleFrame "rightHand1" 0 arr3_zero (Some vec3_zero) relaxedFingers
              (Some (mkThumb 0.9)).

(** 100 ms later: moved 0.3 along x and rolled by 0.4 rad. *)
Definition movedFrame : SensorFrame :=
  sampleFrame "rightHand1" 100 (mkArr3 0.4 0 0) (Some (mkVec3 0.3 0 0))
              relaxedFingers (Some (mkThumb 0.9)).

(** Yaw near the +pi/-pi seam: 3 rad, after -3 rad 100 ms earlier. *)
Definition seamBefore : SensorFrame :=
  sampleFrame "rightHand1" 0 (mkArr3 0 0 (-3)) (Some vec3_zero) relaxedFingers
              (Some (mkThumb 0.9)).

Definition seamAfter : SensorFrame :=
  sampleFrame "rightHand1" 100 (mkArr3 0 0 3) (Some vec3_zero) relaxedFingers
              (Some (mkThumb 0.9)).

(** The hand one metre along x, with a chosen timestamp. *)
Definition shiftedFrame (ts : R) : SensorFrame :=
  sampleFrame "rightHand1" ts arr3_zero (Some (mkVec3 1 0 0)) relaxedFingers
              (Some (mkThumb 0.9)).

(** Every bend, the thumb's included, at 0.05; the gyroscope reads zero. *)
Definition flatHandFrame : SensorFrame :=
  sampleFrame "rightHand1" 0 arr3_zero (Some vec3_zero)
              (mkFingers 0.05 0.05 0.05 0.05) (Some (mkThumb 0.05)).

(** Thumb, middle, ring and little closed, index open. *)
Definition thumbAndThreeClosed : SensorFrame :=
  sampleFrame "rightHand1" 0 arr3_zero (Some vec3_zero)
              (mkFingers 0.1 0.9 0.9 0.9) (Some (mkThumb 0.9)).

(** The open palm of the movement test script: fingers at 0.1, thumb 0.5. *)
Definition openPalmFrame : SensorFrame :=
  sampleFrame "rightHand1" 0 arr3_zero (Some vec3_zero)
              (mkFingers 0.1 0.1 0.1 0.1) (Some (mkThumb 0.5)).

(** The fist of the glove simulator: every bend at 0.9. *)
Definition fistFrame : SensorFrame :=
  sampleFrame "rightHand1" 0 arr3_zero (Some vec3_zero)
              (mkFingers 0.9 0.9 0.9 0.9) (Some (mkThumb 0.9)).

(** [openPalmFrame] as a glove would send it without a thumb sensor. *)
Definition noThumbFrame : SensorFrame :=
  sampleFrame "rightHand1" 0 arr3_zero (Some vec3_zero)
              (mkFingers 0.1 0.1 0.1 0.1) None.

(** [openPalmFrame] without a position, from the left hand. *)
Definition noPositionFrame : SensorFrame :=
  sampleFrame "leftHand1" 0 arr3_zero None
              (mkFingers 0.1 0.1 0.1 0.1) (Some (mkThumb 0.5)).

(** [openPalmFrame] without the palm object, and without the switches. *)
Definition noPalmFrame : SensorFrame :=
  {| deviceId := "rightHand1"; timestamp := 0;
     imu := Some (sampleImu arr3_zero);
     fingers := Some (mkFingers 0.1 0.1 0.1 0.1);
     thumb := Some (mkThumb 0.5);
     palm := None;
     position := Some vec3_zero;
     switches := Some (mkSwitches false false false) |}.

Definition noSwitchesFrame : SensorFrame :=
  {| deviceId := "rightHand1"; timestamp := 0;
     imu := Some (sampleImu arr3_zero);
     fingers := Some (mkFingers 0.1 0.1 0.1 0.1);
     thumb := Some (mkThumb 0.5);
     palm := Some (mkPalm 0.3);
     position := Some vec3_zero;
     switches := None |}.

(** A server whose history holds [restFrame] for the right hand, with an
    object selected and the mode changed by a client. *)
Definition busyServer : Server :=
  {| previousFrameData := {[ "rightHand1"%string := restFrame ]};
     currentGestureState :=
       {| leftHand := None; rightHand := None;
          selectedObject := Some "cube-1"%string;
          transformMode := "rotate" |};
     emitted := [] |}.

(** ** Frames that carry every object the handler reads *)

Definition completeFrame (f : SensorFrame) : Prop :=
  deviceId f <> ""%string
  /\ is_Some (imu f) /\ is_Some (fingers f)
  /\ is_Some (thumb f) /\ is_Some (palm f) /\ is_Some (switches f).

(** A frame of the left hand, complete, at the origin. *)
Definition leftPalmFrame : SensorFrame :=
  sampleFrame "leftHand1" 50 arr3_zero (Some vec3_zero)
              (mkFingers 0.1 0.1 0.1 0.1) (Some (mkThumb 0.5)).

(** ** Subscribers: the socket handlers and the remaining endpoints *)

(** What the server sends to a subscriber. *)
Inductive Message : Type :=
  | InitialState (state : GestureState)
  | GestureUpdate (data : ProcessedData)
  | ObjectSelected (objectId : string)
  | TransformModeChanged (mode : string)
  | CalibrationComplete (deviceId : string).

(** The server together with its subscribers: [connectedClients] is the set
    of socket ids the connection handler maintains, [delivered id] lists what
    the socket [id] has been sent, oldest first. *)
Record Hub : Type := mkHub {
  hub_server : Server;
  connectedClients : gset string;
  delivered : string -> list Message
}.

Definition initialHub : Hub :=
  {| hub_server := initialServer;
     connectedClients := ∅;
     delivered := fun _ => [] |}.

(** Modelled from the spec: the delivery of socket.io, which is a library
    and not part of the repository.  [io.emit] reaches every connected
    socket, [socket.emit] the socket itself, [socket.broadcast.emit] every
    connected socket but the sender. *)
Definition send_to (targets : gset string) (m : Message)
    (d : string -> list Message) : string -> list Message :=
  fun id => if decide (id ∈ targets) then d id ++ [m] else d id.

Definition io_emit (m : Message) (hub : Hub) : Hub :=
  {| hub_server := hub_server hub;
     connectedClients := connectedClients hub;
     delivered := send_to (connectedClients hub) m (delivered hub) |}.

Definition socket_emit (socketId : string) (m : Message) (hub : Hub) : Hub :=
  {| hub_server := hub_server hub;
     connectedClients := connectedClients hub;
     delivered := send_to {[ socketId ]} m (delivered hub) |}.

Definition socket_broadcast_emit (socketId : string) (m : Message)
    (hub : Hub) : Hub :=
  {| hub_server := hub_server hub;
     connectedClients := connectedClients hub;
     delivered :=
       send_to (connectedClients hub ∖ {[ socketId ]}) m (delivered hub) |}.

Definition setGestureState (g : GestureState) (hub : Hub) : Hub :=
  {| hub_server :=
       {| previousFrameData := previousFrameData (hub_server hub);
          currentGestureState := g;
          emitted := emitted (hub_server hub) |};
     connectedClients := connectedClients hub;
     delivered := delivered hub |}.

(** [io.on('connection', socket => ...)] *)
Definition onConnection (socketId : string) (hub : Hub) : Hub :=
  let hub :=
    {| hub_server := hub_server hub;
       connectedClients := {[ socketId ]} ∪ connectedClients hub;
       delivered := delivered hub |} in
  socket_emit socketId
    (InitialState (currentGestureState (hub_server hub))) hub.

(** [socket.on('select-object', objectId => ...)] *)
Definition onSelectObject (socketId objectId : string) (hub : Hub) : Hub :=
  let g := currentGestureState (hub_server hub) in
  let hub :=
    setGestureState
      {| leftHand := leftHand g; rightHand := rightHand g;
         selectedObject := Some objectId;
         transformMode := transformMode g |} hub in
  socket_broadcast_emit socketId (ObjectSelected objectId) hub.

(** [socket.on('transform-mode-change', mode => ...)] *)
Definition onTransformModeChange (socketId mode : string) (hub : Hub) : Hub :=
  let g := currentGestureState (hub_server hub) in
  let hub :=
    setGestureState
      {| leftHand := leftHand g; rightHand := rightHand g;
         selectedObject := selectedObject g;
         transformMode := mode |} hub in
  socket_broadcast_emit socketId (TransformModeChanged mode) hub.

(** [socket.on('disconnect', ...)] *)
Definition onDisconnect (socketId : string) (hub : Hub) : Hub :=
  {| hub_server := hub_server hub;
     connectedClients := connectedClients hub ∖ {[ socketId ]};
     delivered := delivered hub |}.

(** [POST /sensor-data] with its subscribers: every event the handler
    emitted goes to every connected socket. *)
Definition hubPostSensorData (now : R) (rawSensorData : SensorFrame)
    (hub : Hub) : completion Response * Hub :=
  let '(r, srv) := postSensorData now rawSensorData (hub_server hub) in
  let fresh := drop (length (emitted (hub_server hub))) (emitted srv) in
  (r, {| hub_server := srv;
         connectedClients := connectedClients hub;
         delivered :=
           fold_left (fun d data =>
                        send_to (connectedClients hub) (GestureUpdate data) d)
                     fresh (delivered hub) |}).

Record CalibrateResponse : Type := mkCalibrateResponse {
  cal_status : string;
  cal_deviceId : string
}.

(** [POST /calibrate] *)
Definition postCalibrate (deviceId : string) (hub : Hub)
    : CalibrateResponse * Hub :=
  ({| cal_status := "calibration-saved"; cal_deviceId := deviceId |},
   io_emit (CalibrationComplete deviceId) hub).

Record StateReport : Type := mkStateReport {
  rep_currentState : GestureState;
  rep_connectedClients : nat;
  rep_timestamp : R
}.

(** [GET /current-state] *)
Definition getCurrentState (now : R) (hub : Hub) : StateReport :=
  {| rep_currentState := currentGestureState (hub_server hub);
     rep_connectedClients := size (connectedClients hub);
     rep_timestamp := now |}.

Record HealthReport : Type := mkHealthReport {
  health_status : string;
  health_uptime : R;
  health_connectedClients : nat
}.

(** [GET /health] *)
Definition getHealth (uptime : R) (hub : Hub) : HealthReport :=
  {| health_status := "healthy";
     health_uptime := uptime;
     health_connectedClients := size (connectedClients hub) |}.

(** ** The subscriber's mirror of the gesture state (useGestureWebSocket) *)

Definition initialGestureState : GestureState :=
  {| leftHand := None; rightHand := None;
     selectedObject := None; transformMode := "translate" |}.

(** The [socket.on] handlers of the hook, as one function of the state and
    the message received. *)
Definition clientOnMessage (prev : GestureState) (m : Message)
    : GestureState :=
  match m with
  | InitialState state => state
  | GestureUpdate data =>
      if includes (pd_deviceId data) "left" then
        {| leftHand := Some data; rightHand := rightHand prev;
           selectedObject := selectedObject prev;
           transformMode := transformMode prev |}
      else
        {| leftHand := leftHand prev; rightHand := Some data;
           selectedObject := selectedObject prev;
           transformMode := transformMode prev |}
  | ObjectSelected objectId =>
      {| leftHand := leftHand prev; rightHand := rightHand prev;
         selectedObject := Some objectId;
         transformMode := transformMode prev |}
  | TransformModeChanged mode =>
      {| leftHand := leftHand prev; rightHand := rightHand prev;
         selectedObject := selectedObject prev;
         transformMode := mode |}
  | CalibrationComplete _ => prev
  end.

(** The state of a subscriber that has handled the messages [msgs]. *)
Definition clientState (msgs : list Message) : GestureState :=
  fold_left clientOnMessage msgs initialGestureState.

(** The subscriber [id] sees the gesture state the server holds. *)
Definition mirror_ok (hub : Hub) (id : string) : Prop :=
  clientState (delivered hub id) = currentGestureState (hub_server hub).

(** [getCursorRay(hand)] of the hook. *)
Record CursorRay : Type := mkCursorRay { origin : Arr3; direction : Arr3 }.

Inductive Hand : Type := left_hand | right_hand.

Definition handData (g : GestureState) (hand : Hand) : option ProcessedData :=
  match hand with
  | left_hand => leftHand g
  | right_hand => rightHand g
  end.

Definition getCursorRay (g : GestureState) (hand : Hand) : option CursorRay :=
  match handData g hand with
  | None => None
  | Some data =>
      Some {| origin := arr3_zero; direction := cursorOrientation data |}
  end.

#[global] Instance Gesture_eq_dec : EqDecision Gesture.
Proof. solve_decision. Defined.

(** [isGestureActive(gesture, hand, minConfidence)] of the hook. *)
Definition isGestureActive (g : GestureState) (gesture : Gesture)
    (hand : Hand) (minConfidence : R) : bool :=
  match handData g hand with
  | None => false
  | Some data =>
      bool_decide (pd_gesture data = gesture)
      && negb (num_lt (gestureConfidence data) minConfidence)
  end.

(** A hub with the subscribers ["a"] and ["b"], both connected to the
    initial server. *)
Definition twoClientHub : Hub :=
  onConnection "b" (onConnection "a" initialHub).

(** * The glove simulator (glove-simulator.js) *)

Record Pattern : Type := mkPattern {
  pat_fingers : Fingers;
  pat_thumb : Thumb;
  pat_palm : Palm
}.

Definition GESTURE_PATTERNS (g : Gesture) : Pattern :=
  match g with
  | pointing => mkPattern (mkFingers 0.1 0.8 0.9 0.8) (mkThumb 0.7) (mkPalm 0.2)
  | open_palm => mkPattern (mkFingers 0.1 0.1 0.2 0.2) (mkThumb 0.1) (mkPalm 0.1)
  | fist => mkPattern (mkFingers 0.9 0.9 0.9 0.9) (mkThumb 0.9) (mkPalm 0.8)
  | pinch => mkPattern (mkFingers 0.3 0.8 0.8 0.8) (mkThumb 0.3) (mkPalm 0.4)
  | neutral => mkPattern (mkFingers 0.4 0.4 0.4 0.4) (mkThumb 0.4) (mkPalm 0.3)
  end.

Definition DEVICE_ID : string := "rightHand1".

Definition gestureSequence : list Gesture :=
  [neutral; pointing; pinch; fist; open_palm].

Record GloveSimulator : Type := mkSimulator {
  currentGesture : Gesture;
  gestureStartTime : R;
  gestureDuration : R;
  handOrientation : Arr3;      (* roll, pitch, yaw *)
  sequenceIndex : nat
}.

(** The simulator as its constructor leaves it; [start] is the value of
    [Date.now()] then. *)
Definition newSimulator (start : R) : GloveSimulator :=
  {| currentGesture := neutral;
     gestureStartTime := start;
     gestureDuration := 3000;
     handOrientation := arr3_zero;
     sequenceIndex := 0 |}.

(** [addNoise(value, noiseAmount)]; [rnd] is the value of [Math.random()]. *)
Definition addNoise (value noiseAmount rnd : R) : R :=
  value + (rnd - 0.5) * 2 * noiseAmount.

(** The values [Math.random()] returns during one [generateSensorData]. *)
Record Draws : Type := mkDraws {
  rnd_roll : R; rnd_pitch : R; rnd_yaw : R;
  rnd_index : R; rnd_middle : R; rnd_ring : R; rnd_little : R;
  rnd_ax : R; rnd_ay : R; rnd_az : R;
  rnd_thumb : R; rnd_palm : R
}.

(** [Math.random()] returns a number in [0, 1). *)
Definition unit_draw (r : R) : Prop := 0 <= r < 1.

Definition unit_draws (d : Draws) : Prop :=
  unit_draw (rnd_roll d) /\ unit_draw (rnd_pitch d) /\ unit_draw (rnd_yaw d)
  /\ unit_draw (rnd_index d) /\ unit_draw (rnd_middle d)
  /\ unit_draw (rnd_ring d) /\ unit_draw (rnd_little d)
  /\ unit_draw (rnd_ax d) /\ unit_draw (rnd_ay d) /\ unit_draw (rnd_az d)
  /\ unit_draw (rnd_thumb d) /\ unit_draw (rnd_palm d).

(** [updateHandOrientation()]; [now] is [Date.now()]. *)
Definition updateHandOrientation (now : R) (d : Draws) (sim : GloveSimulator)
    : GloveSimulator :=
  let time := now / 1000 in
  {| currentGesture := currentGesture sim;
     gestureStartTime := gestureStartTime sim;
     gestureDuration := gestureDuration sim;
     handOrientation :=
       mkArr3 (addNoise (sin (time * 0.5) * 0.3) 0.05 (rnd_roll d))
              (addNoise (sin (time * 0.3) * 0.4) 0.05 (rnd_pitch d))
              (addNoise (sin (time * 0.2) * 0.6) 0.05 (rnd_yaw d));
     sequenceIndex := sequenceIndex sim |}.

(** [updateGesture()] *)
Definition updateGesture (currentTime : R) (sim : GloveSimulator)
    : GloveSimulator :=
  if num_gt (currentTime - gestureStartTime sim) (gestureDuration sim) then
    let sequenceIndex :=
      ((sequenceIndex sim + 1) mod length gestureSequence)%nat in
    {| currentGesture := nth sequenceIndex gestureSequence neutral;
       gestureStartTime := currentTime;
       gestureDuration := gestureDuration sim;
       handOrientation := handOrientation sim;
       sequenceIndex := sequenceIndex |}
  else sim.

Definition clamp01 (x : R) : R := Rmax 0 (Rmin 1 x).

(** [generateSensorData()]: the generated frame and the simulator after
    it.  [tOrient], [tGesture] and [tStamp] are the three readings of
    [Date.now()]. *)
Definition generateSensorData (tOrient tGesture tStamp : R) (d : Draws)
    (sim : GloveSimulator) : SensorFrame * GloveSimulator :=
  let sim := updateHandOrientation tOrient d sim in
  let sim := updateGesture tGesture sim in
  let basePattern := GESTURE_PATTERNS (currentGesture sim) in
  let noisyFingers :=
    {| index := clamp01 (addNoise (index (pat_fingers basePattern)) 0.1
                                  (rnd_index d));
       middle := clamp01 (addNoise (middle (pat_fingers basePattern)) 0.1
                                   (rnd_middle d));
       ring := clamp01 (addNoise (ring (pat_fingers basePattern)) 0.1
                                 (rnd_ring d));
       little := clamp01 (addNoise (little (pat_fingers basePattern)) 0.1
                                   (rnd_little d)) |} in
  ({| deviceId := DEVICE_ID;
      timestamp := tStamp;
      imu := Some {| orientation := handOrientation sim;
                     acceleration :=
                       mkArr3 (addNoise 0 0.1 (rnd_ax d))
                              (addNoise 9.8 0.2 (rnd_ay d))
                              (addNoise 0 0.1 (rnd_az d));
                     gyroscope := None |};
      fingers := Some noisyFingers;
      thumb := Some {| bend := clamp01 (addNoise (bend (pat_thumb basePattern))
                                                 0.1 (rnd_thumb d)) |};
      palm := Some {| pressure :=
                        clamp01 (addNoise (pressure (pat_palm basePattern))
                                          0.05 (rnd_palm d)) |};
      position := None;
      switches :=
        Some {| selectButton := false;
                modeButton := false;
                confirmButton :=
                  bool_decide (currentGesture sim = pinch) |} |},
   sim).

(** Draws at the middle of the range: no noise. *)
Definition middleDraws : Draws :=
  mkDraws 0.5 0.5 0.5 0.5 0.5 0.5 0.5 0.5 0.5 0.5 0.5 0.5.

(** A simulator that is showing the gesture [g]. *)
Definition showing (g : Gesture) : GloveSimulator :=
  {| currentGesture := g;
     gestureStartTime := 0;
     gestureDuration := 3000;
     handOrientation := arr3_zero;
     sequenceIndex := 0 |}.

(** The event the server builds from [openPalmFrame] as a first frame, and
    a gesture state that holds it for the right hand. *)
Definition openPalmEvent : ProcessedData :=
  eventOf 0 openPalmFrame
    {| orientationDelta := arr3_zero; positionDelta := vec3_zero;
       velocity := vec3_zero; scaleFactor := 1;
       md_orientation := arr3_zero; md_position := vec3_zero;
       movementMagnitude := 0; positionMagnitude := 0; deltaTime := 0;
       md_timestamp := 0 |}
    (sampleImu arr3_zero) (mkFingers 0.1 0.1 0.1 0.1) (mkThumb 0.5)
    (mkPalm 0.3) (mkSwitches false false false).

Definition openPalmState : GestureState :=
  {| leftHand := None; rightHand := Some openPalmEvent;
     selectedObject := None; transformMode := "translate" |}.

(** * The scene store of the editor (sceneStore.ts) *)

Inductive PrimitiveType : Type := cube | sphere | plane.

Record SceneObject : Type := mkSceneObject {
  obj_id : string;
  obj_type : PrimitiveType;
  obj_position : Arr3;
  parentId : option string     (* absent and [null] are both [None] *)
}.

Record HistoryState : Type := mkHistory {
  past : list (list SceneObject);     (* oldest first *)
  present : list SceneObject;
  future : list (list SceneObject)    (* next first *)
}.

(** The zustand state ([objects], [selectedId]) together with the
    module-level [historyStore]. *)
Record SceneStore : Type := mkSceneStore {
  objects : list SceneObject;
  selectedId : option string;
  historyStore : HistoryState
}.

Definition initialSceneStore : SceneStore :=
  {| objects := [];
     selectedId := None;
     historyStore := {| past := []; present := []; future := [] |} |}.

Definition pushHistory (newObjects : list SceneObject) (st : SceneStore)
    : SceneStore :=
  let h := historyStore st in
  {| objects := newObjects;
     selectedId := selectedId st;
     historyStore :=
       {| past := past h ++ [present h];
          present := newObjects;
          future := [] |} |}.

(** [addObject(type, parentId)]; [id] is the value of [nanoid()], [rx] and
    [rz] are the two values of [Math.random()]. *)
Definition addObject (id : string) (rx rz : R) (type : PrimitiveType)
    (parent : option string) (st : SceneStore) : SceneStore :=
  let newObj :=
    {| obj_id := id;
       obj_type := type;
       obj_position := mkArr3 (rx * 2 - 1) 1 (rz * 2 - 1);
       parentId := parent |} in
  let newObjects := objects st ++ [newObj] in
  pushHistory newObjects st.

Definition selectObject (id : option string) (st : SceneStore) : SceneStore :=
  {| objects := objects st;
     selectedId := id;
     historyStore := historyStore st |}.

Definition updateObjectPosition (id : string) (position : Arr3)
    (st : SceneStore) : SceneStore :=
  let newObjects :=
    map (fun o =>
           if decide (obj_id o = id) then
             {| obj_id := obj_id o; obj_type := obj_type o;
                obj_position := position; parentId := parentId o |}
           else o)
        (objects st) in
  pushHistory newObjects st.

Definition setParent (id : string) (parent : option string)
    (st : SceneStore) : SceneStore :=
  let newObjects :=
    map (fun o =>
           if decide (obj_id o = id) then
             {| obj_id := obj_id o; obj_type := obj_type o;
                obj_position := obj_position o; parentId := parent |}
           else o)
        (objects st) in
  pushHistory newObjects st.

(** [undo()]: [last] is [Some] exactly when [past.length > 0]. *)
Definition undo (st : SceneStore) : SceneStore :=
  let history := historyStore st in
  match last (past history) with
  | Some previous =>
      {| objects := previous;
         selectedId := selectedId st;
         historyStore :=
           {| past := removelast (past history);
              present := previous;
              future := present history :: future history |} |}
  | None => st
  end.

(** [redo()] *)
Definition redo (st : SceneStore) : SceneStore :=
  let history := historyStore st in
  match future history with
  | next :: rest =>
      {| objects := next;
         selectedId := selectedId st;
         historyStore :=
           {| past := past history ++ [present history];
              present := next;
              future := rest |} |}
  | [] => st
  end.

(** The operations of the store as data, to speak of sequences of them. *)
Inductive StoreAction : Type :=
  | AddObject (id : string) (rx rz : R) (type : PrimitiveType)
              (parent : option string)
  | SelectObject (id : option string)
  | UpdateObjectPosition (id : string) (position : Arr3)
  | SetParent (id : string) (parent : option string)
  | Undo
  | Redo.

Definition applyAction (st : SceneStore) (a : StoreAction) : SceneStore :=
  match a with
  | AddObject id rx rz type parent => addObject id rx rz type parent st
  | SelectObject id => selectObject id st
  | UpdateObjectPosition id position => updateObjectPosition id position st
  | SetParent id parent => setParent id parent st
  | Undo => undo st
  | Redo => redo st
  end.

Definition runActions (acts : list StoreAction) (st : SceneStore)
    : SceneStore :=
  fold_left applyAction acts st.

(** An action that changes the scene through [pushHistory]. *)
Definition isEdit (a : StoreAction) : bool :=
  match a with
  | AddObject _ _ _ _ _ | UpdateObjectPosition _ _ | SetParent _ _ => true
  | SelectObject _ | Undo | Redo => false
  end.

(** [objects] and [historyStore.present] hold the same scene. *)
Definition store_synced (st : SceneStore) : Prop :=
  objects st = present (historyStore st).

(** Every snapshot the history holds, oldest first. *)
Definition timeline (st : SceneStore) : list (list SceneObject) :=
  past (historyStore st) ++ [present (historyStore st)]
  ++ future (historyStore st).

(** [objects.find(o => o.id === id)] *)
Definition findObject (id : string) (objs : list SceneObject)
    : option SceneObject :=
  List.find (fun o => bool_decide (obj_id o = id)) objs.

(** The ids [AddObject] is given are new: none is the id of an object of the
    scene it is added to. *)
Fixpoint fresh_ids (acts : list StoreAction) (st : SceneStore) : Prop :=
  match acts with
  | [] => True
  | a :: rest =>
      match a with
      | AddObject id _ _ _ _ => Forall (fun o => obj_id o <> id) (objects st)
      | _ => True
      end
      /\ fresh_ids rest (applyAction st a)
  end.

Definition distinct_ids (objs : list SceneObject) : Prop :=
  NoDup (map obj_id objs).

(** A scene with a cube and a sphere, the sphere added last. *)
Definition twoObjectStore : SceneStore :=
  runActions [AddObject "a1" 0.5 0.5 cube None;
              AddObject "b2" 0.25 0.75 sphere (Some "a1"%string)]
             initialSceneStore.

(** * The gesture effect of the editor canvas (EditorCanvas.tsx) *)

(** A three.js mesh, as far as the effect touches it. *)
Record Mesh : Type := mkMesh {
  mesh_position : Vec3;
  mesh_rotation : Vec3;
  mesh_scale : Vec3
}.

(** [scale.setScalar(s)] *)
Definition setScalar (s : R) : Vec3 := mkVec3 s s s.

(** A non-empty id is truthy. *)
Definition truthy_id (id : option string) : option string :=
  match id with
  | Some s => if truthy s then Some s else None
  | None => None
  end.

(** The effect that applies the right hand's event to the selected mesh.
    An event of the server always carries [movementData]. *)
Definition gestureEffect (isGestureMode : bool)
    (rightHand : option ProcessedData) (meshRefs : gmap string Mesh)
    (st : SceneStore) : gmap string Mesh * SceneStore :=
  if negb isGestureMode then (meshRefs, st) else
  match rightHand, truthy_id (selectedId st) with
  | Some rh, Some sel =>
      match meshRefs !! sel with
      | None => (meshRefs, st)
      | Some selectedMesh =>
          let movementData := movementData rh in
          if num_lt (gestureConfidence rh) 0.6 then (meshRefs, st) else
          match pd_gesture rh with
          | open_palm =>
              if num_gt (positionMagnitude movementData) 0.01 then
                let sensitivity := 2.0 in
                let pos :=
                  mkVec3 (vx (mesh_position selectedMesh)
                          + vx (positionDelta movementData) * sensitivity)
                         (vy (mesh_position selectedMesh)
                          + vy (positionDelta movementData) * sensitivity)
                         (vz (mesh_position selectedMesh)
                          + vz (positionDelta movementData) * sensitivity) in
                (<[sel := mkMesh pos (mesh_rotation selectedMesh)
                                 (mesh_scale selectedMesh)]> meshRefs,
                 updateObjectPosition sel (mkArr3 (vx pos) (vy pos) (vz pos))
                                      st)
              else (meshRefs, st)
          | fist =>
              if num_gt (movementMagnitude movementData) 0.01 then
                let rotationSensitivity := 2.0 in
                let rot :=
                  mkVec3 (vx (mesh_rotation selectedMesh)
                          + at0 (orientationDelta movementData)
                            * rotationSensitivity)
                         (vy (mesh_rotation selectedMesh)
                          + at2 (orientationDelta movementData)
                            * rotationSensitivity)
                         (vz (mesh_rotation selectedMesh)
                          + at1 (orientationDelta movementData)
                            * rotationSensitivity) in
                (<[sel := mkMesh (mesh_position selectedMesh) rot
                                 (mesh_scale selectedMesh)]> meshRefs,
                 st)
              else (meshRefs, st)
          | pinch =>
              if num_gt (Rabs (scaleFactor movementData - 1.0)) 0.05 then
                let currentScale := vx (mesh_scale selectedMesh) in
                let newScale :=
                  Rmax 0.1 (Rmin 5.0
                              (currentScale * scaleFactor movementData)) in
                (<[sel := mkMesh (mesh_position selectedMesh)
                                 (mesh_rotation selectedMesh)
                                 (setScalar newScale)]> meshRefs,
                 st)
              else (meshRefs, st)
          | _ => (meshRefs, st)
          end
      end
  | _, _ => (meshRefs, st)
  end.

(** A mesh scaled equally along its axes, by a factor the effect can
    produce. *)
Definition scale_ok (m : Mesh) : Prop :=
  exists s, mesh_scale m = setScalar s /\ 0.1 <= s <= 5.

Definition unitMesh : Mesh :=
  mkMesh vec3_zero vec3_zero (setScalar 1).

(** The two-object scene with ["a1"] selected and a mesh for it. *)
Definition selectedStore : SceneStore :=
  selectObject (Some "a1"%string) twoObjectStore.

Definition selectedMeshes : gmap string Mesh :=
  {[ "a1"%string := unitMesh ]}.

(** An open-palm event that moved 0.1 along x, and a pinch event that
    doubles the pinch distance. *)
Definition eventWith (g : Gesture) (c : R) (md : MovementData)
    : ProcessedData :=
  {| pd_deviceId := "rightHand1"; pd_timestamp := 0;
     cursorOrientation := mkArr3 0 0 1;
     pd_gesture := g; gestureConfidence := c;
     pd_transformMode := gestureToTransformMode g;
     actions := mkActions false false false;
     movementData := md;
     rawSensorData :=
       {| raw_imu := arr3_zero; raw_position := None;
          fingerBends := None; thumbBend := 0.5; palmPressure := 0 |} |}.

Definition slideMovement : MovementData :=
  {| orientationDelta := arr3_zero; positionDelta := mkVec3 0.1 0 0;
     velocity := mkVec3 1 0 0; scaleFactor := 1;
     md_orientation := arr3_zero; md_position := mkVec3 0.1 0 0;
     movementMagnitude := 0.1; positionMagnitude := 0.1; deltaTime := 0.1;
     md_timestamp := 100 |}.

(** * The IMU-based server variant

    The later version of the server that derives the pinch from the IMU,
    wraps the orientation delta and drops stale pairings.  It reads
    [imu.gyroscope] and [position] without a default. *)

Module ImuServer.

(** Results of code that loops: a value, a thrown exception or flagged
    division as before, or a loop that used up its [fuel] iterations. *)
Inductive run (A : Type) : Type :=
  | Return (a : A)
  | Fail (e : Fault)
  | OutOfFuel.
Arguments Return {A} a.
Arguments Fail {A} e.
Arguments OutOfFuel {A}.

#[global] Instance run_ret : MRet run := @Return.
#[global] Instance run_bind : MBind run := fun A B f m =>
  match m with
  | Return a => f a
  | Fail e => Fail e
  | OutOfFuel => OutOfFuel
  end.

Definition lift {A : Type} (c : completion A) : run A :=
  match c with
  | Normal a => Return a
  | Abrupt e => Fail e
  end.

Record MovementData : Type := mkMovement {
  orientationDelta : Arr3;
  positionDelta : Vec3;
  velocity : Vec3;
  scaleFactor : R;
  md_orientation : Arr3;
  md_position : option Vec3;
  movementMagnitude : R;
  positionMagnitude : R;
  deltaTime : R;
  md_timestamp : R
}.

(** [Math.sqrt(g[0] ** 2 + g[1] ** 2 + g[2] ** 2)] *)
Definition magnitude (a : Arr3) : R :=
  sqrt (at0 a ^ 2 + at1 a ^ 2 + at2 a ^ 2).

(** [calculateIMUBasedPinchDistance(imu, position)]; the position is not
    read, and [pitchStability] is computed and not used. *)
Definition calculateIMUBasedPinchDistance (imu : option Imu)
    (position : option Vec3) : run R :=
  i ← lift (prop_of imu);
  let roll := at0 (orientation i) in
  let pitch := at1 (orientation i) in
  g ← lift (prop_of (gyroscope i));
  let gyroMagnitude := magnitude g in
  let rollDeviation := Rabs roll in
  let pitchStability := 1.0 - Rmin 1.0 (Rabs pitch / (PI / 4)) in
  let baseDistance := 0.05 in
  let pinchFactor := Rmax 0 (1.0 - rollDeviation / (PI / 6)) in
  let stabilityFactor := Rmax 0 (1.0 - gyroMagnitude) in
  mret (baseDistance * pinchFactor * (0.5 + 0.5 * stabilityFactor)).

(** [Object.values(fingers).every(p)] *)
Definition every (p : R -> bool) (f : Fingers) : bool :=
  forallb p (Object_values f).

Record GestureResult : Type := mkGestureResult {
  gesture : Gesture;
  confidence : R
}.

Definition classifyGesture (sensorData : SensorFrame) : run GestureResult :=
  i ← lift (prop_of (imu sensorData));
  g ← lift (prop_of (gyroscope i));
  let gyroMagnitude := magnitude g in
  let accelMagnitude := magnitude (acceleration i) in
  thumbIndexDistance ←
    calculateIMUBasedPinchDistance (imu sensorData) (position sensorData);
  let isPinching :=
    num_lt thumbIndexDistance 0.03 && num_lt gyroMagnitude 0.5 in
  f ← lift (prop_of (fingers sensorData));
  let indexExtended := num_lt (index f) 0.3 in
  let othersRetracted :=
    num_gt (middle f) 0.7 && num_gt (ring f) 0.7 && num_gt (little f) 0.7 in
  let isPointing :=
    indexExtended && othersRetracted && num_lt gyroMagnitude 0.3 in
  let allRetracted := every (fun bend => num_gt bend 0.6) f in
  let isFist := (allRetracted || num_gt gyroMagnitude 1.0) && negb isPinching in
  let allExtended := every (fun bend => num_lt bend 0.4) f in
  let isOpenPalm :=
    allExtended && num_lt gyroMagnitude 0.5 && negb isPinching in
  if isPinching then
    mret {| gesture := pinch;
            confidence :=
              Rmin 0.95 (0.7 + (0.03 - thumbIndexDistance) / 0.03 * 0.25) |}
  else if isPointing then
    mret {| gesture := pointing; confidence := 0.85 |}
  else if isFist then
    mret {| gesture := fist;
            confidence := Rmin 0.9 (0.6 + gyroMagnitude / 2.0 * 0.3) |}
  else if isOpenPalm then
    mret {| gesture := open_palm; confidence := 0.8 |}
  else
    mret {| gesture := neutral; confidence := 0.5 |}.

(** [while (delta > Math.PI) delta -= 2 * Math.PI].  The loop is given
    [fuel] iterations and reports when it needs more.  Over the real numbers
    every iteration lowers [delta] by a full turn; a double too large to
    register the subtraction of [2 * Math.PI] is left as it is and keeps the
    loop of the code running, so the theorems below speak of angles within
    [-pi, pi] only, where one iteration is enough. *)
Fixpoint while_above (fuel : nat) (delta : R) : run R :=
  if num_gt delta PI then
    match fuel with
    | O => OutOfFuel
    | S fuel => while_above fuel (delta - 2 * PI)
    end
  else mret delta.

(** [while (delta < -Math.PI) delta += 2 * Math.PI], with [fuel] in the
    same way. *)
Fixpoint while_below (fuel : nat) (delta : R) : run R :=
  if num_lt delta (- PI) then
    match fuel with
    | O => OutOfFuel
    | S fuel => while_below fuel (delta + 2 * PI)
    end
  else mret delta.

(** The callback of [orientation.map]: the wrapped difference of two
    angles.  Each loop may run [fuel] times. *)
Definition wrappedDelta (fuel : nat) (angle previous : R) : run R :=
  let delta := angle - previous in
  delta ← while_above fuel delta;
  while_below fuel delta.

Definition calculateMovementData (fuel : nat) (deviceId : string)
    (currentData : SensorFrame) (previousData : option SensorFrame)
    : run (option MovementData) :=
  match previousData with
  | None => mret None
  | Some previousData =>
      let deltaTime :=
        (timestamp currentData - timestamp previousData) / 1000 in
      if negb (num_gt deltaTime 0) || num_gt deltaTime 1 then mret None else
      cpos ← lift (prop_of (position currentData));
      ppos ← lift (prop_of (position previousData));
      let positionDelta :=
        mkVec3 (vx cpos - vx ppos) (vy cpos - vy ppos) (vz cpos - vz ppos) in
      let positionMagnitude :=
        sqrt (vx positionDelta ^ 2 + vy positionDelta ^ 2
              + vz positionDelta ^ 2) in
      qx ← lift (num_div (vx positionDelta) deltaTime);
      qy ← lift (num_div (vy positionDelta) deltaTime);
      qz ← lift (num_div (vz positionDelta) deltaTime);
      let velocity := mkVec3 qx qy qz in
      cimu ← lift (prop_of (imu currentData));
      pimu ← lift (prop_of (imu previousData));
      d0 ← wrappedDelta fuel (at0 (orientation cimu)) (at0 (orientation pimu));
      d1 ← wrappedDelta fuel (at1 (orientation cimu)) (at1 (orientation pimu));
      d2 ← wrappedDelta fuel (at2 (orientation cimu)) (at2 (orientation pimu));
      let orientationDelta := mkArr3 d0 d1 d2 in
      currentPinchDist ←
        calculateIMUBasedPinchDistance (imu currentData)
                                       (position currentData);
      previousPinchDist ←
        calculateIMUBasedPinchDistance (imu previousData)
                                       (position previousData);
      scaleFactor ←
        (if num_gt previousPinchDist 0.001 then
           lift (num_div currentPinchDist previousPinchDist)
         else mret 1.0);
      let orientationMagnitude := magnitude orientationDelta in
      let movementMagnitude :=
        sqrt (positionMagnitude ^ 2 + orientationMagnitude ^ 2) in
      mret (Some {| orientationDelta := orientationDelta;
                    positionDelta := positionDelta;
                    velocity := velocity;
                    scaleFactor := scaleFactor;
                    md_orientation := orientation cimu;
                    md_position := position currentData;
                    movementMagnitude := movementMagnitude;
                    positionMagnitude := positionMagnitude;
                    deltaTime := deltaTime;
                    md_timestamp := timestamp currentData |})
  end.

Record ProcessedData : Type := mkProcessed {
  pd_deviceId : string;
  pd_timestamp : R;
  cursorOrientation : Arr3;
  pd_gesture : Gesture;
  gestureConfidence : R;
  pd_transformMode : TransformMode;
  actions : Actions;
  movementData : MovementData;
  rawSensorData : RawSensorSummary
}.

(** The default [processSensorData] puts in the place of a [null]
    movement. *)
Definition defaultMovement (rawData : SensorFrame) (i : Imu) : MovementData :=
  {| orientationDelta := arr3_zero;
     positionDelta := vec3_zero;
     velocity := vec3_zero;
     scaleFactor := 1.0;
     md_orientation := orientation i;
     md_position := position rawData;
     movementMagnitude := 0;
     positionMagnitude := 0;
     deltaTime := 0;
     md_timestamp := timestamp rawData |}.

(** The statements of [processSensorData] that follow the write to
    [previousFrameData]. *)
Definition assembleEvent (now : R) (rawData : SensorFrame)
    (movementData : option MovementData) : run ProcessedData :=
  gestureResult ← classifyGesture rawData;
  cursorOrientation ← lift (normalizeCursorOrientation (imu rawData));
  let transformMode := gestureToTransformMode (gesture gestureResult) in
  sw ← lift (prop_of (switches rawData));
  let actions :=
    {| selectAction := bool_or (selectButton sw) false;
       modeSwitch := bool_or (modeButton sw) false;
       confirmAction := bool_or (confirmButton sw) false |} in
  i ← lift (prop_of (imu rawData));
  t ← lift (prop_of (thumb rawData));
  p ← lift (prop_of (palm rawData));
  mret {| pd_deviceId := deviceId rawData;
          pd_timestamp := now;
          cursorOrientation := cursorOrientation;
          pd_gesture := gesture gestureResult;
          gestureConfidence := confidence gestureResult;
          pd_transformMode := transformMode;
          actions := actions;
          movementData :=
            match movementData with
            | Some md => md
            | None => defaultMovement rawData i
            end;
          rawSensorData :=
            {| raw_imu := orientation i;
               raw_position := position rawData;
               fingerBends := fingers rawData;
               thumbBend := bend t;
               palmPressure := num_or (pressure p) 0 |} |}.

Definition processSensorData (fuel : nat) (now : R) (rawData : SensorFrame)
    (previousFrameData : gmap string SensorFrame)
    : run ProcessedData * gmap string SensorFrame :=
  let previousData := previousFrameData !! deviceId rawData in
  match calculateMovementData fuel (deviceId rawData) rawData previousData with
  | Return movementData =>
      let previousFrameData :=
        <[deviceId rawData := rawData]> previousFrameData in
      (assembleEvent now rawData movementData, previousFrameData)
  | Fail e => (Fail e, previousFrameData)
  | OutOfFuel => (OutOfFuel, previousFrameData)
  end.

(** The pinch distance on an IMU that carries a gyroscope. *)
Definition pinchDistanceOf (i : Imu) (g : Arr3) : R :=
  0.05 * Rmax 0 (1.0 - Rabs (at0 (orientation i)) / (PI / 6))
  * (0.5 + 0.5 * Rmax 0 (1.0 - magnitude g)).

(** An orientation whose three angles lie within [-pi, pi]. *)
Definition anglesInRange (i : Imu) : Prop :=
  - PI <= at0 (orientation i) <= PI
  /\ - PI <= at1 (orientation i) <= PI
  /\ - PI <= at2 (orientation i) <= PI.

(** A frame that carries everything the variant reads. *)
Definition fullFrame (f : SensorFrame) : Prop :=
  completeFrame f
  /\ is_Some (position f)
  /\ exists i, imu f = Some i /\ is_Some (gyroscope i).

End ImuServer.

(** * Request bodies whose imu may lack its orientation

    The handler checks that [imu] is present, not what it holds.  [Wire]
    embeds the pipeline of the server once more, on request bodies whose
    [imu] object may come without its [orientation] (and without the two
    vectors the server never reads): [imu.orientation] is then [undefined],
    reading it is no error, indexing or destructuring it throws.  The other
    objects of a body, where present, have the fields of the frame schema,
    and everything that does not touch the imu is shared with the embedding
    above. *)

Module Wire.

Record Imu : Type := mkImu {
  orientation : option Arr3;
  acceleration : option Arr3;
  gyroscope : option Arr3
}.

Record SensorFrame : Type := mkFrame {
  deviceId : string;
  timestamp : R;
  imu : option Imu;
  fingers : option Fingers;
  thumb : option Thumb;
  palm : option Palm;
  position : option Vec3;
  switches : option Switches
}.

Record MovementData : Type := mkMovement {
  orientationDelta : Arr3;
  positionDelta : Vec3;
  velocity : Vec3;
  scaleFactor : R;
  md_orientation : option Arr3;
  md_position : Vec3;
  movementMagnitude : R;
  positionMagnitude : R;
  deltaTime : R;
  md_timestamp : R
}.

Definition calculateMovementData
    (currentData : SensorFrame) (previousData : option SensorFrame)
    : completion MovementData :=
  match previousData with
  | None =>
      cimu ← prop_of (imu currentData);
      mret {| orientationDelta := arr3_zero;
              positionDelta := vec3_zero;
              velocity := vec3_zero;
              scaleFactor := 1;
              md_orientation := orientation cimu;
              md_position := position_or_zero (position currentData);
              movementMagnitude := 0;
              positionMagnitude := 0;
              deltaTime := 0;
              md_timestamp := timestamp currentData |}
  | Some previousData =>
      let deltaTime :=
        (timestamp currentData - timestamp previousData) / 1000 in
      let currentPos := position_or_zero (position currentData) in
      let prevPos := position_or_zero (position previousData) in
      let positionDelta :=
        mkVec3 (vx currentPos - vx prevPos)
               (vy currentPos - vy prevPos)
               (vz currentPos - vz prevPos) in
      velocity ←
        (if num_gt deltaTime 0 then
           qx ← num_div (vx positionDelta) deltaTime;
           qy ← num_div (vy positionDelta) deltaTime;
           qz ← num_div (vz positionDelta) deltaTime;
           mret (mkVec3 qx qy qz)
         else mret vec3_zero);
      cimu ← prop_of (imu currentData);
      corientation ← prop_of (orientation cimu);
      pimu ← prop_of (imu previousData);
      porientation ← prop_of (orientation pimu);
      let orientationDelta :=
        mkArr3 (at0 corientation - at0 porientation)
               (at1 corientation - at1 porientation)
               (at2 corientation - at2 porientation) in
      let positionMagnitude :=
        norm3 (vx positionDelta) (vy positionDelta) (vz positionDelta) in
      let orientationMagnitude :=
        norm3 (at0 orientationDelta) (at1 orientationDelta)
              (at2 orientationDelta) in
      let movementMagnitude := Rmax positionMagnitude orientationMagnitude in
      scaleFactor ←
        match fingers currentData, fingers previousData with
        | Some cf, Some pf =>
            let currentPinchDistance := pinchDistance cf (thumb currentData) in
            let prevPinchDistance := pinchDistance pf (thumb previousData) in
            if num_gt prevPinchDistance 0 then
              q ← num_div currentPinchDistance prevPinchDistance;
              mret (Rmax 0.5 (Rmin 2.0 q))
            else mret 1
        | _, _ => mret 1
        end;
      mret {| orientationDelta := orientationDelta;
              positionDelta := positionDelta;
              velocity := velocity;
              scaleFactor := scaleFactor;
              md_orientation := orientation cimu;
              md_position := currentPos;
              movementMagnitude := movementMagnitude;
              positionMagnitude := positionMagnitude;
              deltaTime := deltaTime;
              md_timestamp := timestamp currentData |}
  end.

(** [const { orientation } = imuData; const [roll, pitch, yaw] =
    orientation]: destructuring [undefined] throws. *)
Definition normalizeCursorOrientation (imuData : option Imu)
    : completion Arr3 :=
  i ← prop_of imuData;
  o ← prop_of (orientation i);
  let roll := at0 o in
  let pitch := at1 o in
  let yaw := at2 o in
  mret (mkArr3 (sin yaw * cos pitch) (sin pitch) (cos yaw * cos pitch)).

Record RawSensorSummary : Type := mkRawSummary {
  raw_imu : option Arr3;
  raw_position : option Vec3;
  fingerBends : option Fingers;
  thumbBend : R;
  palmPressure : R
}.

Record ProcessedData : Type := mkProcessed {
  pd_deviceId : string;
  pd_timestamp : R;
  cursorOrientation : Arr3;
  pd_gesture : Gesture;
  gestureConfidence : R;
  pd_transformMode : TransformMode;
  actions : Actions;
  movementData : MovementData;
  rawSensorData : RawSensorSummary
}.

(** The statements of [processSensorData] that follow the write to
    [previousFrameData]. *)
Definition assembleEvent (now : R) (rawData : SensorFrame)
    (movementData : MovementData) : completion ProcessedData :=
  gestureResult ← classifyGesture (fingers rawData) (thumb rawData)
                                  (palm rawData);
  cursorOrientation ← normalizeCursorOrientation (imu rawData);
  let transformMode := gestureToTransformMode (gesture gestureResult) in
  sw ← prop_of (switches rawData);
  let actions :=
    {| selectAction := bool_or (selectButton sw) false;
       modeSwitch := bool_or (modeButton sw) false;
       confirmAction := bool_or (confirmButton sw) false |} in
  i ← prop_of (imu rawData);
  t ← prop_of (thumb rawData);
  p ← prop_of (palm rawData);
  mret {| pd_deviceId := deviceId rawData;
          pd_timestamp := now;
          cursorOrientation := cursorOrientation;
          pd_gesture := gesture gestureResult;
          gestureConfidence := confidence gestureResult;
          pd_transformMode := transformMode;
          actions := actions;
          movementData := movementData;
          rawSensorData :=
            {| raw_imu := orientation i;
               raw_position := position rawData;
               fingerBends := fingers rawData;
               thumbBend := bend t;
               palmPressure := num_or (pressure p) 0 |} |}.

Definition processSensorData (now : R) (rawData : SensorFrame)
    (previousFrameData : gmap string SensorFrame)
    : completion ProcessedData * gmap string SensorFrame :=
  let previousData := previousFrameData !! deviceId rawData in
  match calculateMovementData rawData previousData with
  | Abrupt e => (Abrupt e, previousFrameData)
  | Normal movementData =>
      let previousFrameData :=
        <[deviceId rawData := rawData]> previousFrameData in
      (assembleEvent now rawData movementData, previousFrameData)
  end.

Record GestureState : Type := mkGestureState {
  leftHand : option ProcessedData;
  rightHand : option ProcessedData;
  selectedObject : option string;
  transformMode : string
}.

Record Server : Type := mkServer {
  previousFrameData : gmap string SensorFrame;
  currentGestureState : GestureState;
  emitted : list ProcessedData
}.

Definition initialServer : Server :=
  {| previousFrameData := ∅;
     currentGestureState :=
       {| leftHand := None; rightHand := None;
          selectedObject := None; transformMode := "translate" |};
     emitted := [] |}.

Definition validFrame (rawSensorData : SensorFrame) : bool :=
  truthy (deviceId rawSensorData)
  && bool_decide (is_Some (imu rawSensorData))
  && bool_decide (is_Some (fingers rawSensorData)).

Definition updateHand (deviceId : string) (processedData : ProcessedData)
    (g : GestureState) : GestureState :=
  if includes deviceId "left" then
    {| leftHand := Some processedData; rightHand := rightHand g;
       selectedObject := selectedObject g; transformMode := transformMode g |}
  else
    {| leftHand := leftHand g; rightHand := Some processedData;
       selectedObject := selectedObject g; transformMode := transformMode g |}.

Definition summaryOf (pd : ProcessedData) : Summary :=
  {| sum_gesture := pd_gesture pd;
     sum_transformMode := pd_transformMode pd;
     sum_confidence := gestureConfidence pd;
     sum_movementMagnitude := movementMagnitude (movementData pd) |}.

(** The handler.  Its [try]/[catch] turns a thrown exception into the 500
    response; a [DivByZero] is not an exception and is passed on. *)
Definition postSensorData (now : R) (rawSensorData : SensorFrame) (srv : Server)
    : completion Response * Server :=
  if negb (validFrame rawSensorData) then
    (Normal (Status400 "Missing required sensor data fields"
                       ["deviceId"; "imu"; "fingers"; "thumb"; "switches"]),
     srv)
  else
    match processSensorData now rawSensorData (previousFrameData srv) with
    | (Normal processedData, store) =>
        (Normal (Status200 (summaryOf processedData)),
         {| previousFrameData := store;
            currentGestureState :=
              updateHand (deviceId rawSensorData) processedData
                         (currentGestureState srv);
            emitted := emitted srv ++ [processedData] |})
    | (Abrupt TypeError, store) =>
        (Normal (Status500 "Internal server error"),
         {| previousFrameData := store;
            currentGestureState := currentGestureState srv;
            emitted := emitted srv |})
    | (Abrupt DivByZero, store) =>
        (Abrupt DivByZero,
         {| previousFrameData := store;
            currentGestureState := currentGestureState srv;
            emitted := emitted srv |})
    end.

(** The orientation of a frame, where it has one. *)
Definition orientationOf (f : SensorFrame) : option Arr3 :=
  match imu f with
  | Some i => orientation i
  | None => None
  end.

(** A frame that carries every object the handler reads; the orientation is
    counted apart. *)
Definition completeFrame (f : SensorFrame) : Prop :=
  deviceId f <> ""%string
  /\ is_Some (imu f) /\ is_Some (fingers f)
  /\ is_Some (thumb f) /\ is_Some (palm f) /\ is_Some (switches f).

(** The movement calculator throws on the pairing of [f] with the stored
    frame: there is a stored frame, and it or [f] has no orientation. *)
Definition pairingThrows (f : SensorFrame) (previousData : option SensorFrame)
    : Prop :=
  exists p, previousData = Some p
            /\ (orientationOf f = None \/ orientationOf p = None).

(** [f] is processed to an event: it is complete, has an orientation, and
    so has the stored frame of its device, if there is one. *)
Definition processable (f : SensorFrame) (previousData : option SensorFrame)
    : Prop :=
  completeFrame f
  /\ is_Some (orientationOf f)
  /\ (forall p, previousData = Some p -> is_Some (orientationOf p)).

End Wire.

(** ** From schema frames to request bodies *)

Definition wireImu (i : Imu) : Wire.Imu :=
  {| Wire.orientation := Some (orientation i);
     Wire.acceleration := Some (acceleration i);
     Wire.gyroscope := gyroscope i |}.

Definition wireFrame (f : SensorFrame) : Wire.SensorFrame :=
  {| Wire.deviceId := deviceId f;
     Wire.timestamp := timestamp f;
     Wire.imu := wireImu <$> imu f;
     Wire.fingers := fingers f;
     Wire.thumb := thumb f;
     Wire.palm := palm f;
     Wire.position := position f;
     Wire.switches := switches f |}.

Definition wireMovement (m : MovementData) : Wire.MovementData :=
  {| Wire.orientationDelta := orientationDelta m;
     Wire.positionDelta := positionDelta m;
     Wire.velocity := velocity m;
     Wire.scaleFactor := scaleFactor m;
     Wire.md_orientation := Some (md_orientation m);
     Wire.md_position := md_position m;
     Wire.movementMagnitude := movementMagnitude m;
     Wire.positionMagnitude := positionMagnitude m;
     Wire.deltaTime := deltaTime m;
     Wire.md_timestamp := md_timestamp m |}.

Definition wireEvent (pd : ProcessedData) : Wire.ProcessedData :=
  {| Wire.pd_deviceId := pd_deviceId pd;
     Wire.pd_timestamp := pd_timestamp pd;
     Wire.cursorOrientation := cursorOrientation pd;
     Wire.pd_gesture := pd_gesture pd;
     Wire.gestureConfidence := gestureConfidence pd;
     Wire.pd_transformMode := pd_transformMode pd;
     Wire.actions := actions pd;
     Wire.movementData := wireMovement (movementData pd);
     Wire.rawSensorData :=
       {| Wire.raw_imu := Some (raw_imu (rawSensorData pd));
          Wire.raw_position := raw_position (rawSensorData pd);
          Wire.fingerBends := fingerBends (rawSensorData pd);
          Wire.thumbBend := thumbBend (rawSensorData pd);
          Wire.palmPressure := palmPressure (rawSensorData pd) |} |}.

Definition wireState (g : GestureState) : Wire.GestureState :=
  {| Wire.leftHand := wireEvent <$> leftHand g;
     Wire.rightHand := wireEvent <$> rightHand g;
     Wire.selectedObject := selectedObject g;
     Wire.transformMode := transformMode g |}.

Definition wireServer (srv : Server) : Wire.Server :=
  {| Wire.previousFrameData := wireFrame <$> previousFrameData srv;
     Wire.currentGestureState := wireState (currentGestureState srv);
     Wire.emitted := wireEvent <$> emitted srv |}.

(** [openPalmFrame] with [imu: {}]. *)
Definition bareImuFrame : Wire.SensorFrame :=
  {| Wire.deviceId := "rightHand1";
     Wire.timestamp := 0;
     Wire.imu := Some (Wire.mkImu None None None);
     Wire.fingers := Some (mkFingers 0.1 0.1 0.1 0.1);
     Wire.thumb := Some (mkThumb 0.5);
     Wire.palm := Some (mkPalm 0.3);
     Wire.position := Some vec3_zero;
     Wire.switches := Some (mkSwitches false false false) |}.
(** * Properties *)

(** ** Numbers *)

Lemma num_lt_true (a b : R) : num_lt a b = true <-> a < b.
Proof. unfold num_lt. destruct (Rlt_dec a b); split; (done || lra). Qed.

Lemma num_lt_false (a b : R) : num_lt a b = false <-> b <= a.
Proof. unfold num_lt. destruct (Rlt_dec a b); split; (done || lra). Qed.

Lemma num_gt_true (a b : R) : num_gt a b = true <-> b < a.
Proof. apply num_lt_true. Qed.

Lemma num_gt_false (a b : R) : num_gt a b = false <-> a <= b.
Proof. apply num_lt_false. Qed.

Lemma num_div_nonzero (a b : R) : b <> 0 -> num_div a b = Normal (a / b).
Proof. intros Hb. unfold num_div. destruct (Req_dec_T b 0); [lra | done]. Qed.

Lemma num_or_zero (d : R) : num_or 0 d = d.
Proof. unfold num_or. destruct (Req_dec_T 0 0); [done | lra]. Qed.

Lemma norm3_nonneg (a b c : R) : 0 <= norm3 a b c.
Proof. apply sqrt_pos. Qed.

Lemma norm3_axis (a : R) : 0 <= a -> norm3 a 0 0 = a.
Proof.
  intros Ha. unfold norm3.
  replace (a * a + 0 * 0 + 0 * 0) with (a * a) by lra.
  by apply sqrt_square.
Qed.

Lemma pinchDistance_nonneg (f : Fingers) (t : option Thumb) :
  0 <= pinchDistance f t.
Proof. apply Rabs_pos. Qed.

(** A thumb bend of exactly 0 is falsy and reads as the default. *)
Lemma thumb_bend_or_zero (d : R) : thumb_bend_or (Some (mkThumb 0)) d = d.
Proof. apply num_or_zero. Qed.

Lemma clamp_bounds (lo hi q : R) :
  lo <= hi -> lo <= Rmax lo (Rmin hi q) <= hi.
Proof.
  intros Hle. split; [apply Rmax_l |].
  apply Rmax_lub; [done | apply Rmin_l].
Qed.

(** ** The movement calculator on a pair of frames *)

Lemma calculateMovementData_paired
    (currentData previousData : SensorFrame) (cimu pimu : Imu) :
  imu currentData = Some cimu ->
  imu previousData = Some pimu ->
  calculateMovementData currentData (Some previousData) =
  Normal {| orientationDelta := rawOrientationDelta cimu pimu;
            positionDelta := rawPositionDelta currentData previousData;
            velocity := velocityOf (rawPositionDelta currentData previousData)
                          (frame_deltaTime currentData previousData);
            scaleFactor := scaleFactorOf currentData previousData;
            md_orientation := orientation cimu;
            md_position := position_or_zero (position currentData);
            movementMagnitude :=
              Rmax (norm_vec (rawPositionDelta currentData previousData))
                   (norm_arr (rawOrientationDelta cimu pimu));
            positionMagnitude :=
              norm_vec (rawPositionDelta currentData previousData);
            deltaTime := frame_deltaTime currentData previousData;
            md_timestamp := timestamp currentData |}.
Proof.
  intros Hc Hp. unfold calculateMovementData, velocityOf, scaleFactorOf.
  rewrite Hc, Hp. cbn [prop_of].
  set (dt := frame_deltaTime currentData previousData).
  assert (Hv :
    (if num_gt dt 0 then
       qx ← num_div (vx (rawPositionDelta currentData previousData)) dt;
       qy ← num_div (vy (rawPositionDelta currentData previousData)) dt;
       qz ← num_div (vz (rawPositionDelta currentData previousData)) dt;
       mret (mkVec3 qx qy qz)
     else mret vec3_zero) =
    Normal (if num_gt dt 0 then
              mkVec3 (vx (rawPositionDelta currentData previousData) / dt)
                     (vy (rawPositionDelta currentData previousData) / dt)
                     (vz (rawPositionDelta currentData previousData) / dt)
            else vec3_zero)).
  { destruct (num_gt dt 0) eqn:Hdt; [| done].
    apply num_gt_true in Hdt.
    rewrite !num_div_nonzero by lra. done. }
  unfold rawPositionDelta in *. cbn [vx vy vz] in *.
  rewrite Hv. cbn [mbind completion_bind].
  destruct (fingers currentData) as [cf|], (fingers previousData) as [pf|];
    try done.
  destruct (num_gt (pinchDistance pf (thumb previousData)) 0) eqn:Hpd;
    [| done].
  apply num_gt_true in Hpd.
  rewrite num_div_nonzero by lra. done.
Qed.

Lemma calculateMovementData_first (currentData : SensorFrame) (cimu : Imu) :
  imu currentData = Some cimu ->
  calculateMovementData currentData None =
  Normal {| orientationDelta := arr3_zero;
            positionDelta := vec3_zero;
            velocity := vec3_zero;
            scaleFactor := 1;
            md_orientation := orientation cimu;
            md_position := position_or_zero (position currentData);
            movementMagnitude := 0;
            positionMagnitude := 0;
            deltaTime := 0;
            md_timestamp := timestamp currentData |}.
Proof. intros Hc. unfold calculateMovementData. by rewrite Hc. Qed.

(** ** movementMagnitude *)

Lemma norm3_axis_eq (a b c r : R) :
  a = r -> b = 0 -> c = 0 -> 0 <= r -> norm3 a b c = r.
Proof. intros -> -> -> Hr. by apply norm3_axis. Qed.

Lemma Rmax_le_root_sum_square (a b : R) :
  0 <= a -> 0 <= b -> Rmax a b <= sqrt (a ^ 2 + b ^ 2).
Proof.
  intros Ha Hb. apply Rmax_lub.
  - rewrite <- (sqrt_pow2 a) at 1 by done. apply sqrt_le_1_alt. nra.
  - rewrite <- (sqrt_pow2 b) at 1 by done. apply sqrt_le_1_alt. nra.
Qed.

(** C1, as the code has it: for every pair of consecutive frames of a device
    the calculator returns [movementMagnitude] equal to the larger one of
    [positionMagnitude] and the orientation magnitude, the Euclidean norms of
    the position delta and of the orientation delta; the root-sum-square of
    the two is an upper bound of it. *)
Theorem movementMagnitude_is_max
    (currentData previousData : SensorFrame) (cimu pimu : Imu) :
  imu currentData = Some cimu ->
  imu previousData = Some pimu ->
  exists m,
    calculateMovementData currentData (Some previousData) = Normal m
    /\ positionDelta m = rawPositionDelta currentData previousData
    /\ orientationDelta m = rawOrientationDelta cimu pimu
    /\ positionMagnitude m = norm_vec (positionDelta m)
    /\ movementMagnitude m
       = Rmax (positionMagnitude m) (norm_arr (orientationDelta m))
    /\ movementMagnitude m
       <= sqrt (positionMagnitude m ^ 2 + norm_arr (orientationDelta m) ^ 2).
Proof.
  intros Hc Hp. eexists. split.
  - by apply calculateMovementData_paired.
  - cbn. repeat split.
    apply Rmax_le_root_sum_square; apply norm3_nonneg.
Qed.

Lemma movementMagnitude_is_max_witness :
  imu movedFrame = Some (sampleImu (mkArr3 0.4 0 0))
  /\ imu restFrame = Some (sampleImu arr3_zero)
  /\ exists m,
       calculateMovementData movedFrame (Some restFrame) = Normal m
       /\ positionDelta m = rawPositionDelta movedFrame restFrame
       /\ orientationDelta m
          = rawOrientationDelta (sampleImu (mkArr3 0.4 0 0))
                                (sampleImu arr3_zero)
       /\ positionMagnitude m = norm_vec (positionDelta m)
       /\ movementMagnitude m
          = Rmax (positionMagnitude m) (norm_arr (orientationDelta m))
       /\ movementMagnitude m
          <= sqrt (positionMagnitude m ^ 2
                   + norm_arr (orientationDelta m) ^ 2).
Proof.
  split; [reflexivity |]. split; [reflexivity |].
  apply (movementMagnitude_is_max movedFrame restFrame); reflexivity.
Defined.

(** C1, as the specification words it, fails: on [restFrame] followed by
    [movedFrame] the position magnitude is 0.3 and the orientation magnitude
    0.4; the calculator returns 0.4 where the root-sum-square is 0.5. *)
Lemma movementMagnitude_not_root_sum_square :
  exists m,
    calculateMovementData movedFrame (Some restFrame) = Normal m
    /\ positionMagnitude m = 0.3
    /\ norm_arr (orientationDelta m) = 0.4
    /\ movementMagnitude m = 0.4
    /\ sqrt (positionMagnitude m ^ 2 + norm_arr (orientationDelta m) ^ 2) = 0.5
    /\ movementMagnitude m
       <> sqrt (positionMagnitude m ^ 2 + norm_arr (orientationDelta m) ^ 2).
Proof.
  eexists. split.
  { apply (calculateMovementData_paired movedFrame restFrame); reflexivity. }
  cbn [positionMagnitude movementMagnitude orientationDelta].
  assert (Hp : norm_vec (rawPositionDelta movedFrame restFrame) = 0.3).
  { apply norm3_axis_eq; cbn; lra. }
  assert (Ho : norm_arr (rawOrientationDelta (sampleImu (mkArr3 0.4 0 0))
                                             (sampleImu arr3_zero)) = 0.4).
  { apply norm3_axis_eq; cbn; lra. }
  rewrite Hp, Ho.
  assert (Hs : sqrt (0.3 ^ 2 + 0.4 ^ 2) = 0.5).
  { replace (0.3 ^ 2 + 0.4 ^ 2) with (0.5 * 0.5) by lra.
    apply sqrt_square. lra. }
  rewrite Hs.
  assert (Hm : Rmax 0.3 0.4 = 0.4) by (apply Rmax_right; lra).
  rewrite Hm. repeat split; lra.
Qed.

(** ** orientationDelta *)

(** C3, as the code has it: every component of [orientationDelta] is the raw
    difference of the two angles, with no wrapping; for angles within
    [-PI, PI] it lies within [-2 PI, 2 PI]. *)
Theorem orientationDelta_is_raw_difference
    (currentData previousData : SensorFrame) (cimu pimu : Imu) :
  imu currentData = Some cimu ->
  imu previousData = Some pimu ->
  exists m,
    calculateMovementData currentData (Some previousData) = Normal m
    /\ at0 (orientationDelta m)
       = at0 (orientation cimu) - at0 (orientation pimu)
    /\ at1 (orientationDelta m)
       = at1 (orientation cimu) - at1 (orientation pimu)
    /\ at2 (orientationDelta m)
       = at2 (orientation cimu) - at2 (orientation pimu)
    /\ (in_range (- PI) PI (at0 (orientation cimu)) ->
        in_range (- PI) PI (at0 (orientation pimu)) ->
        in_range (- (2 * PI)) (2 * PI) (at0 (orientationDelta m)))
    /\ (in_range (- PI) PI (at1 (orientation cimu)) ->
        in_range (- PI) PI (at1 (orientation pimu)) ->
        in_range (- (2 * PI)) (2 * PI) (at1 (orientationDelta m)))
    /\ (in_range (- PI) PI (at2 (orientation cimu)) ->
        in_range (- PI) PI (at2 (orientation pimu)) ->
        in_range (- (2 * PI)) (2 * PI) (at2 (orientationDelta m))).
Proof.
  intros Hc Hp. eexists. split.
  - by apply calculateMovementData_paired.
  - cbn. unfold in_range. repeat split; lra.
Qed.

Lemma orientationDelta_is_raw_difference_witness :
  imu seamAfter = Some (sampleImu (mkArr3 0 0 3))
  /\ imu seamBefore = Some (sampleImu (mkArr3 0 0 (-3)))
  /\ exists m,
       calculateMovementData seamAfter (Some seamBefore) = Normal m
       /\ at2 (orientationDelta m) = 3 - -3.
Proof.
  split; [reflexivity |]. split; [reflexivity |].
  destruct (orientationDelta_is_raw_difference seamAfter seamBefore
              (sampleImu (mkArr3 0 0 3)) (sampleImu (mkArr3 0 0 (-3)))
              eq_refl eq_refl) as (m & Hm & _ & _ & H2 & _).
  exists m. split; [exact Hm | exact H2].
Defined.

Lemma PI_gt_3 : 3 < PI.
Proof. pose proof PI2_3_2. lra. Qed.

(** C3, as the specification words it, fails: a yaw of 3 rad after a yaw of
    -3 rad (both within [-PI, PI]) gives the component 6, above PI; wrapped
    it would be 6 - 2 PI. *)
Lemma orientationDelta_not_wrapped :
  exists m,
    calculateMovementData seamAfter (Some seamBefore) = Normal m
    /\ in_range (- PI) PI 3
    /\ in_range (- PI) PI (-3)
    /\ at2 (orientationDelta m) = 6
    /\ PI < at2 (orientationDelta m).
Proof.
  eexists. split.
  { apply (calculateMovementData_paired seamAfter seamBefore); reflexivity. }
  cbn. pose proof PI_gt_3. pose proof PI_4. unfold in_range.
  repeat split; lra.
Qed.

(** ** deltaTime *)

Lemma velocityOf_nonpositive (positionDelta : Vec3) (deltaTime : R) :
  deltaTime <= 0 -> velocityOf positionDelta deltaTime = vec3_zero.
Proof.
  intros Hdt. unfold velocityOf.
  by rewrite (proj2 (num_gt_false deltaTime 0) Hdt).
Qed.

Lemma velocityOf_positive (positionDelta : Vec3) (deltaTime : R) :
  0 < deltaTime ->
  velocityOf positionDelta deltaTime =
  mkVec3 (vx positionDelta / deltaTime) (vy positionDelta / deltaTime)
         (vz positionDelta / deltaTime).
Proof.
  intros Hdt. unfold velocityOf.
  by rewrite (proj2 (num_gt_true deltaTime 0) Hdt).
Qed.

(** C4, as the code has it: whenever a previous frame exists the calculator
    returns the deltas and magnitudes computed from the pairing, whatever
    [deltaTime] is; there is no staleness cap.  A [deltaTime <= 0] replaces
    the velocity alone by zero, any [deltaTime > 0] gives the velocity
    [positionDelta / deltaTime]. *)
Theorem deltaTime_guards_velocity_only
    (currentData previousData : SensorFrame) (cimu pimu : Imu) :
  imu currentData = Some cimu ->
  imu previousData = Some pimu ->
  exists m,
    calculateMovementData currentData (Some previousData) = Normal m
    /\ deltaTime m = (timestamp currentData - timestamp previousData) / 1000
    /\ positionDelta m = rawPositionDelta currentData previousData
    /\ orientationDelta m = rawOrientationDelta cimu pimu
    /\ positionMagnitude m = norm_vec (positionDelta m)
    /\ movementMagnitude m
       = Rmax (positionMagnitude m) (norm_arr (orientationDelta m))
    /\ scaleFactor m = scaleFactorOf currentData previousData
    /\ (deltaTime m <= 0 -> velocity m = vec3_zero)
    /\ (0 < deltaTime m ->
        velocity m = mkVec3 (vx (positionDelta m) / deltaTime m)
                            (vy (positionDelta m) / deltaTime m)
                            (vz (positionDelta m) / deltaTime m)).
Proof.
  intros Hc Hp. eexists. split.
  - by apply calculateMovementData_paired.
  - cbn. repeat split.
    + apply velocityOf_nonpositive.
    + apply velocityOf_positive.
Qed.

Lemma deltaTime_guards_velocity_only_witness :
  imu (shiftedFrame 5000) = Some (sampleImu arr3_zero)
  /\ imu restFrame = Some (sampleImu arr3_zero)
  /\ exists m,
       calculateMovementData (shiftedFrame 5000) (Some restFrame) = Normal m
       /\ deltaTime m = (5000 - 0) / 1000
       /\ positionDelta m = rawPositionDelta (shiftedFrame 5000) restFrame.
Proof.
  split; [reflexivity |]. split; [reflexivity |].
  destruct (deltaTime_guards_velocity_only (shiftedFrame 5000) restFrame
              (sampleImu arr3_zero) (sampleImu arr3_zero) eq_refl eq_refl)
    as (m & Hm & Hdt & Hpd & _).
  exists m. split; [exact Hm |]. split; [exact Hdt | exact Hpd].
Defined.

(** C4, as the specification words it, fails.  A frame 5 s after the stored
    one (beyond a 1 s cap) still returns the delta of the stale pairing,
    magnitude 1 and velocity 0.2; a frame with the timestamp of the stored
    one ([deltaTime = 0]) still returns the position delta and magnitude 1. *)
Lemma stale_pairing_not_identity :
  (exists m,
     calculateMovementData (shiftedFrame 5000) (Some restFrame) = Normal m
     /\ deltaTime m = 5
     /\ positionDelta m = mkVec3 (1 - 0) (0 - 0) (0 - 0)
     /\ velocity m = mkVec3 ((1 - 0) / 5) ((0 - 0) / 5) ((0 - 0) / 5)
     /\ movementMagnitude m = 1)
  /\ (exists m,
        calculateMovementData (shiftedFrame 0) (Some restFrame) = Normal m
        /\ deltaTime m = 0
        /\ positionDelta m = mkVec3 (1 - 0) (0 - 0) (0 - 0)
        /\ velocity m = vec3_zero
        /\ movementMagnitude m = 1).
Proof.
  assert (Hmag : forall ts,
    Rmax (norm_vec (rawPositionDelta (shiftedFrame ts) restFrame))
         (norm_arr (rawOrientationDelta (sampleImu arr3_zero)
                                        (sampleImu arr3_zero))) = 1).
  { intros ts.
    assert (Hp : norm_vec (rawPositionDelta (shiftedFrame ts) restFrame) = 1).
    { apply norm3_axis_eq; cbn; lra. }
    assert (Ho : norm_arr (rawOrientationDelta (sampleImu arr3_zero)
                                               (sampleImu arr3_zero)) = 0).
    { apply norm3_axis_eq; cbn; lra. }
    rewrite Hp, Ho. apply Rmax_left. lra. }
  split.
  - eexists. split.
    { apply (calculateMovementData_paired (shiftedFrame 5000) restFrame);
        reflexivity. }
    cbn [deltaTime positionDelta velocity movementMagnitude].
    assert (Hdt : frame_deltaTime (shiftedFrame 5000) restFrame = 5).
    { unfold frame_deltaTime. cbn. lra. }
    rewrite Hdt, velocityOf_positive by lra.
    split; [done |]. split; [done |]. split; [done |]. apply Hmag.
  - eexists. split.
    { apply (calculateMovementData_paired (shiftedFrame 0) restFrame);
        reflexivity. }
    cbn [deltaTime positionDelta velocity movementMagnitude].
    assert (Hdt : frame_deltaTime (shiftedFrame 0) restFrame = 0).
    { unfold frame_deltaTime. cbn. lra. }
    rewrite Hdt, velocityOf_nonpositive by lra.
    split; [done |]. split; [done |]. split; [done |]. apply Hmag.
Qed.

(** ** Completions *)

Lemma bind_Normal {A B : Type} (m : completion A) (f : A -> completion B)
    (b : B) :
  m ≫= f = Normal b <-> exists a, m = Normal a /\ f a = Normal b.
Proof.
  destruct m as [a | e]; cbn.
  - split; [intros H; by exists a | intros (a' & [= <-] & H); done].
  - split; [done | intros (a' & [=] & _)].
Qed.

(** ** The first frame of a device *)

Lemma assembleEvent_movementData (now : R) (rawData : SensorFrame)
    (md : MovementData) (pd : ProcessedData) :
  assembleEvent now rawData md = Normal pd -> movementData pd = md.
Proof.
  unfold assembleEvent. intros H.
  repeat (apply bind_Normal in H; destruct H as (? & _ & H)).
  by injection H as <-.
Qed.

(** C8: when the history store holds no frame for the device of an accepted
    frame, the movement calculator returns, and the event is assembled from,
    a result with [movementMagnitude = 0], [scaleFactor = 1], zero position
    and orientation deltas and zero velocity, whose pose is the one of the
    current frame. *)
Theorem first_frame_identity
    (now : R) (rawData : SensorFrame) (store : gmap string SensorFrame)
    (cimu : Imu) :
  imu rawData = Some cimu ->
  store !! deviceId rawData = None ->
  exists md,
    calculateMovementData rawData (store !! deviceId rawData) = Normal md
    /\ processSensorData now rawData store
       = (assembleEvent now rawData md, <[deviceId rawData := rawData]> store)
    /\ (forall pd, assembleEvent now rawData md = Normal pd ->
                   movementData pd = md)
    /\ movementMagnitude md = 0
    /\ positionMagnitude md = 0
    /\ scaleFactor md = 1
    /\ positionDelta md = vec3_zero
    /\ orientationDelta md = arr3_zero
    /\ velocity md = vec3_zero
    /\ deltaTime md = 0
    /\ md_orientation md = orientation cimu
    /\ md_position md = position_or_zero (position rawData)
    /\ md_timestamp md = timestamp rawData.
Proof.
  intros Hc Hnone. eexists. split; [| split; [| split]].
  - rewrite Hnone. by apply calculateMovementData_first.
  - unfold processSensorData. rewrite Hnone.
    by rewrite (calculateMovementData_first _ _ Hc).
  - intros pd. apply assembleEvent_movementData.
  - cbn. repeat split.
Qed.

Lemma first_frame_identity_witness :
  imu movedFrame = Some (sampleImu (mkArr3 0.4 0 0))
  /\ (∅ : gmap string SensorFrame) !! deviceId movedFrame = None
  /\ exists md,
       calculateMovementData movedFrame
         ((∅ : gmap string SensorFrame) !! deviceId movedFrame) = Normal md
       /\ movementMagnitude md = 0
       /\ scaleFactor md = 1
       /\ md_position md = mkVec3 0.3 0 0.
Proof.
  split; [reflexivity |]. split; [apply lookup_empty |].
  destruct (first_frame_identity 0 movedFrame ∅ (sampleImu (mkArr3 0.4 0 0))
              eq_refl (lookup_empty _))
    as (md & Hmd & _ & _ & Hmag & _ & Hsc & _ & _ & _ & _ & _ & Hpos & _).
  exists md. split; [exact Hmd |]. split; [exact Hmag |].
  split; [exact Hsc | exact Hpos].
Defined.

(** ** Division guards *)

Lemma scaleFactorOf_bounds (currentData previousData : SensorFrame) :
  0.5 <= scaleFactorOf currentData previousData <= 2.
Proof.
  unfold scaleFactorOf.
  destruct (fingers currentData), (fingers previousData); try lra.
  destruct (num_gt _ 0); [| lra].
  match goal with
  | |- _ <= Rmax _ (Rmin _ ?q) <= _ =>
      pose proof (clamp_bounds 0.5 2.0 q ltac:(lra)); lra
  end.
Qed.

Lemma scaleFactorOf_no_previous_distance
    (currentData previousData : SensorFrame) (pf : Fingers) :
  fingers previousData = Some pf ->
  pinchDistance pf (thumb previousData) <= 0 ->
  scaleFactorOf currentData previousData = 1.
Proof.
  intros Hpf Hd. unfold scaleFactorOf. rewrite Hpf.
  destruct (fingers currentData); [| done].
  by rewrite (proj2 (num_gt_false _ 0) Hd).
Qed.

Lemma calculateMovementData_no_imu
    (currentData : SensorFrame) (previousData : option SensorFrame) :
  imu currentData = None
  \/ (exists p, previousData = Some p /\ imu p = None) ->
  calculateMovementData currentData previousData = Abrupt TypeError.
Proof.
  intros H. unfold calculateMovementData.
  destruct previousData as [p |].
  - assert (Himu : imu currentData = None \/ imu p = None).
    { destruct H as [H | (p' & [= <-] & H)]; auto. }
    destruct (num_gt (frame_deltaTime currentData p) 0) eqn:Hdt.
    + apply num_gt_true in Hdt.
      rewrite !num_div_nonzero by lra. cbn.
      destruct Himu as [-> | Hp]; [done |].
      destruct (imu currentData); [| done]. by rewrite Hp.
    + cbn. destruct Himu as [-> | Hp]; [done |].
      destruct (imu currentData); [| done]. by rewrite Hp.
  - destruct H as [-> | (p' & [=] & _)]. done.
Qed.

(** C10: for any pair of input frames the movement calculator never divides
    by zero: it either throws for a missing [imu] or returns a result whose
    velocity is zero whenever [deltaTime <= 0] and the componentwise quotient
    otherwise, and whose [scaleFactor] is 1 whenever the previous pinch
    distance is not strictly positive and lies within [0.5, 2] always. *)
Theorem calculateMovementData_never_divides_by_zero
    (currentData : SensorFrame) (previousData : option SensorFrame) :
  calculateMovementData currentData previousData = Abrupt TypeError
  /\ (imu currentData = None
      \/ exists p, previousData = Some p /\ imu p = None)
  \/ exists m,
       calculateMovementData currentData previousData = Normal m
       /\ 0.5 <= scaleFactor m <= 2
       /\ forall p, previousData = Some p ->
            (frame_deltaTime currentData p <= 0 -> velocity m = vec3_zero)
            /\ (0 < frame_deltaTime currentData p ->
                velocity m
                = mkVec3 (vx (positionDelta m) / frame_deltaTime currentData p)
                         (vy (positionDelta m) / frame_deltaTime currentData p)
                         (vz (positionDelta m) / frame_deltaTime currentData p))
            /\ (forall pf, fingers p = Some pf ->
                  pinchDistance pf (thumb p) <= 0 -> scaleFactor m = 1)
            /\ (forall cf pf, fingers currentData = Some cf ->
                  fingers p = Some pf ->
                  0 < pinchDistance pf (thumb p) ->
                  scaleFactor m
                  = Rmax 0.5 (Rmin 2.0 (pinchDistance cf (thumb currentData)
                                        / pinchDistance pf (thumb p)))).
Proof.
  destruct (imu currentData) as [cimu |] eqn:Hc.
  2:{ left. split; [| by left]. apply calculateMovementData_no_imu. by left. }
  destruct previousData as [p |].
  - destruct (imu p) as [pimu |] eqn:Hp.
    2:{ left. split; [| right; by exists p].
        apply calculateMovementData_no_imu. right. by exists p. }
    right. eexists. split; [by apply calculateMovementData_paired |].
    cbn. split; [apply scaleFactorOf_bounds |].
    intros p' [= <-]. repeat split.
    + apply velocityOf_nonpositive.
    + apply velocityOf_positive.
    + intros pf. apply scaleFactorOf_no_previous_distance.
    + intros cf pf Hcf Hpf Hd. unfold scaleFactorOf. rewrite Hcf, Hpf.
      by rewrite (proj2 (num_gt_true _ 0) Hd).
  - right. eexists. split; [by apply calculateMovementData_first |].
    cbn. split; [lra |]. intros p [=].
Qed.

(** ** The classifier *)

Ltac no_test x :=
  lazymatch x with
  | context [Rle_dec _ _] => fail
  | context [Rcase_abs _] => fail
  | _ => idtac
  end.

(** Linear arithmetic with [Rabs], [Rmax] and [Rmin] in the goal: their
    case distinctions are made innermost first. *)
Ltac solve_R :=
  unfold Rabs, Rmax, Rmin;
  repeat match goal with
         | |- context [Rcase_abs ?x] => no_test x; destruct (Rcase_abs x)
         | |- context [Rle_dec ?x ?y] =>
             no_test x; no_test y; destruct (Rle_dec x y)
         end;
  lra.

(** Decide the comparisons of the goal whose outcome [solve_R] can settle. *)
Ltac num_eval :=
  repeat match goal with
         | |- context [num_gt ?a ?b] => change (num_gt a b) with (num_lt b a)
         | |- context [num_lt ?a ?b] =>
             first [ rewrite (proj2 (num_lt_true a b)) by solve_R
                   | rewrite (proj2 (num_lt_false a b)) by solve_R ]
         end.

Lemma calculateConfidence_present (g : Gesture) (f : Fingers) (t : Thumb) :
  calculateConfidence g (Some f) (Some t) = Normal (confidenceOf g f t).
Proof. by destruct g. Qed.

Lemma classifyGesture_present (f : Fingers) (t : Thumb) (p : option Palm) :
  classifyGesture (Some f) (Some t) p =
  Normal {| gesture := gestureOf f t;
            confidence := confidenceOf (gestureOf f t) f t;
            details := detailsOf f t |}.
Proof.
  unfold classifyGesture, gestureOf, detailsOf, pinchTest.
  cbn [prop_of mbind completion_bind].
  fold (closedCount f) (openCount f) (pointingTest f).
  destruct (num_lt (index f) (PINCH_THRESHOLD GESTURE_THRESHOLDS));
    cbn [prop_of mbind completion_bind mret completion_ret];
    by rewrite calculateConfidence_present.
Qed.

Lemma closedCount_all (f : Fingers) :
  (4 <=? closedCount f)%nat = true <->
  0.7 < index f /\ 0.7 < middle f /\ 0.7 < ring f /\ 0.7 < little f.
Proof.
  unfold closedCount, Object_values.
  cbn [List.filter FINGER_CLOSED GESTURE_THRESHOLDS].
  rewrite <- !num_gt_true.
  destruct (num_gt (index f) 0.7), (num_gt (middle f) 0.7),
    (num_gt (ring f) 0.7), (num_gt (little f) 0.7); cbn; intuition congruence.
Qed.

Lemma openCount_all (f : Fingers) :
  (4 <=? openCount f)%nat = true <->
  index f < 0.3 /\ middle f < 0.3 /\ ring f < 0.3 /\ little f < 0.3.
Proof.
  unfold openCount, Object_values.
  cbn [List.filter FINGER_OPEN GESTURE_THRESHOLDS].
  rewrite <- !num_lt_true.
  destruct (num_lt (index f) 0.3), (num_lt (middle f) 0.3),
    (num_lt (ring f) 0.3), (num_lt (little f) 0.3); cbn; intuition congruence.
Qed.

Lemma pinchTest_true (f : Fingers) (t : Thumb) :
  pinchTest f t = true <->
  index f < 0.6 /\ bend t < 0.6 /\ Rabs (index f - bend t) < 0.2.
Proof.
  unfold pinchTest. cbn [PINCH_THRESHOLD GESTURE_THRESHOLDS].
  rewrite <- !num_lt_true.
  destruct (num_lt (index f) 0.6), (num_lt (bend t) 0.6),
    (num_lt (Rabs (index f - bend t)) 0.2); cbn; intuition congruence.
Qed.

Lemma not_true_false (b : bool) : ~ b = true -> b = false.
Proof. by destruct b. Qed.

Lemma approx_bounds (c tol x : R) :
  approx c tol x <-> c - tol <= x <= c + tol.
Proof. unfold approx, Rabs. destruct (Rcase_abs (x - c)); lra. Qed.

Lemma sum_values_fingers (f : Fingers) :
  sum_values (Object_values f) = index f + middle f + ring f + little f.
Proof. unfold sum_values, Object_values. cbn. lra. Qed.

(** C2, as the code has it: for every frame whose four finger bends are
    approximately 0.05 (here: within 0.2 of it) and on which the pinch rule
    does not fire (the thumb bend is at least 0.6, or at least 0.2 away from
    the index bend), the classifier returns [open_palm] with confidence at
    least 0.8, whatever the gyroscope of the frame reads. *)
Theorem open_hand_without_pinch_is_open_palm
    (frame : SensorFrame) (f : Fingers) (t : Thumb) :
  fingers frame = Some f ->
  thumb frame = Some t ->
  approx 0.05 0.2 (index f) ->
  approx 0.05 0.2 (middle f) ->
  approx 0.05 0.2 (ring f) ->
  approx 0.05 0.2 (little f) ->
  0.6 <= bend t \/ 0.2 <= Rabs (index f - bend t) ->
  exists r,
    classifyGesture (fingers frame) (thumb frame) (palm frame) = Normal r
    /\ gesture r = open_palm
    /\ 0.8 <= confidence r
    /\ isPinch (details r) = false.
Proof.
  intros Hf Ht Hi Hm Hr Hl Hfar. rewrite Hf, Ht, classifyGesture_present.
  eexists. split; [reflexivity |].
  cbn [gesture confidence details isPinch detailsOf].
  apply approx_bounds in Hi, Hm, Hr, Hl.
  assert (Hpinch : pinchTest f t = false).
  { apply not_true_false. rewrite pinchTest_true. lra. }
  assert (Hfist : (4 <=? closedCount f)%nat = false).
  { apply not_true_false. rewrite closedCount_all. lra. }
  assert (Hopen : (4 <=? openCount f)%nat = true).
  { rewrite openCount_all. lra. }
  assert (Hg : gestureOf f t = open_palm).
  { unfold gestureOf, choose_gesture. by rewrite Hpinch, Hfist, Hopen. }
  rewrite Hg. split; [done |]. split; [| done].
  unfold confidenceOf, rawConfidence. rewrite sum_values_fingers. solve_R.
Qed.

Lemma open_hand_without_pinch_is_open_palm_witness :
  fingers openPalmFrame = Some (mkFingers 0.1 0.1 0.1 0.1)
  /\ thumb openPalmFrame = Some (mkThumb 0.5)
  /\ approx 0.05 0.2 0.1
  /\ 0.2 <= Rabs (0.1 - 0.5)
  /\ exists r,
       classifyGesture (fingers openPalmFrame) (thumb openPalmFrame)
                       (palm openPalmFrame) = Normal r
       /\ gesture r = open_palm
       /\ 0.8 <= confidence r
       /\ isPinch (details r) = false.
Proof.
  assert (Ha : approx 0.05 0.2 0.1) by (apply approx_bounds; lra).
  assert (Hd : 0.2 <= Rabs (0.1 - 0.5)) by solve_R.
  split; [reflexivity |]. split; [reflexivity |].
  split; [exact Ha |]. split; [exact Hd |].
  apply (open_hand_without_pinch_is_open_palm openPalmFrame
           (mkFingers 0.1 0.1 0.1 0.1) (mkThumb 0.5)
           eq_refl eq_refl Ha Ha Ha Ha (or_intror Hd)).
Defined.

(** C2, as the specification words it, fails: with every bend at 0.05, the
    thumb's included, and a gyroscope reading zero the pinch rule fires (index
    and thumb are below 0.6 and within 0.2 of each other; the rule reads no
    gyroscope) and the gesture is [pinch], not [open_palm]. *)
Lemma flat_hand_is_pinch :
  exists r,
    classifyGesture (fingers flatHandFrame) (thumb flatHandFrame)
                    (palm flatHandFrame) = Normal r
    /\ gyroscope (sampleImu arr3_zero) = Some arr3_zero
    /\ isPinch (details r) = true
    /\ isOpenPalm (details r) = true
    /\ gesture r = pinch
    /\ gesture r <> open_palm.
Proof.
  eexists. split; [apply classifyGesture_present |].
  cbn [gesture details isPinch isOpenPalm detailsOf].
  assert (Hpinch : pinchTest (mkFingers 0.05 0.05 0.05 0.05) (mkThumb 0.05)
                   = true).
  { rewrite pinchTest_true. cbn. repeat split; solve_R. }
  assert (Hopen : (4 <=? openCount (mkFingers 0.05 0.05 0.05 0.05))%nat = true).
  { rewrite openCount_all. cbn. lra. }
  assert (Hg : gestureOf (mkFingers 0.05 0.05 0.05 0.05) (mkThumb 0.05)
               = pinch).
  { unfold gestureOf, choose_gesture. by rewrite Hpinch. }
  rewrite Hg, Hpinch, Hopen. repeat split; done.
Qed.

(** C7, as the code has it: the fist test counts the four fingers only: it
    holds exactly when index, middle, ring and little all bend above the
    closed threshold, whatever the thumb does, and the gesture is [fist]
    exactly when it holds and the pinch test does not. *)
Theorem fist_needs_all_four_fingers
    (f : Fingers) (t : Thumb) (p : option Palm) :
  exists r,
    classifyGesture (Some f) (Some t) p = Normal r
    /\ closedFingers (details r)
       = length (List.filter (fun b => num_gt b 0.7)
                             [index f; middle f; ring f; little f])
    /\ (isFist (details r) = true <->
        0.7 < index f /\ 0.7 < middle f /\ 0.7 < ring f /\ 0.7 < little f)
    /\ (isPinch (details r) = true <->
        index f < 0.6 /\ bend t < 0.6 /\ Rabs (index f - bend t) < 0.2)
    /\ (gesture r = fist <->
        isPinch (details r) = false /\ isFist (details r) = true).
Proof.
  eexists. split; [apply classifyGesture_present |].
  cbn [gesture details isPinch isFist closedFingers detailsOf].
  split; [reflexivity |]. split; [apply closedCount_all |].
  split; [apply pinchTest_true |].
  unfold gestureOf, choose_gesture.
  destruct (pinchTest f t), (4 <=? closedCount f)%nat,
    (4 <=? openCount f)%nat, (pointingTest f); intuition congruence.
Qed.

(** C7, as the specification words it, fails: with thumb, middle, ring and
    little closed (four of the five digits) and the index open, no pinch
    matches, the fist test is false (three closed fingers are counted) and
    the gesture is [pointing]. *)
Lemma thumb_and_three_fingers_is_not_fist :
  exists r,
    classifyGesture (fingers thumbAndThreeClosed) (thumb thumbAndThreeClosed)
                    (palm thumbAndThreeClosed) = Normal r
    /\ isPinch (details r) = false
    /\ closedFingers (details r) = 3%nat
    /\ isFist (details r) = false
    /\ gesture r = pointing
    /\ gesture r <> fist.
Proof.
  eexists. split; [apply classifyGesture_present |].
  cbn [gesture details isPinch isFist closedFingers detailsOf].
  assert (Hpinch : pinchTest (mkFingers 0.1 0.9 0.9 0.9) (mkThumb 0.9) = false).
  { apply not_true_false. rewrite pinchTest_true. cbn. lra. }
  assert (Hcount : closedCount (mkFingers 0.1 0.9 0.9 0.9) = 3%nat).
  { unfold closedCount, Object_values. cbn. by num_eval. }
  assert (Hopen : (4 <=? openCount (mkFingers 0.1 0.9 0.9 0.9))%nat = false).
  { apply not_true_false. rewrite openCount_all. cbn. lra. }
  assert (Hpoint : pointingTest (mkFingers 0.1 0.9 0.9 0.9) = true).
  { unfold pointingTest. cbn. by num_eval. }
  unfold gestureOf, choose_gesture.
  rewrite Hpinch, Hcount, Hopen, Hpoint. cbn. repeat split; done.
Qed.

(** ** The handler *)

Lemma truthy_true (s : string) : truthy s = true <-> s <> "".
Proof. destruct s; cbn; split; done. Qed.

Lemma validFrame_true (f : SensorFrame) :
  validFrame f = true <->
  deviceId f <> "" /\ is_Some (imu f) /\ is_Some (fingers f).
Proof.
  unfold validFrame. rewrite !andb_true_iff, !bool_decide_eq_true, truthy_true.
  tauto.
Qed.

Lemma prefix_app (n s : string) :
  String.prefix n s = true <-> exists post, s = (n ++ post)%string.
Proof.
  revert s. induction n as [| a n IH]; intros s.
  - split; [intros _; by exists s | intros _; by destruct s].
  - destruct s as [| b s].
    { split; [done | intros (post & [=])]. }
    change (String.prefix (String a n) (String b s))
      with (if Ascii.ascii_dec a b then String.prefix n s else false).
    change (String a n +:+ ?p) with (String a (n +:+ p)).
    destruct (Ascii.ascii_dec a b) as [-> | Hne].
    + rewrite IH. split; intros (post & H); exists post.
      * by rewrite H.
      * by injection H.
    + split; [done | intros (post & [= ? ?]); done].
Qed.

(** [includes] is substring containment. *)
Lemma includes_spec (s n : string) :
  includes s n = true <-> exists pre post, s = (pre ++ n ++ post)%string.
Proof.
  induction s as [| a s IH].
  - change (includes "" n) with (if String.prefix n "" then true else false).
    destruct (String.prefix n "") eqn:Hp.
    + apply prefix_app in Hp as (post & Hp).
      split; [intros _; by exists ""%string, post | done].
    + split; [done |]. intros (pre & post & H).
      destruct pre; [| done].
      assert (String.prefix n "" = true) by (apply prefix_app; eauto).
      congruence.
  - change (includes (String a s) n)
      with (if String.prefix n (String a s) then true else includes s n).
    destruct (String.prefix n (String a s)) eqn:Hp.
    + apply prefix_app in Hp as (post & Hp).
      split; [intros _; by exists ""%string, post | done].
    + rewrite IH. split.
      * intros (pre & post & ->). by exists (String a pre), post.
      * intros (pre & post & H). destruct pre as [| b pre].
        -- assert (String.prefix n (String a s) = true)
             by (apply prefix_app; eauto).
           congruence.
        -- injection H as _ ->. by exists pre, post.
Qed.

Lemma calculateMovementData_returns
    (rawData : SensorFrame) (previousData : option SensorFrame) (cimu : Imu) :
  imu rawData = Some cimu ->
  (forall p, previousData = Some p -> is_Some (imu p)) ->
  exists md, calculateMovementData rawData previousData = Normal md.
Proof.
  intros Hc Hp. destruct previousData as [p |].
  - destruct (Hp p eq_refl) as [pimu Hpimu].
    eexists. by apply calculateMovementData_paired.
  - eexists. by apply calculateMovementData_first.
Qed.

Lemma assembleEvent_complete (now : R) (rawData : SensorFrame)
    (md : MovementData) (i : Imu) (f : Fingers) (t : Thumb) (p : Palm)
    (sw : Switches) :
  imu rawData = Some i ->
  fingers rawData = Some f ->
  thumb rawData = Some t ->
  palm rawData = Some p ->
  switches rawData = Some sw ->
  assembleEvent now rawData md = Normal (eventOf now rawData md i f t p sw).
Proof.
  intros Hi Hf Ht Hp Hsw.
  unfold assembleEvent, normalizeCursorOrientation, eventOf.
  rewrite Hi, Hf, Ht, Hp, Hsw, classifyGesture_present. done.
Qed.

(** Without a thumb the classifier throws or finds no pinch. *)
Lemma classifyGesture_no_thumb (f : Fingers) (p : option Palm) :
  classifyGesture (Some f) None p = Abrupt TypeError
  \/ exists r, classifyGesture (Some f) None p = Normal r.
Proof.
  unfold classifyGesture. cbn [prop_of mbind completion_bind].
  destruct (num_lt (index f) (PINCH_THRESHOLD GESTURE_THRESHOLDS));
    [by left |].
  right. cbn [mbind completion_bind mret completion_ret].
  unfold choose_gesture.
  destruct (4 <=? _)%nat; [by eexists |].
  destruct (4 <=? _)%nat; [by eexists |].
  destruct (_ && _ && _); by eexists.
Qed.

Lemma assembleEvent_incomplete (now : R) (rawData : SensorFrame)
    (md : MovementData) :
  is_Some (imu rawData) ->
  is_Some (fingers rawData) ->
  thumb rawData = None \/ palm rawData = None \/ switches rawData = None ->
  assembleEvent now rawData md = Abrupt TypeError.
Proof.
  intros [i Hi] [f Hf] Hmissing.
  unfold assembleEvent, normalizeCursorOrientation. rewrite Hi, Hf.
  destruct (thumb rawData) as [t |] eqn:Ht.
  - rewrite classifyGesture_present. cbn.
    destruct (switches rawData); [| done].
    destruct (palm rawData); [| done].
    by destruct Hmissing as [? | [? | ?]].
  - destruct (classifyGesture_no_thumb f (palm rawData)) as [-> | [r ->]];
      [done |].
    cbn. by destruct (switches rawData).
Qed.

Lemma store_ok_empty : store_ok ∅.
Proof. intros id fr H. by rewrite lookup_empty in H. Qed.

Lemma store_ok_insert (store : gmap string SensorFrame) (f : SensorFrame) :
  store_ok store -> is_Some (imu f) ->
  store_ok (<[deviceId f := f]> store).
Proof.
  intros Hok Hf id fr. rewrite lookup_insert.
  case_decide; [intros [= <-]; done | apply Hok].
Qed.

Lemma postSensorData_invalid (now : R) (f : SensorFrame) (srv : Server) :
  validFrame f = false ->
  postSensorData now f srv =
  (Normal (Status400 "Missing required sensor data fields"
                     ["deviceId"; "imu"; "fingers"; "thumb"; "switches"]),
   srv).
Proof. intros H. unfold postSensorData. by rewrite H. Qed.

Lemma postSensorData_complete (now : R) (f : SensorFrame) (srv : Server)
    (i : Imu) (ff : Fingers) (t : Thumb) (p : Palm) (sw : Switches) :
  store_ok (previousFrameData srv) ->
  deviceId f <> "" ->
  imu f = Some i ->
  fingers f = Some ff ->
  thumb f = Some t ->
  palm f = Some p ->
  switches f = Some sw ->
  exists md,
    calculateMovementData f (previousFrameData srv !! deviceId f) = Normal md
    /\ postSensorData now f srv =
       (Normal (Status200 (summaryOf (eventOf now f md i ff t p sw))),
        {| previousFrameData := <[deviceId f := f]> (previousFrameData srv);
           currentGestureState :=
             updateHand (deviceId f) (eventOf now f md i ff t p sw)
                        (currentGestureState srv);
           emitted := emitted srv ++ [eventOf now f md i ff t p sw] |}).
Proof.
  intros Hok Hid Hi Hf Ht Hp Hsw.
  destruct (calculateMovementData_returns f
              (previousFrameData srv !! deviceId f) i Hi) as [md Hmd].
  { intros prev Hprev. by eapply Hok. }
  exists md. split; [done |].
  assert (Hvalid : validFrame f = true).
  { apply validFrame_true. rewrite Hi, Hf. eauto. }
  unfold postSensorData, processSensorData. rewrite Hvalid, Hmd. cbn [negb].
  by rewrite (assembleEvent_complete now f md i ff t p sw).
Qed.

Lemma postSensorData_incomplete (now : R) (f : SensorFrame) (srv : Server) :
  store_ok (previousFrameData srv) ->
  validFrame f = true ->
  thumb f = None \/ palm f = None \/ switches f = None ->
  postSensorData now f srv =
  (Normal (Status500 "Internal server error"),
   {| previousFrameData := <[deviceId f := f]> (previousFrameData srv);
      currentGestureState := currentGestureState srv;
      emitted := emitted srv |}).
Proof.
  intros Hok Hvalid Hmissing.
  pose proof Hvalid as (Hid & [i Hi] & Hf)%validFrame_true.
  destruct (calculateMovementData_returns f
              (previousFrameData srv !! deviceId f) i Hi) as [md Hmd].
  { intros prev Hprev. by eapply Hok. }
  unfold postSensorData, processSensorData. rewrite Hvalid, Hmd. cbn [negb].
  rewrite assembleEvent_incomplete; [done | by rewrite Hi | done | done].
Qed.

(** The invariant of the history store holds initially and after every
    request. *)
Lemma postSensorData_store_ok (now : R) (f : SensorFrame) (srv : Server) :
  store_ok (previousFrameData srv) ->
  store_ok (previousFrameData (postSensorData now f srv).2).
Proof.
  intros Hok. destruct (validFrame f) eqn:Hvalid.
  2:{ by rewrite postSensorData_invalid. }
  pose proof Hvalid as (Hid & [i Hi] & [ff Hf])%validFrame_true.
  destruct (thumb f) as [t |] eqn:Ht;
    [destruct (palm f) as [p |] eqn:Hp;
     [destruct (switches f) as [sw |] eqn:Hsw |] |].
  - destruct (postSensorData_complete now f srv i ff t p sw)
      as (md & _ & ->); try done.
    cbn. apply store_ok_insert; [done | by rewrite Hi].
  - rewrite postSensorData_incomplete by auto.
    cbn. apply store_ok_insert; [done | by rewrite Hi].
  - rewrite postSensorData_incomplete by auto.
    cbn. apply store_ok_insert; [done | by rewrite Hi].
  - rewrite postSensorData_incomplete by auto.
    cbn. apply store_ok_insert; [done | by rewrite Hi].
Qed.

Lemma store_ok_busyServer : store_ok (previousFrameData busyServer).
Proof.
  intros id fr H. cbn in H.
  apply lookup_singleton_Some in H as [_ <-]. by eexists.
Qed.

(** ** Optional fields *)

(** C6, as the code has it: a frame that carries [deviceId], [imu],
    [fingers], [thumb], [palm] and [switches] but no [position] is accepted
    and processed to an event, the movement calculator treating the missing
    position as [{0, 0, 0}]. *)
Theorem frame_without_position_is_processed
    (now : R) (f : SensorFrame) (srv : Server)
    (i : Imu) (ff : Fingers) (t : Thumb) (p : Palm) (sw : Switches) :
  store_ok (previousFrameData srv) ->
  deviceId f <> "" ->
  imu f = Some i ->
  fingers f = Some ff ->
  thumb f = Some t ->
  palm f = Some p ->
  switches f = Some sw ->
  position f = None ->
  exists pd srv',
    postSensorData now f srv = (Normal (Status200 (summaryOf pd)), srv')
    /\ emitted srv' = emitted srv ++ [pd]
    /\ previousFrameData srv' !! deviceId f = Some f
    /\ pd_deviceId pd = deviceId f
    /\ pd_gesture pd = gestureOf ff t
    /\ md_position (movementData pd) = vec3_zero
    /\ (previousFrameData srv !! deviceId f = None ->
        positionDelta (movementData pd) = vec3_zero)
    /\ (forall prev, previousFrameData srv !! deviceId f = Some prev ->
          positionDelta (movementData pd)
          = mkVec3 (0 - vx (position_or_zero (position prev)))
                   (0 - vy (position_or_zero (position prev)))
                   (0 - vz (position_or_zero (position prev)))).
Proof.
  intros Hok Hid Hi Hf Ht Hp Hsw Hpos.
  destruct (postSensorData_complete now f srv i ff t p sw)
    as (md & Hmd & Heq); try done.
  eexists _, _. split; [exact Heq |].
  cbn [emitted previousFrameData pd_deviceId pd_gesture movementData eventOf].
  split; [done |]. split; [apply lookup_insert_eq |].
  split; [done |]. split; [done |].
  destruct (previousFrameData srv !! deviceId f) as [prev |] eqn:Hprev.
  - destruct (Hok _ _ Hprev) as [pimu Hpimu].
    rewrite (calculateMovementData_paired f prev i pimu Hi Hpimu) in Hmd.
    injection Hmd as <-. cbn. rewrite Hpos.
    split; [done |]. split; [done |].
    intros prev' [= <-]. unfold rawPositionDelta. by rewrite Hpos.
  - rewrite (calculateMovementData_first f i Hi) in Hmd.
    injection Hmd as <-. cbn. rewrite Hpos. done.
Qed.

Lemma frame_without_position_is_processed_witness :
  store_ok (previousFrameData initialServer)
  /\ deviceId noPositionFrame <> ""%string
  /\ position noPositionFrame = None
  /\ exists pd srv',
       postSensorData 0 noPositionFrame initialServer
       = (Normal (Status200 (summaryOf pd)), srv')
       /\ emitted srv' = emitted initialServer ++ [pd]
       /\ md_position (movementData pd) = vec3_zero.
Proof.
  split; [apply store_ok_empty |]. split; [done |]. split; [reflexivity |].
  destruct (frame_without_position_is_processed 0 noPositionFrame
              initialServer (sampleImu arr3_zero) (mkFingers 0.1 0.1 0.1 0.1)
              (mkThumb 0.5) (mkPalm 0.3) (mkSwitches false false false)
              store_ok_empty ltac:(done) eq_refl eq_refl eq_refl eq_refl
              eq_refl eq_refl)
    as (pd & srv' & Heq & Hem & _ & _ & _ & Hpos & _).
  exists pd, srv'. split; [exact Heq |]. split; [exact Hem | exact Hpos].
Defined.

(** C6, as the specification words it, fails: frames that pass the
    validation but carry no [thumb], no [palm] or no [switches] are not
    processed to an event: each one gets the internal-error response and
    nothing is broadcast. *)
Lemma frames_without_thumb_palm_or_switches_fail :
  validFrame noThumbFrame = true
  /\ validFrame noPalmFrame = true
  /\ validFrame noSwitchesFrame = true
  /\ (exists srv',
        postSensorData 0 noThumbFrame initialServer
        = (Normal (Status500 "Internal server error"), srv')
        /\ emitted srv' = [])
  /\ (exists srv',
        postSensorData 0 noPalmFrame initialServer
        = (Normal (Status500 "Internal server error"), srv')
        /\ emitted srv' = [])
  /\ (exists srv',
        postSensorData 0 noSwitchesFrame initialServer
        = (Normal (Status500 "Internal server error"), srv')
        /\ emitted srv' = []).
Proof.
  split; [reflexivity |]. split; [reflexivity |]. split; [reflexivity |].
  split; [| split].
  - eexists. split.
    + apply (postSensorData_incomplete 0 noThumbFrame initialServer
               store_ok_empty eq_refl). auto.
    + reflexivity.
  - eexists. split.
    + apply (postSensorData_incomplete 0 noPalmFrame initialServer
               store_ok_empty eq_refl). auto.
    + reflexivity.
  - eexists. split.
    + apply (postSensorData_incomplete 0 noSwitchesFrame initialServer
               store_ok_empty eq_refl). auto.
    + reflexivity.
Qed.

(** ** The global gesture state *)

(** C9: a request to the handler leaves [selectedObject] and
    [transformMode] of the global state unchanged and never touches the hand
    slot that the substring test on [deviceId] does not choose; a frame that
    is processed sets the chosen slot to its event, the [rightHand] slot
    whenever the [deviceId] does not contain ["left"]. *)
Theorem frame_updates_one_hand_slot
    (now : R) (f : SensorFrame) (srv srv' : Server)
    (r : completion Response) :
  postSensorData now f srv = (r, srv') ->
  selectedObject (currentGestureState srv')
  = selectedObject (currentGestureState srv)
  /\ transformMode (currentGestureState srv')
     = transformMode (currentGestureState srv)
  /\ (includes (deviceId f) "left" = true ->
      rightHand (currentGestureState srv')
      = rightHand (currentGestureState srv))
  /\ (includes (deviceId f) "left" = false ->
      leftHand (currentGestureState srv')
      = leftHand (currentGestureState srv))
  /\ (forall s, r = Normal (Status200 s) ->
        exists pd,
          s = summaryOf pd
          /\ emitted srv' = emitted srv ++ [pd]
          /\ (includes (deviceId f) "left" = true ->
              leftHand (currentGestureState srv') = Some pd)
          /\ (includes (deviceId f) "left" = false ->
              rightHand (currentGestureState srv') = Some pd)).
Proof.
  unfold postSensorData. intros H.
  destruct (validFrame f); cbn [negb] in H.
  2:{ injection H as <- <-. repeat split; try done; intros s [=]. }
  destruct (processSensorData now f (previousFrameData srv))
    as [[pd | []] store].
  - injection H as <- <-. cbn. unfold updateHand.
    destruct (includes (deviceId f) "left"); cbn;
      (repeat split; try done; intros s [= <-]; exists pd; done).
  - injection H as <- <-. repeat split; try done; intros s [=].
  - injection H as <- <-. repeat split; try done; intros s [=].
Qed.

Lemma frame_updates_one_hand_slot_witness :
  exists r srv',
    postSensorData 100 openPalmFrame busyServer = (r, srv')
    /\ includes (deviceId openPalmFrame) "left" = false
    /\ selectedObject (currentGestureState srv') = Some "cube-1"%string
    /\ transformMode (currentGestureState srv') = "rotate"%string
    /\ leftHand (currentGestureState srv') = None
    /\ exists pd,
         r = Normal (Status200 (summaryOf pd))
         /\ rightHand (currentGestureState srv') = Some pd.
Proof.
  destruct (postSensorData_complete 100 openPalmFrame busyServer
              (sampleImu arr3_zero) (mkFingers 0.1 0.1 0.1 0.1) (mkThumb 0.5)
              (mkPalm 0.3) (mkSwitches false false false)
              store_ok_busyServer ltac:(done) eq_refl eq_refl eq_refl eq_refl
              eq_refl)
    as (md & _ & Heq).
  eexists _, _. split; [exact Heq |].
  destruct (frame_updates_one_hand_slot _ _ _ _ _ Heq)
    as (Hsel & Hmode & _ & Hleft & Hslot).
  destruct (Hslot _ eq_refl) as (pd & Hs & _ & _ & Hright).
  split; [reflexivity |]. split; [exact Hsel |]. split; [exact Hmode |].
  split; [exact (Hleft eq_refl) |].
  exists pd. split; [by rewrite Hs | exact (Hright eq_refl)].
Defined.

(** ** The gesture patterns of the simulators *)

Example fistFrame_is_fist :
  exists r,
    classifyGesture (fingers fistFrame) (thumb fistFrame) (palm fistFrame)
    = Normal r
    /\ gesture r = fist /\ 0.6 <= confidence r.
Proof.
  eexists. split; [apply classifyGesture_present |]. cbn [gesture confidence].
  assert (Hp : pinchTest (mkFingers 0.9 0.9 0.9 0.9) (mkThumb 0.9) = false).
  { apply not_true_false. rewrite pinchTest_true. cbn. lra. }
  assert (Hc : (4 <=? closedCount (mkFingers 0.9 0.9 0.9 0.9))%nat = true).
  { rewrite closedCount_all. cbn. lra. }
  assert (Hg : gestureOf (mkFingers 0.9 0.9 0.9 0.9) (mkThumb 0.9) = fist).
  { unfold gestureOf, choose_gesture. by rewrite Hp, Hc. }
  rewrite Hg. split; [done |].
  unfold confidenceOf, rawConfidence. rewrite sum_values_fingers. cbn.
  solve_R.
Qed.

Example moving_one_metre_in_one_second :
  exists m,
    calculateMovementData (shiftedFrame 1000) (Some restFrame) = Normal m
    /\ deltaTime m = 1
    /\ velocity m = mkVec3 ((1 - 0) / 1) ((0 - 0) / 1) ((0 - 0) / 1)
    /\ positionMagnitude m = 1.
Proof.
  eexists. split.
  { apply (calculateMovementData_paired (shiftedFrame 1000) restFrame);
      reflexivity. }
  cbn [deltaTime velocity positionMagnitude].
  assert (Hdt : frame_deltaTime (shiftedFrame 1000) restFrame = 1).
  { unfold frame_deltaTime. cbn. lra. }
  rewrite Hdt, velocityOf_positive by lra.
  split; [done |]. split; [done |]. apply norm3_axis_eq; cbn; lra.
Qed.

(** * Further properties of the server *)

(** ** Confidence *)

Lemma calculateConfidence_range (g : Gesture) (sf : option Fingers)
    (st : option Thumb) (c : R) :
  calculateConfidence g sf st = Normal c -> 0.1 <= c <= 1.
Proof.
  unfold calculateConfidence. intros H.
  apply bind_Normal in H as (x & _ & H). injection H as <-. solve_R.
Qed.

Lemma classifyGesture_fault (fingers : option Fingers) (thumb : option Thumb)
    (palm : option Palm) (e : Fault) :
  classifyGesture fingers thumb palm = Abrupt e -> e = TypeError.
Proof.
  destruct fingers as [f |]; [| by intros [= <-]].
  destruct thumb as [t |].
  - by rewrite classifyGesture_present.
  - destruct (classifyGesture_no_thumb f palm) as [-> | [r ->]];
      [by intros [= <-] | done].
Qed.

(** X1: The classifier either throws for a missing object or returns a
    confidence within [0.1, 1]. *)
Theorem classifyGesture_confidence_range
    (fingers : option Fingers) (thumb : option Thumb) (palm : option Palm) :
  classifyGesture fingers thumb palm = Abrupt TypeError
  \/ exists r,
       classifyGesture fingers thumb palm = Normal r
       /\ 0.1 <= confidence r <= 1.
Proof.
  destruct (classifyGesture fingers thumb palm) as [r | e] eqn:H.
  - right. exists r. split; [done |].
    unfold classifyGesture in H.
    apply bind_Normal in H as (f & _ & H).
    apply bind_Normal in H as (ip & _ & H).
    apply bind_Normal in H as (c & Hc & H).
    injection H as <-. cbn. by eapply calculateConfidence_range.
  - left. by rewrite (classifyGesture_fault _ _ _ _ H).
Qed.

Lemma gestureOf_cases (f : Fingers) (t : Thumb) :
  (gestureOf f t = pinch <-> pinchTest f t = true)
  /\ (gestureOf f t = fist <->
      pinchTest f t = false /\ (4 <=? closedCount f)%nat = true)
  /\ (gestureOf f t = open_palm <->
      pinchTest f t = false /\ (4 <=? closedCount f)%nat = false
      /\ (4 <=? openCount f)%nat = true)
  /\ (gestureOf f t = pointing <->
      pinchTest f t = false /\ (4 <=? closedCount f)%nat = false
      /\ (4 <=? openCount f)%nat = false /\ pointingTest f = true)
  /\ (gestureOf f t = neutral <->
      pinchTest f t = false /\ (4 <=? closedCount f)%nat = false
      /\ (4 <=? openCount f)%nat = false /\ pointingTest f = false).
Proof.
  unfold gestureOf, choose_gesture.
  destruct (pinchTest f t), (4 <=? closedCount f)%nat,
    (4 <=? openCount f)%nat, (pointingTest f); intuition congruence.
Qed.

Lemma pointingTest_true (f : Fingers) :
  pointingTest f = true <-> index f < 0.3 /\ 0.7 < middle f /\ 0.7 < ring f.
Proof.
  unfold pointingTest. cbn [FINGER_OPEN FINGER_CLOSED GESTURE_THRESHOLDS].
  rewrite !andb_true_iff, num_lt_true, !num_gt_true. tauto.
Qed.

Lemma confidenceOf_by_gesture (f : Fingers) (t : Thumb) :
  (gestureOf f t = pointing -> confidenceOf (gestureOf f t) f t = 1)
  /\ (gestureOf f t = pinch -> 0.6 < confidenceOf (gestureOf f t) f t)
  /\ (gestureOf f t = open_palm -> 0.76 < confidenceOf (gestureOf f t) f t)
  /\ (gestureOf f t = fist -> 0.56 < confidenceOf (gestureOf f t) f t)
  /\ (gestureOf f t = fist ->
      index f <= 1 -> middle f <= 1 -> ring f <= 1 -> little f <= 1 ->
      confidenceOf (gestureOf f t) f t <= 0.8)
  /\ (gestureOf f t = neutral -> confidenceOf (gestureOf f t) f t = 0.5).
Proof.
  destruct (gestureOf_cases f t) as (Hpi & Hfi & Hop & Hpo & Hne).
  repeat split; intros Hg; rewrite Hg; unfold confidenceOf, rawConfidence;
    rewrite ?sum_values_fingers.
  - apply Hpo in Hg as (_ & _ & _ & (Hi & Hm & _)%pointingTest_true).
    solve_R.
  - apply Hpi in Hg. apply pinchTest_true in Hg as (_ & _ & Hd).
    revert Hd. generalize (Rabs (index f - bend t)). intros d Hd. solve_R.
  - apply Hop in Hg as (_ & _ & Hopen%openCount_all). solve_R.
  - apply Hfi in Hg as (_ & Hc%closedCount_all). solve_R.
  - intros H1 H2 H3 H4. solve_R.
  - solve_R.
Qed.

(** X2: How sure each gesture is.  A pointing gesture always has confidence 1, a
    pinch more than 0.6, an open palm more than 0.76, a fist more than 0.56
    (and, the four bends being divided by five, at most 0.8 when no bend
    exceeds 1); neutral has 0.5. *)
Theorem confidence_by_gesture (f : Fingers) (t : Thumb) (p : option Palm) :
  exists r,
    classifyGesture (Some f) (Some t) p = Normal r
    /\ (gesture r = pointing -> confidence r = 1)
    /\ (gesture r = pinch -> 0.6 < confidence r)
    /\ (gesture r = open_palm -> 0.76 < confidence r)
    /\ (gesture r = fist -> 0.56 < confidence r)
    /\ (gesture r = fist ->
        index f <= 1 -> middle f <= 1 -> ring f <= 1 -> little f <= 1 ->
        confidence r <= 0.8)
    /\ (gesture r = neutral -> confidence r = 0.5).
Proof.
  eexists. split; [apply classifyGesture_present |].
  cbn [gesture confidence]. apply confidenceOf_by_gesture.
Qed.

(** ** The decision table *)

(** X3: The fist, open-palm and pointing tests exclude one another, so the order
    in which the classifier tries them is immaterial: only the pinch test
    has priority.  The little finger plays no part in pointing. *)
Theorem classifier_decision_table (f : Fingers) (t : Thumb) (p : option Palm) :
  exists r,
    classifyGesture (Some f) (Some t) p = Normal r
    /\ (isFist (details r) = true -> isOpenPalm (details r) = false
                                    /\ isPointing (details r) = false)
    /\ (isOpenPalm (details r) = true -> isPointing (details r) = false)
    /\ (gesture r = pinch <->
        index f < 0.6 /\ bend t < 0.6 /\ Rabs (index f - bend t) < 0.2)
    /\ (gesture r = fist <->
        isPinch (details r) = false
        /\ 0.7 < index f /\ 0.7 < middle f /\ 0.7 < ring f /\ 0.7 < little f)
    /\ (gesture r = open_palm <->
        isPinch (details r) = false
        /\ index f < 0.3 /\ middle f < 0.3 /\ ring f < 0.3 /\ little f < 0.3)
    /\ (gesture r = pointing <->
        isPinch (details r) = false
        /\ index f < 0.3 /\ 0.7 < middle f /\ 0.7 < ring f)
    /\ (gesture r = neutral <->
        isPinch (details r) = false /\ isFist (details r) = false
        /\ isOpenPalm (details r) = false /\ isPointing (details r) = false).
Proof.
  eexists. split; [apply classifyGesture_present |].
  cbn [gesture details isPinch isFist isOpenPalm isPointing detailsOf].
  destruct (gestureOf_cases f t) as (Hpi & Hfi & Hop & Hpo & Hne).
  pose proof (closedCount_all f) as Hc.
  pose proof (openCount_all f) as Ho.
  pose proof (pointingTest_true f) as Hp.
  rewrite Hpi, Hfi, Hop, Hpo, Hne, <- pinchTest_true, <- Hc, <- Ho, <- Hp.
  assert (Hfo : (4 <=? closedCount f)%nat = true ->
                (4 <=? openCount f)%nat = false /\ pointingTest f = false).
  { intros H. apply Hc in H. split; apply not_true_false.
    - rewrite Ho. lra.
    - rewrite Hp. lra. }
  assert (Hop' : (4 <=? openCount f)%nat = true -> pointingTest f = false).
  { intros H. apply Ho in H. apply not_true_false. rewrite Hp. lra. }
  split; [exact Hfo |]. split; [exact Hop' |]. split; [done |].
  split; [tauto |].
  destruct (pinchTest f t), (4 <=? closedCount f)%nat eqn:E1,
    (4 <=? openCount f)%nat eqn:E2, (pointingTest f) eqn:E3;
    repeat split; try tauto; try (intros; intuition congruence);
    try (destruct (Hfo eq_refl); congruence);
    try (specialize (Hop' eq_refl); congruence).
Qed.

(** ** The cursor ray *)

(** X4: The cursor orientation is a unit vector and does not depend on the roll
    angle. *)
Theorem cursorOrientation_unit (i : Imu) :
  exists c,
    normalizeCursorOrientation (Some i) = Normal c
    /\ at0 c * at0 c + at1 c * at1 c + at2 c * at2 c = 1
    /\ forall roll' acc gyro,
         normalizeCursorOrientation
           (Some {| orientation := mkArr3 roll' (at1 (orientation i))
                                          (at2 (orientation i));
                    acceleration := acc; gyroscope := gyro |})
         = Normal c.
Proof.
  eexists. split; [reflexivity |]. cbn. split; [| done].
  pose proof (sin2_cos2 (at1 (orientation i))) as Hp.
  pose proof (sin2_cos2 (at2 (orientation i))) as Hy.
  unfold Rsqr in *. nra.
Qed.

(** ** Responses of the handler *)

Lemma completeFrame_valid (f : SensorFrame) :
  completeFrame f -> validFrame f = true.
Proof. intros (? & ? & ? & _). by apply validFrame_true. Qed.

Lemma completeFrame_dec (f : SensorFrame) :
  validFrame f = true ->
  completeFrame f
  \/ (thumb f = None \/ palm f = None \/ switches f = None).
Proof.
  intros (? & ? & ?)%validFrame_true. unfold completeFrame.
  destruct (thumb f), (palm f), (switches f); eauto 10.
Qed.

Lemma incomplete_not_complete (f : SensorFrame) :
  thumb f = None \/ palm f = None \/ switches f = None -> ~ completeFrame f.
Proof.
  intros H (_ & _ & _ & [? Ht] & [? Hp] & [? Hs]).
  destruct H as [H | [H | H]]; congruence.
Qed.

Lemma postSensorData_complete_frame (now : R) (f : SensorFrame) (srv : Server) :
  store_ok (previousFrameData srv) ->
  completeFrame f ->
  exists md pd,
    calculateMovementData f (previousFrameData srv !! deviceId f) = Normal md
    /\ movementData pd = md
    /\ pd_deviceId pd = deviceId f
    /\ pd_timestamp pd = now
    /\ postSensorData now f srv =
       (Normal (Status200 (summaryOf pd)),
        {| previousFrameData := <[deviceId f := f]> (previousFrameData srv);
           currentGestureState :=
             updateHand (deviceId f) pd (currentGestureState srv);
           emitted := emitted srv ++ [pd] |}).
Proof.
  intros Hok (Hid & [i Hi] & [ff Hf] & [t Ht] & [p Hp] & [sw Hsw]).
  destruct (postSensorData_complete now f srv i ff t p sw)
    as (md & Hmd & Heq); try done.
  by exists md, (eventOf now f md i ff t p sw).
Qed.

(** ** Devices are independent *)

Lemma postSensorData_history (now : R) (f : SensorFrame) (srv : Server) :
  store_ok (previousFrameData srv) ->
  validFrame f = true ->
  previousFrameData (postSensorData now f srv).2
  = <[deviceId f := f]> (previousFrameData srv).
Proof.
  intros Hok Hvalid. destruct (completeFrame_dec f Hvalid) as [Hc | Hm].
  - by destruct (postSensorData_complete_frame now f srv Hok Hc)
      as (md & pd & _ & _ & _ & _ & ->).
  - by rewrite postSensorData_incomplete.
Qed.

(** X6: The response to a frame depends on the history store only through the
    entry of the frame's own device, and no request changes the entry of
    another device. *)
Theorem devices_are_independent
    (now : R) (f : SensorFrame) (srv1 srv2 : Server) :
  previousFrameData srv1 !! deviceId f = previousFrameData srv2 !! deviceId f ->
  (postSensorData now f srv1).1 = (postSensorData now f srv2).1
  /\ (forall id, id <> deviceId f ->
        previousFrameData (postSensorData now f srv1).2 !! id
        = previousFrameData srv1 !! id).
Proof.
  intros Heq. unfold postSensorData, processSensorData. rewrite Heq.
  destruct (validFrame f); cbn [negb]; [| done].
  destruct (calculateMovementData f (previousFrameData srv2 !! deviceId f))
    as [md | []]; try done.
  destruct (assembleEvent now f md) as [pd | []]; cbn;
    (split; [done |]); intros id Hne; by apply lookup_insert_ne.
Qed.

Lemma devices_are_independent_witness :
  previousFrameData busyServer !! deviceId leftPalmFrame
  = previousFrameData initialServer !! deviceId leftPalmFrame
  /\ (postSensorData 0 leftPalmFrame busyServer).1
     = (postSensorData 0 leftPalmFrame initialServer).1
  /\ previousFrameData (postSensorData 0 leftPalmFrame busyServer).2
       !! "rightHand1"%string
     = Some restFrame.
Proof.
  assert (Hl : previousFrameData busyServer !! deviceId leftPalmFrame
               = previousFrameData initialServer !! deviceId leftPalmFrame).
  { cbn. by rewrite lookup_singleton_ne, lookup_empty. }
  destruct (devices_are_independent 0 leftPalmFrame busyServer initialServer
              Hl) as [Hr Hh].
  split; [exact Hl |]. split; [exact Hr |].
  rewrite (Hh "rightHand1"%string ltac:(done)). apply lookup_singleton_eq.
Defined.

(** ** Consecutive frames *)

Lemma postSensorData_after_valid
    (now1 now2 : R) (f1 f2 : SensorFrame) (srv : Server) :
  store_ok (previousFrameData srv) ->
  validFrame f1 = true ->
  completeFrame f2 ->
  deviceId f2 = deviceId f1 ->
  exists pd srv2,
    postSensorData now2 f2 (postSensorData now1 f1 srv).2
    = (Normal (Status200 (summaryOf pd)), srv2)
    /\ calculateMovementData f2 (Some f1) = Normal (movementData pd)
    /\ previousFrameData srv2 !! deviceId f2 = Some f2.
Proof.
  intros Hok Hv1 Hc2 Hid.
  pose proof (postSensorData_store_ok now1 f1 srv Hok) as Hok1.
  pose proof (postSensorData_history now1 f1 srv Hok Hv1) as Hh1.
  destruct (postSensorData_complete_frame now2 f2 _ Hok1 Hc2)
    as (md & pd & Hmd & Hpd & _ & _ & Heq).
  rewrite Hh1, Hid, lookup_insert_eq in Hmd.
  exists pd. eexists. split; [exact Heq |].
  rewrite Hpd. split; [exact Hmd |]. apply lookup_insert_eq.
Qed.

Lemma norm3_eq_0 (a b c : R) : norm3 a b c = 0 <-> a = 0 /\ b = 0 /\ c = 0.
Proof.
  unfold norm3. split.
  - intros H. apply sqrt_eq_0 in H; nra.
  - intros (-> & -> & ->).
    replace (0 * 0 + 0 * 0 + 0 * 0) with 0 by lra. apply sqrt_0.
Qed.

Lemma scaleFactorOf_same (f : SensorFrame) : scaleFactorOf f f = 1.
Proof.
  unfold scaleFactorOf. destruct (fingers f) as [ff |]; [| done].
  destruct (num_gt (pinchDistance ff (thumb f)) 0) eqn:Hd; [| done].
  apply num_gt_true in Hd.
  replace (pinchDistance ff (thumb f) / pinchDistance ff (thumb f)) with 1
    by (field; lra).
  solve_R.
Qed.

(** X8: A frame submitted again (same content, same timestamp) is paired with
    itself and yields no movement at all: zero deltas, zero velocity, zero
    magnitudes and a scale factor of 1. *)
Theorem resubmitted_frame_has_no_movement
    (now1 now2 : R) (f : SensorFrame) (srv : Server) :
  store_ok (previousFrameData srv) ->
  completeFrame f ->
  exists pd srv2,
    postSensorData now2 f (postSensorData now1 f srv).2
    = (Normal (Status200 (summaryOf pd)), srv2)
    /\ vx (positionDelta (movementData pd)) = 0
    /\ vy (positionDelta (movementData pd)) = 0
    /\ vz (positionDelta (movementData pd)) = 0
    /\ at0 (orientationDelta (movementData pd)) = 0
    /\ at1 (orientationDelta (movementData pd)) = 0
    /\ at2 (orientationDelta (movementData pd)) = 0
    /\ velocity (movementData pd) = vec3_zero
    /\ deltaTime (movementData pd) = 0
    /\ positionMagnitude (movementData pd) = 0
    /\ movementMagnitude (movementData pd) = 0
    /\ scaleFactor (movementData pd) = 1.
Proof.
  intros Hok Hc.
  destruct (postSensorData_after_valid now1 now2 f f srv Hok
              (completeFrame_valid f Hc) Hc eq_refl)
    as (pd & srv2 & Heq & Hmd & _).
  exists pd, srv2. split; [exact Heq |].
  destruct Hc as (_ & [i Hi] & _).
  rewrite (calculateMovementData_paired f f i i Hi Hi) in Hmd.
  injection Hmd as <-. cbn.
  assert (Hdt : frame_deltaTime f f = 0) by (unfold frame_deltaTime; lra).
  assert (Hp : norm_vec (rawPositionDelta f f) = 0).
  { apply norm3_eq_0. cbn. lra. }
  assert (Ho : norm_arr (rawOrientationDelta i i) = 0).
  { apply norm3_eq_0. cbn. lra. }
  rewrite Hdt, Hp, Ho, scaleFactorOf_same, velocityOf_nonpositive by lra.
  repeat split; try lra. apply Rmax_left. lra.
Qed.

Lemma resubmitted_frame_has_no_movement_witness :
  store_ok (previousFrameData initialServer)
  /\ completeFrame openPalmFrame
  /\ exists pd srv2,
       postSensorData 200 openPalmFrame
         (postSensorData 100 openPalmFrame initialServer).2
       = (Normal (Status200 (summaryOf pd)), srv2)
       /\ movementMagnitude (movementData pd) = 0
       /\ scaleFactor (movementData pd) = 1.
Proof.
  assert (Hc : completeFrame openPalmFrame).
  { unfold completeFrame. cbn. repeat split; (done || by eexists). }
  split; [apply store_ok_empty |]. split; [exact Hc |].
  destruct (resubmitted_frame_has_no_movement 100 200 openPalmFrame
              initialServer store_ok_empty Hc)
    as (pd & srv2 & Heq & _ & _ & _ & _ & _ & _ & _ & _ & _ & Hm & Hs).
  exists pd, srv2. split; [exact Heq |]. split; [exact Hm | exact Hs].
Defined.

(** ** Magnitudes *)

(** X9: On a pair of frames the magnitudes are non-negative, the overall
    magnitude is at least the position magnitude and vanishes exactly when
    neither position nor orientation changed; for a positive [deltaTime] the
    velocity times [deltaTime] gives back the position delta. *)
Theorem magnitudes_measure_change
    (currentData previousData : SensorFrame) (cimu pimu : Imu) :
  imu currentData = Some cimu ->
  imu previousData = Some pimu ->
  exists m,
    calculateMovementData currentData (Some previousData) = Normal m
    /\ 0 <= positionMagnitude m <= movementMagnitude m
    /\ (positionMagnitude m = 0 <->
        vx (positionDelta m) = 0 /\ vy (positionDelta m) = 0
        /\ vz (positionDelta m) = 0)
    /\ (movementMagnitude m = 0 <->
        (vx (positionDelta m) = 0 /\ vy (positionDelta m) = 0
         /\ vz (positionDelta m) = 0)
        /\ (at0 (orientationDelta m) = 0 /\ at1 (orientationDelta m) = 0
            /\ at2 (orientationDelta m) = 0))
    /\ (0 < deltaTime m ->
        vx (velocity m) * deltaTime m = vx (positionDelta m)
        /\ vy (velocity m) * deltaTime m = vy (positionDelta m)
        /\ vz (velocity m) * deltaTime m = vz (positionDelta m)).
Proof.
  intros Hc Hp. eexists. split; [by apply calculateMovementData_paired |].
  cbn [positionMagnitude movementMagnitude positionDelta orientationDelta
       velocity deltaTime].
  set (pd := rawPositionDelta currentData previousData).
  set (od := rawOrientationDelta cimu pimu).
  pose proof (norm3_nonneg (vx pd) (vy pd) (vz pd)) as Hpn.
  pose proof (norm3_nonneg (at0 od) (at1 od) (at2 od)) as Hon.
  pose proof (norm3_eq_0 (vx pd) (vy pd) (vz pd)) as Hp0.
  pose proof (norm3_eq_0 (at0 od) (at1 od) (at2 od)) as Ho0.
  unfold norm_vec, norm_arr in *.
  split; [split; [done | apply Rmax_l] |]. split; [done |]. split.
  - rewrite <- Hp0, <- Ho0. split.
    + intros H.
      pose proof (Rmax_l (norm3 (vx pd) (vy pd) (vz pd))
                         (norm3 (at0 od) (at1 od) (at2 od))).
      pose proof (Rmax_r (norm3 (vx pd) (vy pd) (vz pd))
                         (norm3 (at0 od) (at1 od) (at2 od))).
      lra.
    + intros [-> ->]. apply Rmax_left. lra.
  - intros Hdt. rewrite velocityOf_positive by done. cbn.
    repeat split; field; lra.
Qed.

Lemma magnitudes_measure_change_witness :
  imu movedFrame = Some (sampleImu (mkArr3 0.4 0 0))
  /\ imu restFrame = Some (sampleImu arr3_zero)
  /\ exists m,
       calculateMovementData movedFrame (Some restFrame) = Normal m
       /\ 0 <= positionMagnitude m <= movementMagnitude m.
Proof.
  split; [reflexivity |]. split; [reflexivity |].
  destruct (magnitudes_measure_change movedFrame restFrame
              (sampleImu (mkArr3 0.4 0 0)) (sampleImu arr3_zero)
              eq_refl eq_refl) as (m & Hm & Hb & _).
  exists m. split; [exact Hm | exact Hb].
Defined.

(** * Subscribers *)

Lemma send_to_in (targets : gset string) (m : Message)
    (d : string -> list Message) (id : string) :
  id ∈ targets -> send_to targets m d id = d id ++ [m].
Proof. intros H. unfold send_to. by rewrite decide_True. Qed.

Lemma send_to_notin (targets : gset string) (m : Message)
    (d : string -> list Message) (id : string) :
  id ∉ targets -> send_to targets m d id = d id.
Proof. intros H. unfold send_to. by rewrite decide_False. Qed.

Lemma notin_all_but (X : gset string) (s : string) : s ∉ X ∖ {[ s ]}.
Proof. intros [_ H]%elem_of_difference. apply H. by apply elem_of_singleton. Qed.

Lemma in_all_but (X : gset string) (s id : string) :
  id ∈ X -> id <> s -> id ∈ X ∖ {[ s ]}.
Proof.
  intros Hin Hne. apply elem_of_difference. split; [done |].
  by rewrite elem_of_singleton.
Qed.

Lemma notin_all_but_outside (X : gset string) (s id : string) :
  id ∉ X -> id ∉ X ∖ {[ s ]}.
Proof. by intros Hnotin [H _]%elem_of_difference. Qed.

Lemma connect_disconnect (X : gset string) (s : string) :
  s ∉ X -> ({[ s ]} ∪ X) ∖ {[ s ]} = X.
Proof.
  intros Hnotin. apply set_eq. intros x.
  rewrite elem_of_difference, elem_of_union, !elem_of_singleton. split.
  - by intros [[-> | H] Hne].
  - intros H. split; [by right | by intros ->].
Qed.

Lemma connect_again (X : gset string) (s : string) :
  s ∈ X -> {[ s ]} ∪ X = X.
Proof.
  intros Hin. apply set_eq. intros x.
  rewrite elem_of_union, elem_of_singleton. split.
  - by intros [-> | H].
  - intros H. by right.
Qed.

Lemma clientState_snoc (msgs : list Message) (m : Message) :
  clientState (msgs ++ [m]) = clientOnMessage (clientState msgs) m.
Proof. unfold clientState. by rewrite fold_left_app. Qed.

(** ** Control messages *)

(** X10: A [select-object] or [transform-mode-change] message replaces the
    corresponding field of the global state and nothing else, is delivered
    once to every other connected subscriber and never to its sender, and
    repeating it leaves the server state as it is. *)
Theorem control_messages_skip_their_sender
    (socketId value : string) (hub : Hub) :
  let g := currentGestureState (hub_server hub) in
  let hs := onSelectObject socketId value hub in
  let hm := onTransformModeChange socketId value hub in
  currentGestureState (hub_server hs)
  = {| leftHand := leftHand g; rightHand := rightHand g;
       selectedObject := Some value; transformMode := transformMode g |}
  /\ currentGestureState (hub_server hm)
     = {| leftHand := leftHand g; rightHand := rightHand g;
          selectedObject := selectedObject g; transformMode := value |}
  /\ previousFrameData (hub_server hs) = previousFrameData (hub_server hub)
  /\ previousFrameData (hub_server hm) = previousFrameData (hub_server hub)
  /\ delivered hs socketId = delivered hub socketId
  /\ delivered hm socketId = delivered hub socketId
  /\ (forall id, id ∈ connectedClients hub -> id <> socketId ->
        delivered hs id = delivered hub id ++ [ObjectSelected value]
        /\ delivered hm id = delivered hub id ++ [TransformModeChanged value])
  /\ (forall id, id ∉ connectedClients hub ->
        delivered hs id = delivered hub id
        /\ delivered hm id = delivered hub id)
  /\ hub_server (onSelectObject socketId value hs) = hub_server hs
  /\ hub_server (onTransformModeChange socketId value hm) = hub_server hm.
Proof.
  cbn. split; [done |]. split; [done |]. split; [done |]. split; [done |].
  split; [apply send_to_notin, notin_all_but |].
  split; [apply send_to_notin, notin_all_but |].
  split.
  { intros id Hin Hne. split; by apply send_to_in, in_all_but. }
  split; [| done].
  intros id Hnotin. split; by apply send_to_notin, notin_all_but_outside.
Qed.

(** ** Connections *)

(** X11: A connecting subscriber is sent the current gesture state, from which
    its mirror starts consistent, and nobody else is sent anything; the
    client count grows by one for a new socket id and not at all for one
    already connected, and a disconnect undoes a connect. *)
Theorem connection_sends_snapshot (socketId : string) (hub : Hub) :
  let hub' := onConnection socketId hub in
  socketId ∈ connectedClients hub'
  /\ hub_server hub' = hub_server hub
  /\ delivered hub' socketId
     = delivered hub socketId
       ++ [InitialState (currentGestureState (hub_server hub))]
  /\ (forall id, id <> socketId -> delivered hub' id = delivered hub id)
  /\ mirror_ok hub' socketId
  /\ (socketId ∉ connectedClients hub ->
      size (connectedClients hub') = S (size (connectedClients hub))
      /\ connectedClients (onDisconnect socketId hub') = connectedClients hub)
  /\ (socketId ∈ connectedClients hub ->
      connectedClients hub' = connectedClients hub)
  /\ socketId ∉ connectedClients (onDisconnect socketId hub').
Proof.
  unfold onConnection, socket_emit, onDisconnect, mirror_ok.
  cbn [connectedClients hub_server delivered].
  assert (Hd : send_to {[socketId]}
                 (InitialState (currentGestureState (hub_server hub)))
                 (delivered hub) socketId
               = delivered hub socketId
                 ++ [InitialState (currentGestureState (hub_server hub))]).
  { apply send_to_in. by apply elem_of_singleton. }
  split; [by apply elem_of_union_l, elem_of_singleton |]. split; [done |].
  split; [exact Hd |]. split.
  { intros id Hne. apply send_to_notin. by rewrite elem_of_singleton. }
  split.
  { by rewrite Hd, clientState_snoc. }
  split.
  { intros Hnotin. split.
    - rewrite size_union by (by apply disjoint_singleton_l).
      by rewrite size_singleton.
    - by apply connect_disconnect. }
  split; [apply connect_again | apply notin_all_but].
Qed.

(** The two reports count the connected sockets. *)
Lemma reports_count_clients (now uptime : R) (hub : Hub) :
  rep_connectedClients (getCurrentState now hub) = size (connectedClients hub)
  /\ health_connectedClients (getHealth uptime hub)
     = size (connectedClients hub)
  /\ rep_currentState (getCurrentState now hub)
     = currentGestureState (hub_server hub).
Proof. done. Qed.

(** ** Gesture updates *)

Lemma hubPostSensorData_fst_snd (now : R) (f : SensorFrame) (hub : Hub) :
  hubPostSensorData now f hub
  = ((postSensorData now f (hub_server hub)).1,
     {| hub_server := (postSensorData now f (hub_server hub)).2;
        connectedClients := connectedClients hub;
        delivered :=
          fold_left (fun d data =>
                       send_to (connectedClients hub) (GestureUpdate data) d)
                    (drop (length (emitted (hub_server hub)))
                          (emitted (postSensorData now f (hub_server hub)).2))
                    (delivered hub) |}).
Proof.
  unfold hubPostSensorData.
  by destruct (postSensorData now f (hub_server hub)) as [r srv].
Qed.

(** X12: A processed frame is delivered as one [gesture-update] to every
    connected subscriber; a rejected or failed frame is delivered to nobody;
    a socket that is not connected is never sent anything.  A connected
    subscriber whose mirror agreed with the server before the request agrees
    with it afterwards: hook and server choose the hand slot by the same
    test. *)
Theorem frame_reaches_every_subscriber
    (now : R) (f : SensorFrame) (hub : Hub) :
  store_ok (previousFrameData (hub_server hub)) ->
  exists r hub',
    hubPostSensorData now f hub = (r, hub')
    /\ connectedClients hub' = connectedClients hub
    /\ (forall id, id ∉ connectedClients hub ->
          delivered hub' id = delivered hub id)
    /\ (completeFrame f ->
        exists pd,
          r = Normal (Status200 (summaryOf pd))
          /\ forall id, id ∈ connectedClients hub ->
               delivered hub' id = delivered hub id ++ [GestureUpdate pd])
    /\ (~ completeFrame f ->
        forall id, delivered hub' id = delivered hub id)
    /\ (forall id, id ∈ connectedClients hub ->
          mirror_ok hub id -> mirror_ok hub' id).
Proof.
  intros Hok. eexists _, _. split; [apply hubPostSensorData_fst_snd |].
  cbn [connectedClients delivered hub_server]. split; [done |].
  unfold mirror_ok. cbn [delivered hub_server].
  destruct (validFrame f) eqn:Hvalid.
  2:{ rewrite postSensorData_invalid by done. cbn [snd fst].
      rewrite drop_all. cbn [fold_left]. repeat split; try done.
      intros Hc. apply completeFrame_valid in Hc. congruence. }
  destruct (completeFrame_dec f Hvalid) as [Hc | Hm].
  - destruct (postSensorData_complete_frame now f _ Hok Hc)
      as (md & pd & _ & _ & Hid & _ & ->).
    cbn [snd fst emitted currentGestureState]. rewrite drop_app_length.
    cbn [fold_left].
    split; [intros id Hnotin; by apply send_to_notin |].
    split; [intros _; exists pd; split; [done |];
            intros id Hin; by apply send_to_in |].
    split; [done |].
    intros id Hin Hmirror. rewrite send_to_in by done.
    rewrite clientState_snoc, Hmirror. cbn [clientOnMessage].
    rewrite Hid. unfold updateHand.
    by destruct (includes (deviceId f) "left").
  - rewrite postSensorData_incomplete by done.
    cbn [snd fst emitted currentGestureState]. rewrite drop_all.
    cbn [fold_left].
    split; [done |].
    split; [intros Hc; by destruct (incomplete_not_complete f Hm) |].
    done.
Qed.

Lemma store_ok_twoClientHub :
  store_ok (previousFrameData (hub_server twoClientHub)).
Proof. apply store_ok_empty. Qed.

Lemma frame_reaches_every_subscriber_witness :
  store_ok (previousFrameData (hub_server twoClientHub))
  /\ exists r hub',
       hubPostSensorData 0 openPalmFrame twoClientHub = (r, hub')
       /\ connectedClients hub' = connectedClients twoClientHub.
Proof.
  split; [apply store_ok_twoClientHub |].
  destruct (frame_reaches_every_subscriber 0 openPalmFrame twoClientHub
              store_ok_twoClientHub) as (r & hub' & Heq & Hc & _).
  exists r, hub'. split; [exact Heq | exact Hc].
Defined.

(** ** Mirrors and control messages *)

(** X13: After a control message the mirror of every other connected subscriber
    still agrees with the server, while the sender, which receives no echo
    and whose hook only emits, keeps the state from before its own message.
    A calibration notice changes no mirror and no server state. *)
Theorem control_message_mirrors (socketId value : string) (hub : Hub) :
  (forall id, id ∈ connectedClients hub -> id <> socketId ->
     mirror_ok hub id ->
     mirror_ok (onSelectObject socketId value hub) id
     /\ mirror_ok (onTransformModeChange socketId value hub) id)
  /\ (mirror_ok hub socketId ->
      clientState (delivered (onSelectObject socketId value hub) socketId)
      = currentGestureState (hub_server hub)
      /\ clientState
           (delivered (onTransformModeChange socketId value hub) socketId)
         = currentGestureState (hub_server hub))
  /\ hub_server (postCalibrate value hub).2 = hub_server hub
  /\ (forall id, mirror_ok hub id -> mirror_ok (postCalibrate value hub).2 id).
Proof.
  unfold mirror_ok. cbn [onSelectObject onTransformModeChange postCalibrate
    socket_broadcast_emit setGestureState io_emit delivered hub_server
    connectedClients currentGestureState snd].
  split; [| split; [| split; [done |]]].
  - intros id Hin Hne Hmirror.
    rewrite !send_to_in by (by apply in_all_but).
    rewrite !clientState_snoc, Hmirror. done.
  - intros Hmirror. by rewrite !send_to_notin by apply notin_all_but.
  - intros id Hmirror. unfold send_to. case_decide; [| done].
    by rewrite clientState_snoc.
Qed.

(** With two subscribers on the initial server, a selection made by ["a"]
    reaches the server and ["b"], and not the mirror of ["a"] itself. *)
Lemma sender_mirror_is_stale :
  let hub := onSelectObject "a" "cube-1" twoClientHub in
  selectedObject (currentGestureState (hub_server hub)) = Some "cube-1"%string
  /\ selectedObject (clientState (delivered hub "b")) = Some "cube-1"%string
  /\ selectedObject (clientState (delivered hub "a")) = None.
Proof. cbn. repeat split. Qed.

(** ** The hook's view of an event *)

Lemma num_lt_negb (a b : R) : negb (num_lt a b) = true <-> b <= a.
Proof. rewrite negb_true_iff. apply num_lt_false. Qed.

(** X14: What [isGestureActive] of the hook, with its default threshold 0.7,
    makes of an event the server built from a complete frame: pointing and
    open palm are always active, neutral never, a pinch only while index and
    thumb bends differ by at most 0.15, a fist only when the four finger
    bends add up to at least 3.5.  The cursor ray starts at the origin and
    has unit length. *)
Theorem hook_view_of_event
    (g : GestureState) (now : R) (f : SensorFrame) (md : MovementData)
    (i : Imu) (ff : Fingers) (t : Thumb) (p : Palm) (sw : Switches) :
  rightHand g = Some (eventOf now f md i ff t p sw) ->
  (isGestureActive g pointing right_hand 0.7 = true <->
   gestureOf ff t = pointing)
  /\ (isGestureActive g open_palm right_hand 0.7 = true <->
      gestureOf ff t = open_palm)
  /\ isGestureActive g neutral right_hand 0.7 = false
  /\ (isGestureActive g pinch right_hand 0.7 = true <->
      gestureOf ff t = pinch /\ Rabs (index ff - bend t) <= 0.15)
  /\ (isGestureActive g fist right_hand 0.7 = true <->
      gestureOf ff t = fist
      /\ 3.5 <= index ff + middle ff + ring ff + little ff)
  /\ exists ray,
       getCursorRay g right_hand = Some ray
       /\ origin ray = arr3_zero
       /\ at0 (direction ray) * at0 (direction ray)
          + at1 (direction ray) * at1 (direction ray)
          + at2 (direction ray) * at2 (direction ray) = 1.
Proof.
  intros Hr. unfold isGestureActive, getCursorRay, handData. rewrite Hr.
  cbn [pd_gesture gestureConfidence cursorOrientation eventOf].
  destruct (confidenceOf_by_gesture ff t)
    as (Hpo & Hpi & Hop & Hfi & _ & Hne).
  rewrite !andb_true_iff, !bool_decide_eq_true, !num_lt_negb.
  split; [| split; [| split; [| split; [| split]]]].
  - split; [tauto |]. intros H. split; [done |]. rewrite (Hpo H). lra.
  - split; [tauto |]. intros H. split; [done |]. specialize (Hop H). lra.
  - apply not_true_false. rewrite andb_true_iff, bool_decide_eq_true,
      num_lt_negb. intros [H Hc]. rewrite (Hne H) in Hc. lra.
  - split.
    + intros [H Hc]. split; [done |]. rewrite H in Hc.
      unfold confidenceOf, rawConfidence in Hc. revert Hc.
      generalize (Rabs (index ff - bend t)). intros d. solve_R.
    + intros [H Hd]. split; [done |]. rewrite H.
      unfold confidenceOf, rawConfidence.
      pose proof (Rabs_pos (index ff - bend t)) as Hd0. revert Hd Hd0.
      generalize (Rabs (index ff - bend t)). intros d Hd Hd0. solve_R.
  - split.
    + intros [H Hc]. split; [done |]. rewrite H in Hc.
      unfold confidenceOf, rawConfidence in Hc.
      rewrite sum_values_fingers in Hc. revert Hc. solve_R.
    + intros [H Hs]. split; [done |]. rewrite H.
      unfold confidenceOf, rawConfidence. rewrite sum_values_fingers.
      solve_R.
  - eexists. split; [reflexivity |]. cbn. split; [done |].
    pose proof (sin2_cos2 (at1 (orientation i))) as H1.
    pose proof (sin2_cos2 (at2 (orientation i))) as H2.
    unfold Rsqr in *. nra.
Qed.

Lemma hook_view_of_event_witness :
  rightHand openPalmState = Some openPalmEvent
  /\ isGestureActive openPalmState neutral right_hand 0.7 = false
  /\ exists ray,
       getCursorRay openPalmState right_hand = Some ray
       /\ origin ray = arr3_zero.
Proof.
  split; [reflexivity |].
  destruct (hook_view_of_event openPalmState 0 openPalmFrame _ _ _ _ _ _
              eq_refl) as (_ & _ & Hn & _ & _ & ray & Hr & Ho & _).
  split; [exact Hn |]. exists ray. split; [exact Hr | exact Ho].
Defined.

(** * The glove simulator *)

Lemma addNoise_range (value noiseAmount rnd : R) :
  unit_draw rnd -> 0 < noiseAmount ->
  value - noiseAmount <= addNoise value noiseAmount rnd < value + noiseAmount.
Proof.
  unfold unit_draw, addNoise. intros [H0 H1] Hn.
  assert (0 <= rnd * noiseAmount) by nra.
  assert (0 < (1 - rnd) * noiseAmount) by nra.
  nra.
Qed.

Lemma clamp01_range (x : R) : 0 <= clamp01 x <= 1.
Proof. unfold clamp01. solve_R. Qed.

Lemma clamp01_id (x : R) : 0 <= x <= 1 -> clamp01 x = x.
Proof. unfold clamp01. intros H. solve_R. Qed.

Lemma noisy_bend_range (value rnd : R) :
  unit_draw rnd -> 0.1 <= value <= 0.9 ->
  value - 0.1 <= clamp01 (addNoise value 0.1 rnd) < value + 0.1.
Proof.
  intros Hr Hv. pose proof (addNoise_range value 0.1 rnd Hr ltac:(lra)).
  rewrite clamp01_id; lra.
Qed.

Lemma completeFrame_generated (tOrient tGesture tStamp : R) (d : Draws)
    (sim : GloveSimulator) :
  completeFrame (generateSensorData tOrient tGesture tStamp d sim).1.
Proof. unfold completeFrame. cbn. repeat split; (done || by eexists). Qed.

(** X15: Whatever the random draws and the clock, a frame of the simulator has
    every bend and the palm pressure within [0, 1], carries no position and
    no gyroscope, and is processed by the server to an event (never
    rejected, never failing), its position being taken as the origin. *)
Theorem simulator_frames_are_processed
    (tOrient tGesture tStamp now : R) (d : Draws) (sim : GloveSimulator)
    (srv : Server) :
  store_ok (previousFrameData srv) ->
  let f := (generateSensorData tOrient tGesture tStamp d sim).1 in
  (exists ff t p,
     fingers f = Some ff /\ thumb f = Some t /\ palm f = Some p
     /\ 0 <= index ff <= 1 /\ 0 <= middle ff <= 1 /\ 0 <= ring ff <= 1
     /\ 0 <= little ff <= 1 /\ 0 <= bend t <= 1 /\ 0 <= pressure p <= 1)
  /\ position f = None
  /\ deviceId f = "rightHand1"%string
  /\ exists pd srv',
       postSensorData now f srv = (Normal (Status200 (summaryOf pd)), srv')
       /\ emitted srv' = emitted srv ++ [pd]
       /\ md_position (movementData pd) = vec3_zero
       /\ rightHand (currentGestureState srv') = Some pd.
Proof.
  intros Hok f. split.
  { eexists _, _, _. split; [reflexivity |]. split; [reflexivity |].
    split; [reflexivity |]. cbn. repeat split; apply clamp01_range. }
  split; [done |]. split; [done |].
  pose proof (completeFrame_generated tOrient tGesture tStamp d sim) as Hc.
  fold f in Hc.
  destruct (postSensorData_complete_frame now f srv Hok Hc)
    as (md & pd & Hmd & Hpd & _ & _ & Heq).
  exists pd. eexists. split; [exact Heq |]. cbn. split; [done |]. split; [| done].
  rewrite Hpd.
  destruct (previousFrameData srv !! deviceId f) as [prev |] eqn:Hprev.
  - destruct (Hok _ _ Hprev) as [pimu Hpimu].
    rewrite (calculateMovementData_paired f prev _ pimu eq_refl Hpimu) in Hmd.
    by injection Hmd as <-.
  - rewrite (calculateMovementData_first f _ eq_refl) in Hmd.
    by injection Hmd as <-.
Qed.

Lemma simulator_frames_are_processed_witness :
  store_ok (previousFrameData initialServer)
  /\ exists pd srv',
       postSensorData 5 (generateSensorData 1 2 3 middleDraws (showing fist)).1
                      initialServer
       = (Normal (Status200 (summaryOf pd)), srv')
       /\ emitted srv' = emitted initialServer ++ [pd].
Proof.
  split; [apply store_ok_empty |].
  destruct (simulator_frames_are_processed 1 2 3 5 middleDraws (showing fist)
              initialServer store_ok_empty)
    as (_ & _ & _ & pd & srv' & Heq & Hem & _).
  exists pd, srv'. split; [exact Heq | exact Hem].
Defined.

Lemma gestureOf_pinch_by_bounds (f : Fingers) (t : Thumb) (lo : R) :
  lo <= index f < lo + 0.2 -> lo <= bend t < lo + 0.2 -> lo <= 0.4 ->
  gestureOf f t = pinch.
Proof.
  intros Hi Ht Hlo. apply gestureOf_cases, pinchTest_true.
  split; [lra |]. split; [lra |]. apply Rabs_def1; lra.
Qed.

(** X16: How the server classifies what the simulator shows, for random draws in
    [0, 1): its fist and pinch patterns are recognised as such, its open-palm
    and neutral patterns are both classified as pinch (index and thumb are
    close and below the pinch threshold), and its pointing pattern as
    pointing for every draw of the middle finger above 0.  (At the draw 0
    the middle bend is 0.8 - 0.1, which the real numbers put on the
    threshold 0.7 and the doubles of the code just above it; nothing is
    stated there.) *)
Theorem simulator_patterns_as_classified
    (tOrient tGesture tStamp : R) (d : Draws) (sim : GloveSimulator) :
  unit_draws d ->
  let out := generateSensorData tOrient tGesture tStamp d sim in
  exists r,
    classifyGesture (fingers out.1) (thumb out.1) (palm out.1) = Normal r
    /\ (currentGesture out.2 = fist -> gesture r = fist)
    /\ (currentGesture out.2 = pinch -> gesture r = pinch)
    /\ (currentGesture out.2 = open_palm -> gesture r = pinch)
    /\ (currentGesture out.2 = neutral -> gesture r = pinch)
    /\ (currentGesture out.2 = pointing -> 0 < rnd_middle d ->
        gesture r = pointing).
Proof.
  intros (_ & _ & _ & Hi & Hm & Hr & Hl & _ & _ & _ & Ht & _).
  cbn [generateSensorData fst snd fingers thumb palm].
  set (sim' := updateGesture tGesture (updateHandOrientation tOrient d sim)).
  rewrite classifyGesture_present. eexists. split; [reflexivity |].
  cbn [gesture].
  repeat split; intros Hg; rewrite Hg; cbn [GESTURE_PATTERNS pat_fingers
    pat_thumb index middle ring little bend].
  - (* fist *)
    pose proof (noisy_bend_range 0.9 _ Hi ltac:(lra)).
    pose proof (noisy_bend_range 0.9 _ Hm ltac:(lra)).
    pose proof (noisy_bend_range 0.9 _ Hr ltac:(lra)).
    pose proof (noisy_bend_range 0.9 _ Hl ltac:(lra)).
    apply gestureOf_cases. split.
    + apply not_true_false. rewrite pinchTest_true. cbn. lra.
    + rewrite closedCount_all. cbn. lra.
  - (* pinch *)
    pose proof (noisy_bend_range 0.3 _ Hi ltac:(lra)).
    pose proof (noisy_bend_range 0.3 _ Ht ltac:(lra)).
    apply (gestureOf_pinch_by_bounds _ _ 0.2); cbn; lra.
  - (* open_palm *)
    pose proof (noisy_bend_range 0.1 _ Hi ltac:(lra)).
    pose proof (noisy_bend_range 0.1 _ Ht ltac:(lra)).
    apply (gestureOf_pinch_by_bounds _ _ 0); cbn; lra.
  - (* neutral *)
    pose proof (noisy_bend_range 0.4 _ Hi ltac:(lra)).
    pose proof (noisy_bend_range 0.4 _ Ht ltac:(lra)).
    apply (gestureOf_pinch_by_bounds _ _ 0.3); cbn; lra.
  - (* pointing, the middle finger above the threshold *)
    intros Hpos.
    pose proof (noisy_bend_range 0.1 _ Hi ltac:(lra)).
    pose proof (noisy_bend_range 0.9 _ Hr ltac:(lra)).
    pose proof (noisy_bend_range 0.7 _ Ht ltac:(lra)).
    assert (Hmid : 0.7 < clamp01 (addNoise 0.8 0.1 (rnd_middle d))).
    { rewrite clamp01_id; unfold addNoise; unfold unit_draw in Hm; lra. }
    apply gestureOf_cases.
    split; [apply not_true_false; rewrite pinchTest_true; cbn; lra |].
    split; [apply not_true_false; rewrite closedCount_all; cbn; lra |].
    split; [apply not_true_false; rewrite openCount_all; cbn; lra |].
    rewrite pointingTest_true. cbn. lra.
Qed.

Lemma unit_draws_middle : unit_draws middleDraws.
Proof. unfold unit_draws, unit_draw. cbn. repeat split; lra. Qed.

Lemma showing_stays (g : Gesture) (tOrient tGesture tStamp : R) (d : Draws) :
  tGesture <= 3000 ->
  currentGesture (generateSensorData tOrient tGesture tStamp d (showing g)).2
  = g.
Proof.
  intros Ht. cbn [generateSensorData snd]. unfold updateGesture.
  cbn [updateHandOrientation gestureStartTime gestureDuration showing].
  by rewrite (proj2 (num_gt_false _ _)) by lra.
Qed.

Lemma simulator_patterns_as_classified_witness :
  unit_draws middleDraws
  /\ exists r,
       classifyGesture
         (fingers (generateSensorData 1 2 3 middleDraws (showing open_palm)).1)
         (thumb (generateSensorData 1 2 3 middleDraws (showing open_palm)).1)
         (palm (generateSensorData 1 2 3 middleDraws (showing open_palm)).1)
       = Normal r
       /\ gesture r = pinch.
Proof.
  split; [apply unit_draws_middle |].
  destruct (simulator_patterns_as_classified 1 2 3 middleDraws
              (showing open_palm) unit_draws_middle)
    as (r & Hr & _ & _ & Ho & _).
  exists r. split; [exact Hr |].
  apply Ho, showing_stays. lra.
Defined.

(** * The scene store *)

Lemma removelast_last_Some {A : Type} (l : list A) (x : A) :
  last l = Some x -> removelast l ++ [x] = l.
Proof.
  induction l as [| a [| b l] IH]; [done | by intros [= ->] |].
  intros H. cbn [removelast]. rewrite <- app_comm_cons. f_equal.
  by apply IH.
Qed.

Lemma last_None_nil {A : Type} (l : list A) : last l = None <-> l = [].
Proof. apply last_None. Qed.

Lemma isEdit_pushHistory (a : StoreAction) (st : SceneStore) :
  isEdit a = true ->
  applyAction st a = pushHistory (objects (applyAction st a)) st.
Proof. by destruct a. Qed.

(** ** Undo and redo *)

(** X17: Undoing an edit (an added object, a moved object, a changed parent)
    restores the scene and the history from before it and keeps the edited
    scene as the one redo step; redoing then gives exactly the state after
    the edit.  Directly after an edit there is nothing to redo. *)
Theorem undo_reverts_edit (a : StoreAction) (st : SceneStore) :
  isEdit a = true ->
  store_synced st ->
  undo (applyAction st a)
  = {| objects := objects st;
       selectedId := selectedId st;
       historyStore :=
         {| past := past (historyStore st);
            present := present (historyStore st);
            future := [objects (applyAction st a)] |} |}
  /\ redo (undo (applyAction st a)) = applyAction st a
  /\ redo (applyAction st a) = applyAction st a.
Proof.
  intros He Hs. rewrite (isEdit_pushHistory a st He).
  generalize (objects (applyAction st a)). intros newObjects.
  unfold store_synced in Hs. unfold undo, redo, pushHistory.
  cbn [historyStore past present future objects selectedId].
  rewrite last_snoc, removelast_last. cbn [historyStore past present future
    objects selectedId]. by rewrite Hs.
Qed.

Lemma undo_reverts_edit_witness :
  isEdit (UpdateObjectPosition "a1" (mkArr3 2 2 2)) = true
  /\ store_synced twoObjectStore
  /\ objects (undo (applyAction twoObjectStore
                      (UpdateObjectPosition "a1" (mkArr3 2 2 2))))
     = objects twoObjectStore.
Proof.
  split; [reflexivity |]. split; [reflexivity |].
  destruct (undo_reverts_edit (UpdateObjectPosition "a1" (mkArr3 2 2 2))
              twoObjectStore eq_refl eq_refl) as [H _].
  by rewrite H.
Defined.

(** X18: Undo and redo are inverse to each other wherever they act: a redo after
    an undo, and an undo after a redo, give back the state; at the ends of
    the history they do nothing.  Neither changes the sequence of snapshots
    the history holds, nor the selection. *)
Theorem undo_redo_round_trip (st : SceneStore) :
  store_synced st ->
  (past (historyStore st) <> [] -> redo (undo st) = st)
  /\ (future (historyStore st) <> [] -> undo (redo st) = st)
  /\ (past (historyStore st) = [] -> undo st = st)
  /\ (future (historyStore st) = [] -> redo st = st)
  /\ timeline (undo st) = timeline st
  /\ timeline (redo st) = timeline st
  /\ selectedId (undo st) = selectedId st
  /\ selectedId (redo st) = selectedId st.
Proof.
  destruct st as [objs sel [p pr f]]. unfold store_synced, timeline. cbn.
  intros ->. unfold undo, redo. cbn.
  destruct (last p) as [previous |] eqn:Hlast.
  - pose proof (removelast_last_Some p previous Hlast) as Hp.
    assert (Hne : p <> []) by (intros ->; done).
    split; [intros _; cbn; by rewrite Hp |].
    split.
    { destruct f as [| next rest]; [done |]. intros _. cbn.
      by rewrite last_snoc, removelast_last. }
    split; [by intros Hp' |].
    split; [by intros -> |].
    split; [cbn; by rewrite <- Hp at 2; rewrite <- app_assoc |].
    split; [| split; [done | by destruct f]].
    destruct f as [| next rest]; [done |]. cbn. by rewrite <- app_assoc.
  - apply last_None in Hlast as ->. cbn.
    split; [done |].
    split.
    { destruct f as [| next rest]; [done |]. intros _. by cbn. }
    split; [done |]. split; [by intros -> |]. split; [done |].
    split; [by destruct f |]. split; [done | by destruct f].
Qed.

Lemma undo_redo_round_trip_witness :
  store_synced twoObjectStore
  /\ past (historyStore twoObjectStore) <> []
  /\ redo (undo twoObjectStore) = twoObjectStore.
Proof.
  split; [reflexivity |]. split; [done |].
  destruct (undo_redo_round_trip twoObjectStore eq_refl) as [H _].
  apply H. done.
Defined.

(** ** Invariants of the store *)

Lemma timeline_undo (st : SceneStore) : timeline (undo st) = timeline st.
Proof.
  unfold timeline, undo. cbv zeta.
  destruct (last (past (historyStore st))) as [previous |] eqn:Hlast;
    [| done].
  cbn. rewrite <- (removelast_last_Some _ _ Hlast) at 2.
  by rewrite <- app_assoc.
Qed.

Lemma timeline_redo (st : SceneStore) : timeline (redo st) = timeline st.
Proof.
  unfold timeline, redo. cbv zeta.
  destruct (future (historyStore st)) as [| next rest] eqn:Hf;
    [by rewrite Hf |].
  cbn. by rewrite <- app_assoc.
Qed.

Lemma timeline_pushHistory (newObjects : list SceneObject) (st : SceneStore) :
  timeline (pushHistory newObjects st)
  = past (historyStore st) ++ [present (historyStore st)] ++ [newObjects].
Proof. unfold timeline, pushHistory. cbn. by rewrite <- app_assoc. Qed.

Lemma store_synced_applyAction (a : StoreAction) (st : SceneStore) :
  store_synced st -> store_synced (applyAction st a).
Proof.
  unfold store_synced. intros Hs. destruct a; cbn; try done.
  - unfold undo. by destruct (last _).
  - unfold redo. by destruct (future _).
Qed.

Lemma present_in_timeline (st : SceneStore) :
  present (historyStore st) ∈ timeline st.
Proof.
  unfold timeline. apply elem_of_app. right. apply elem_of_cons. by left.
Qed.

Lemma distinct_ids_edit (a : StoreAction) (st : SceneStore) :
  isEdit a = true ->
  match a with
  | AddObject id _ _ _ _ => Forall (fun o => obj_id o <> id) (objects st)
  | _ => True
  end ->
  distinct_ids (objects st) ->
  distinct_ids (objects (applyAction st a)).
Proof.
  unfold distinct_ids. intros He Hfresh Hd. destruct a; try done; cbn.
  - rewrite map_app. cbn. apply NoDup_app. split; [done |].
    split; [| apply NoDup_singleton].
    intros x Hx Hx'. apply list_elem_of_singleton in Hx' as ->.
    apply list_elem_of_fmap in Hx as (o & Ho & Hin).
    rewrite Forall_forall in Hfresh. by apply (Hfresh o).
  - rewrite map_map. erewrite map_ext; [exact Hd |].
    intros o. cbn. by destruct (decide _).
  - rewrite map_map. erewrite map_ext; [exact Hd |].
    intros o. cbn. by destruct (decide _).
Qed.

Lemma invariants_step (a : StoreAction) (st : SceneStore) :
  store_synced st ->
  Forall distinct_ids (timeline st) ->
  match a with
  | AddObject id _ _ _ _ => Forall (fun o => obj_id o <> id) (objects st)
  | _ => True
  end ->
  Forall distinct_ids (timeline (applyAction st a)).
Proof.
  intros Hs Hd Hfresh.
  destruct (isEdit a) eqn:He.
  - rewrite (isEdit_pushHistory a st He), timeline_pushHistory.
    assert (Hnew : distinct_ids (objects (applyAction st a))).
    { apply distinct_ids_edit; [done | done |].
      rewrite Hs. rewrite Forall_forall in Hd. apply Hd.
      apply present_in_timeline. }
    unfold timeline in Hd. rewrite !Forall_app in Hd.
    destruct Hd as (Hp & Hpr & _).
    rewrite !Forall_app. repeat split; try done. by apply Forall_singleton.
  - destruct a; try done; cbn.
    + by rewrite timeline_undo.
    + by rewrite timeline_redo.
Qed.

(** X19: Whatever sequence of operations runs on the store, [objects] and the
    history's [present] hold the same scene, and, as long as every added
    object gets an id that no object of the current scene has, the objects
    of every snapshot in the history have distinct ids. *)
Theorem scene_store_invariants (acts : list StoreAction) (st : SceneStore) :
  store_synced st ->
  Forall distinct_ids (timeline st) ->
  fresh_ids acts st ->
  store_synced (runActions acts st)
  /\ Forall distinct_ids (timeline (runActions acts st))
  /\ distinct_ids (objects (runActions acts st)).
Proof.
  revert st. induction acts as [| a acts IH]; intros st Hs Hd Hfresh.
  - split; [done |]. split; [done |]. cbn.
    unfold store_synced in Hs. rewrite Hs.
    rewrite Forall_forall in Hd. apply Hd, present_in_timeline.
  - destruct Hfresh as [Ha Hrest]. cbn. apply IH.
    + by apply store_synced_applyAction.
    + by apply invariants_step.
    + done.
Qed.

Lemma scene_store_invariants_witness :
  store_synced initialSceneStore
  /\ Forall distinct_ids (timeline initialSceneStore)
  /\ fresh_ids [AddObject "a1" 0.5 0.5 cube None;
                AddObject "b2" 0.25 0.75 sphere (Some "a1"%string)]
               initialSceneStore
  /\ store_synced twoObjectStore
  /\ distinct_ids (objects twoObjectStore).
Proof.
  assert (Hd : Forall distinct_ids (timeline initialSceneStore)).
  { apply Forall_singleton. apply NoDup_nil_2. }
  assert (Hf : fresh_ids [AddObject "a1" 0.5 0.5 cube None;
                          AddObject "b2" 0.25 0.75 sphere (Some "a1"%string)]
                         initialSceneStore).
  { cbn. repeat split; repeat constructor. done. }
  split; [reflexivity |]. split; [exact Hd |]. split; [exact Hf |].
  destruct (scene_store_invariants _ initialSceneStore eq_refl Hd Hf)
    as (Hs & _ & H).
  split; [exact Hs | exact H].
Defined.

(** ** Edits *)

Lemma map_id_if {A : Type} (P : A -> Prop) `{forall x, Decision (P x)}
    (g : A -> A) (l : list A) :
  Forall (fun x => ~ P x) l ->
  map (fun x => if decide (P x) then g x else x) l = l.
Proof.
  induction 1 as [| x l Hx Hl IH]; [done |]. cbn.
  rewrite decide_False by done. by rewrite IH.
Qed.

(** X20: Moving an object or changing its parent keeps the number, order, ids and
    types of the objects and changes only the objects with the given id,
    and of those only the field concerned; the parent is not checked (it may
    be the object itself or the id of no object).  When no object has the
    id, the scene is unchanged and the edit is recorded in the history all
    the same, discarding the redo steps. *)
Theorem edits_touch_only_their_target
    (id : string) (position : Arr3) (parent : option string)
    (st : SceneStore) :
  let moved := updateObjectPosition id position st in
  let adopted := setParent id parent st in
  map obj_id (objects moved) = map obj_id (objects st)
  /\ map obj_type (objects moved) = map obj_type (objects st)
  /\ map parentId (objects moved) = map parentId (objects st)
  /\ map obj_id (objects adopted) = map obj_id (objects st)
  /\ map obj_type (objects adopted) = map obj_type (objects st)
  /\ map obj_position (objects adopted) = map obj_position (objects st)
  /\ (forall k o, objects st !! k = Some o ->
        exists o1 o2,
          objects moved !! k = Some o1 /\ objects adopted !! k = Some o2
          /\ (obj_id o = id ->
              obj_position o1 = position /\ parentId o2 = parent)
          /\ (obj_id o <> id -> o1 = o /\ o2 = o))
  /\ (Forall (fun o => obj_id o <> id) (objects st) ->
      objects moved = objects st /\ objects adopted = objects st)
  /\ past (historyStore moved)
     = past (historyStore st) ++ [present (historyStore st)]
  /\ past (historyStore adopted)
     = past (historyStore st) ++ [present (historyStore st)]
  /\ future (historyStore moved) = []
  /\ future (historyStore adopted) = []
  /\ selectedId moved = selectedId st
  /\ selectedId adopted = selectedId st.
Proof.
  cbn. rewrite !map_map.
  split; [apply map_ext; intros o; by destruct (decide _) |].
  split; [apply map_ext; intros o; by destruct (decide _) |].
  split; [apply map_ext; intros o; by destruct (decide _) |].
  split; [apply map_ext; intros o; by destruct (decide _) |].
  split; [apply map_ext; intros o; by destruct (decide _) |].
  split; [apply map_ext; intros o; by destruct (decide _) |].
  split.
  { intros k o Hk. eexists _, _.
    change (map ?f ?l) with (f <$> l). rewrite !list_lookup_fmap, Hk.
    split; [reflexivity |]. split; [reflexivity |].
    destruct (decide (obj_id o = id)); split; done. }
  split; [| done].
  intros Hnone. split.
  - by apply (map_id_if (fun o => obj_id o = id)).
  - by apply (map_id_if (fun o => obj_id o = id)).
Qed.

(** X21: A new object is put last, with the given id, type and parent, at height
    1 and at horizontal coordinates within [-1, 1); it is not selected by
    being added, and the edit is one undo step. *)
Theorem addObject_appends
    (id : string) (rx rz : R) (type : PrimitiveType) (parent : option string)
    (st : SceneStore) :
  unit_draw rx -> unit_draw rz ->
  exists o,
    objects (addObject id rx rz type parent st) = objects st ++ [o]
    /\ obj_id o = id /\ obj_type o = type /\ parentId o = parent
    /\ -1 <= at0 (obj_position o) < 1
    /\ at1 (obj_position o) = 1
    /\ -1 <= at2 (obj_position o) < 1
    /\ selectedId (addObject id rx rz type parent st) = selectedId st
    /\ (store_synced st ->
        objects (undo (addObject id rx rz type parent st)) = objects st).
Proof.
  unfold unit_draw. intros Hx Hz. eexists. split; [reflexivity |]. cbn.
  repeat split; try lra.
  intros Hs. unfold undo. cbn. by rewrite last_snoc.
Qed.

Lemma addObject_appends_witness :
  unit_draw 0.25 /\ unit_draw 0.75
  /\ exists o,
       objects (addObject "c3" 0.25 0.75 plane None twoObjectStore)
       = objects twoObjectStore ++ [o]
       /\ obj_id o = "c3"%string.
Proof.
  assert (H1 : unit_draw 0.25) by (unfold unit_draw; lra).
  assert (H2 : unit_draw 0.75) by (unfold unit_draw; lra).
  split; [exact H1 |]. split; [exact H2 |].
  destruct (addObject_appends "c3" 0.25 0.75 plane None twoObjectStore H1 H2)
    as (o & Ho & Hid & _).
  exists o. split; [exact Ho | exact Hid].
Defined.

(** ** The selection *)

Lemma find_none_fresh (id : string) (objs : list SceneObject) :
  Forall (fun o => obj_id o <> id) objs -> findObject id objs = None.
Proof.
  unfold findObject. induction 1 as [| o objs Ho _ IH]; [done |]. cbn.
  by rewrite bool_decide_eq_false_2.
Qed.

(** X22: The selection is no part of the history: only [selectObject] changes
    [selectedId].  So undoing the addition of an object that was selected in
    between leaves an id selected that no object of the scene has, and the
    inspector finds nothing for it. *)
Theorem selection_outlives_its_object
    (id : string) (rx rz : R) (type : PrimitiveType) (parent : option string)
    (st : SceneStore) :
  store_synced st ->
  Forall (fun o => obj_id o <> id) (objects st) ->
  let st' :=
    undo (selectObject (Some id) (addObject id rx rz type parent st)) in
  selectedId st' = Some id
  /\ objects st' = objects st
  /\ findObject id (objects st') = None
  /\ (forall a st0,
        match a with SelectObject _ => False | _ => True end ->
        selectedId (applyAction st0 a) = selectedId st0).
Proof.
  intros Hs Hfresh. unfold undo. cbn. rewrite last_snoc. cbn.
  unfold store_synced in Hs. rewrite <- Hs.
  split; [done |]. split; [done |]. split; [by apply find_none_fresh |].
  intros a st0 Ha. destruct a; try done; cbn.
  - unfold undo. by destruct (last _).
  - unfold redo. by destruct (future _).
Qed.

Lemma selection_outlives_its_object_witness :
  store_synced twoObjectStore
  /\ Forall (fun o => obj_id o <> "c3"%string) (objects twoObjectStore)
  /\ selectedId (undo (selectObject (Some "c3"%string)
                        (addObject "c3" 0.25 0.75 plane None twoObjectStore)))
     = Some "c3"%string
  /\ findObject "c3"
       (objects (undo (selectObject (Some "c3"%string)
                         (addObject "c3" 0.25 0.75 plane None twoObjectStore))))
     = None.
Proof.
  assert (Hf : Forall (fun o => obj_id o <> "c3"%string)
                      (objects twoObjectStore)).
  { cbn. repeat constructor; done. }
  split; [reflexivity |]. split; [exact Hf |].
  destruct (selection_outlives_its_object "c3" 0.25 0.75 plane None
              twoObjectStore eq_refl Hf) as (H1 & _ & H3 & _).
  split; [exact H1 | exact H3].
Defined.

(** * The gesture effect of the editor canvas *)

Lemma gestureEffect_below_thresholds
    (isGestureMode : bool) (rh : ProcessedData)
    (meshRefs : gmap string Mesh) (st : SceneStore) :
  positionMagnitude (movementData rh) <= 0.01 ->
  movementMagnitude (movementData rh) <= 0.01 ->
  Rabs (scaleFactor (movementData rh) - 1) <= 0.05 ->
  gestureEffect isGestureMode (Some rh) meshRefs st = (meshRefs, st).
Proof.
  intros Hp Hm Hs. unfold gestureEffect.
  destruct isGestureMode; [| done]. cbn.
  destruct (truthy_id (selectedId st)) as [sel |]; [| done].
  destruct (meshRefs !! sel) as [mesh |]; [| done].
  destruct (num_lt (gestureConfidence rh) 0.6); [done |].
  destruct (pd_gesture rh); try done.
  - by rewrite (proj2 (num_gt_false _ _)) by (revert Hs; solve_R).
  - by rewrite (proj2 (num_gt_false _ _)) by done.
  - by rewrite (proj2 (num_gt_false _ _)) by done.
Qed.

(** X23: The effect changes neither a mesh nor the store when gesture mode is
    off, when there is no event of the right hand, when nothing is selected
    or the selected object has no mesh, when the confidence of the event is
    below 0.6, when its gesture is neutral or pointing, and when its
    movement stays at or below the three thresholds. *)
Theorem gesture_effect_gate
    (isGestureMode : bool) (rightHand : option ProcessedData)
    (meshRefs : gmap string Mesh) (st : SceneStore) :
  isGestureMode = false
  \/ rightHand = None
  \/ truthy_id (selectedId st) = None
  \/ (exists sel, truthy_id (selectedId st) = Some sel
                  /\ meshRefs !! sel = None)
  \/ (exists rh, rightHand = Some rh
        /\ (gestureConfidence rh < 0.6
            \/ pd_gesture rh = neutral
            \/ pd_gesture rh = pointing
            \/ (positionMagnitude (movementData rh) <= 0.01
                /\ movementMagnitude (movementData rh) <= 0.01
                /\ Rabs (scaleFactor (movementData rh) - 1) <= 0.05))) ->
  gestureEffect isGestureMode rightHand meshRefs st = (meshRefs, st).
Proof.
  unfold gestureEffect.
  intros [-> | [-> | [Hsel | [(sel & Hsel & Hmesh)
                              | (rh & -> & Hrh)]]]]; [done | | | |].
  - by destruct isGestureMode.
  - destruct isGestureMode; [| done]. cbn. rewrite Hsel.
    by destruct rightHand.
  - destruct isGestureMode; [| done]. cbn. rewrite Hsel, Hmesh.
    by destruct rightHand.
  - destruct Hrh as [Hlow | [Hg | [Hg | (Hp & Hm & Hs)]]];
      [| | | by apply gestureEffect_below_thresholds].
    all: destruct isGestureMode; [| done]; cbn.
    all: destruct (truthy_id (selectedId st)) as [sel |]; [| done].
    all: destruct (meshRefs !! sel) as [mesh |]; [| done].
    + by rewrite (proj2 (num_lt_true _ _)) by done.
    + rewrite Hg. by destruct (num_lt _ _).
    + rewrite Hg. by destruct (num_lt _ _).
Qed.

Lemma gesture_effect_gate_witness :
  gestureEffect true None selectedMeshes selectedStore
  = (selectedMeshes, selectedStore).
Proof.
  apply (gesture_effect_gate true None selectedMeshes selectedStore).
  right. left. reflexivity.
Defined.

(** X24: The event the server builds from the first frame of a device, or from a
    frame submitted twice, moves, rotates and scales nothing in the editor,
    whatever its gesture and confidence. *)
Theorem still_events_change_nothing
    (now1 now2 : R) (f : SensorFrame) (srv : Server)
    (isGestureMode : bool) (meshRefs : gmap string Mesh) (st : SceneStore) :
  store_ok (previousFrameData srv) ->
  completeFrame f ->
  exists pd1 srv1 pd2 srv2,
    postSensorData now1 f srv = (Normal (Status200 (summaryOf pd1)), srv1)
    /\ postSensorData now2 f srv1 = (Normal (Status200 (summaryOf pd2)), srv2)
    /\ (previousFrameData srv !! deviceId f = None ->
        gestureEffect isGestureMode (Some pd1) meshRefs st = (meshRefs, st))
    /\ gestureEffect isGestureMode (Some pd2) meshRefs st = (meshRefs, st).
Proof.
  intros Hok Hc.
  destruct (postSensorData_complete_frame now1 f srv Hok Hc)
    as (md1 & pd1 & Hmd1 & Hpd1 & _ & _ & Heq1).
  pose proof (postSensorData_store_ok now1 f srv Hok) as Hok1.
  rewrite Heq1 in Hok1. cbn [snd] in Hok1.
  destruct (postSensorData_complete_frame now2 f _ Hok1 Hc)
    as (md2 & pd2 & Hmd2 & Hpd2 & _ & _ & Heq2).
  cbn [previousFrameData] in Hmd2. rewrite lookup_insert_eq in Hmd2.
  exists pd1. eexists. exists pd2. eexists.
  split; [exact Heq1 |]. split; [exact Heq2 |].
  destruct Hc as (_ & [i Hi] & _).
  split.
  - intros Hnone. rewrite Hnone in Hmd1.
    rewrite (calculateMovementData_first f i Hi) in Hmd1.
    apply gestureEffect_below_thresholds; rewrite Hpd1;
      injection Hmd1 as <-; cbn; try lra; solve_R.
  - rewrite (calculateMovementData_paired f f i i Hi Hi) in Hmd2.
    assert (Hp : norm_vec (rawPositionDelta f f) = 0).
    { apply norm3_eq_0. cbn. lra. }
    assert (Ho : norm_arr (rawOrientationDelta i i) = 0).
    { apply norm3_eq_0. cbn. lra. }
    apply gestureEffect_below_thresholds; rewrite Hpd2;
      injection Hmd2 as <-; cbn; rewrite ?Hp, ?Ho, ?scaleFactorOf_same;
      try lra; solve_R.
Qed.

Lemma completeFrame_fistFrame : completeFrame fistFrame.
Proof. unfold completeFrame. cbn. repeat split; (done || by eexists). Qed.

Lemma still_events_change_nothing_witness :
  store_ok (previousFrameData initialServer)
  /\ completeFrame fistFrame
  /\ exists pd1 srv1,
       postSensorData 0 fistFrame initialServer
       = (Normal (Status200 (summaryOf pd1)), srv1)
       /\ gestureEffect true (Some pd1) selectedMeshes selectedStore
          = (selectedMeshes, selectedStore).
Proof.
  split; [apply store_ok_empty |]. split; [apply completeFrame_fistFrame |].
  destruct (still_events_change_nothing 0 1 fistFrame initialServer true
              selectedMeshes selectedStore store_ok_empty
              completeFrame_fistFrame)
    as (pd1 & srv1 & _ & _ & Heq & _ & Hfirst & _).
  exists pd1, srv1. split; [exact Heq |].
  apply Hfirst. apply lookup_empty.
Defined.

(** X25: The effect never adds or removes a mesh, touches no mesh but the
    selected one, and keeps every mesh scaled equally along its axes by a
    factor within [0.1, 5] if the meshes were so before.  Rotating and
    scaling change meshes only: the store, and with it the undo history, is
    changed by a translation alone. *)
Theorem effect_keeps_meshes_in_bounds
    (isGestureMode : bool) (rightHand : option ProcessedData)
    (meshRefs : gmap string Mesh) (st : SceneStore) :
  let out := gestureEffect isGestureMode rightHand meshRefs st in
  dom out.1 = dom meshRefs
  /\ (forall id, Some id <> selectedId st -> out.1 !! id = meshRefs !! id)
  /\ ((forall id m, meshRefs !! id = Some m -> scale_ok m) ->
      forall id m, out.1 !! id = Some m -> scale_ok m)
  /\ (forall rh, rightHand = Some rh -> pd_gesture rh <> open_palm ->
        out.2 = st)
  /\ selectedId out.2 = selectedId st.
Proof.
  cbn zeta. unfold gestureEffect.
  destruct isGestureMode; cbn [negb]; [| done].
  destruct rightHand as [rh |]; [| done].
  destruct (truthy_id (selectedId st)) as [sel |] eqn:Hsel; [| done].
  assert (Hsel' : selectedId st = Some sel).
  { unfold truthy_id in Hsel. destruct (selectedId st) as [s |]; [| done].
    destruct (truthy s); [by injection Hsel as <- | done]. }
  destruct (meshRefs !! sel) as [mesh |] eqn:Hmesh; [| done].
  destruct (num_lt (gestureConfidence rh) 0.6); [done |].
  assert (Hins : forall m',
    (forall s, mesh_scale mesh = setScalar s -> 0.1 <= s <= 5 ->
               scale_ok m') ->
    dom (<[sel := m']> meshRefs) = dom meshRefs
    /\ (forall id, Some id <> selectedId st ->
          <[sel := m']> meshRefs !! id = meshRefs !! id)
    /\ ((forall id m, meshRefs !! id = Some m -> scale_ok m) ->
        forall id m, <[sel := m']> meshRefs !! id = Some m -> scale_ok m)).
  { intros m' Hm'. split; [| split].
    - apply set_eq. intros id. rewrite dom_insert, elem_of_union,
        elem_of_singleton, !elem_of_dom. split; [| by right].
      intros [-> | H]; [by rewrite Hmesh | done].
    - intros id Hne. apply lookup_insert_ne. congruence.
    - intros Hall id m. rewrite lookup_insert. case_decide as Hid.
      + intros [= <-]. destruct (Hall sel mesh Hmesh) as (s & Hs & Hb).
        by apply (Hm' s).
      + apply Hall. }
  destruct (pd_gesture rh) eqn:Hg; try done.
  - (* pinch *)
    destruct (num_gt _ 0.05); [| done].
    edestruct Hins as (H1 & H2 & H3); [| split; [exact H1 |];
      split; [exact H2 |]; split; [exact H3 |]; split; [| done];
      intros rh0 [= <-] Hn; cbn; congruence].
    intros s Hs Hb. eexists. split; [reflexivity |]. solve_R.
  - (* fist *)
    destruct (num_gt _ 0.01); [| done].
    edestruct Hins as (H1 & H2 & H3); [| split; [exact H1 |];
      split; [exact H2 |]; split; [exact H3 |]; split; [| done];
      intros rh0 [= <-] Hn; cbn; congruence].
    intros s Hs Hb. by exists s.
  - (* open_palm *)
    destruct (num_gt _ 0.01); [| done].
    edestruct Hins as (H1 & H2 & H3); [| split; [exact H1 |];
      split; [exact H2 |]; split; [exact H3 |]; split; [| done];
      intros rh0 [= <-] Hn; cbn; congruence].
    intros s Hs Hb. by exists s.
Qed.

(** X26: An open-palm event above the thresholds moves the selected mesh by
    twice the position delta and writes the new position to every object of
    the store with the selected id; each such event is one more undo step
    and discards the redo steps. *)
Theorem translation_reaches_the_store
    (rh : ProcessedData) (meshRefs : gmap string Mesh) (st : SceneStore)
    (sel : string) (mesh : Mesh) :
  selectedId st = Some sel -> sel <> ""%string ->
  meshRefs !! sel = Some mesh ->
  pd_gesture rh = open_palm ->
  0.6 <= gestureConfidence rh ->
  0.01 < positionMagnitude (movementData rh) ->
  exists mesh' st',
    gestureEffect true (Some rh) meshRefs st = (<[sel := mesh']> meshRefs, st')
    /\ vx (mesh_position mesh')
       = vx (mesh_position mesh) + vx (positionDelta (movementData rh)) * 2
    /\ vy (mesh_position mesh')
       = vy (mesh_position mesh) + vy (positionDelta (movementData rh)) * 2
    /\ vz (mesh_position mesh')
       = vz (mesh_position mesh) + vz (positionDelta (movementData rh)) * 2
    /\ mesh_rotation mesh' = mesh_rotation mesh
    /\ mesh_scale mesh' = mesh_scale mesh
    /\ (forall o, o ∈ objects st' -> obj_id o = sel ->
          obj_position o = mkArr3 (vx (mesh_position mesh'))
                                  (vy (mesh_position mesh'))
                                  (vz (mesh_position mesh')))
    /\ length (past (historyStore st'))
       = S (length (past (historyStore st)))
    /\ future (historyStore st') = [].
Proof.
  intros Hsel Hne Hmesh Hg Hconf Hmag. unfold gestureEffect. cbn [negb].
  assert (Ht : truthy_id (selectedId st) = Some sel).
  { rewrite Hsel. cbn. by rewrite (proj2 (truthy_true sel)). }
  rewrite Ht, Hmesh, Hg.
  rewrite (proj2 (num_lt_false _ _)) by lra.
  rewrite (proj2 (num_gt_true _ _)) by lra.
  eexists _, _. split; [reflexivity |]. cbn.
  split; [lra |]. split; [lra |]. split; [lra |].
  split; [done |]. split; [done |]. split.
  - intros o Ho Hid. apply list_elem_of_fmap in Ho as (o0 & -> & Hin).
    destruct (decide (obj_id o0 = sel)); [done |]. by cbn in Hid.
  - split; [| done]. rewrite length_app. cbn. lia.
Qed.

Lemma translation_reaches_the_store_witness :
  selectedId selectedStore = Some "a1"%string
  /\ selectedMeshes !! "a1"%string = Some unitMesh
  /\ 0.6 <= gestureConfidence (eventWith open_palm 0.9 slideMovement)
  /\ exists mesh' st',
       gestureEffect true (Some (eventWith open_palm 0.9 slideMovement))
                     selectedMeshes selectedStore
       = (<["a1"%string := mesh']> selectedMeshes, st')
       /\ vx (mesh_position mesh') = 0 + 0.1 * 2.
Proof.
  assert (Hc : 0.6 <= gestureConfidence (eventWith open_palm 0.9
                                                    slideMovement))
    by (cbn; lra).
  assert (Hm : 0.01 < positionMagnitude
                        (movementData (eventWith open_palm 0.9
                                                 slideMovement)))
    by (cbn; lra).
  split; [reflexivity |]. split; [apply lookup_singleton_eq |].
  split; [exact Hc |].
  destruct (translation_reaches_the_store
              (eventWith open_palm 0.9 slideMovement) selectedMeshes
              selectedStore "a1" unitMesh eq_refl ltac:(done)
              (lookup_singleton_eq _ _) eq_refl Hc Hm)
    as (mesh' & st' & Heq & Hx & _).
  exists mesh', st'. split; [exact Heq | exact Hx].
Defined.

(** * The IMU-based server variant *)

(** ** The wrapping loops *)

Lemma while_above_done (fuel : nat) (d : R) :
  d <= PI -> ImuServer.while_above fuel d = ImuServer.Return d.
Proof.
  intros Hd. destruct fuel; cbn [ImuServer.while_above];
    by rewrite (proj2 (num_gt_false _ _)) by done.
Qed.

Lemma while_below_done (fuel : nat) (d : R) :
  - PI <= d -> ImuServer.while_below fuel d = ImuServer.Return d.
Proof.
  intros Hd. destruct fuel; cbn [ImuServer.while_below];
    by rewrite (proj2 (num_lt_false _ _)) by done.
Qed.

Lemma wrappedDelta_once (fuel : nat) (angle previous : R) :
  - PI <= angle <= PI -> - PI <= previous <= PI -> (1 <= fuel)%nat ->
  exists r,
    ImuServer.wrappedDelta fuel angle previous = ImuServer.Return r
    /\ - PI <= r <= PI
    /\ (PI < angle - previous -> r = angle - previous - 2 * PI)
    /\ (angle - previous < - PI -> r = angle - previous + 2 * PI)
    /\ (- PI <= angle - previous <= PI -> r = angle - previous).
Proof.
  intros Ha Hp Hfuel. pose proof PI_RGT_0 as Hpi.
  destruct fuel as [| fuel]; [lia |]. unfold ImuServer.wrappedDelta.
  cbn zeta. cbn [ImuServer.while_above].
  destruct (num_gt (angle - previous) PI) eqn:Hgt.
  - apply num_gt_true in Hgt.
    rewrite while_above_done by lra.
    cbn [mbind ImuServer.run_bind].
    rewrite while_below_done by lra.
    eexists. split; [reflexivity |]. repeat split; intros; lra.
  - apply num_gt_false in Hgt. cbn [mret ImuServer.run_ret mbind
      ImuServer.run_bind ImuServer.while_below].
    destruct (num_lt (angle - previous) (- PI)) eqn:Hlt.
    + apply num_lt_true in Hlt. rewrite while_below_done by lra.
      eexists. split; [reflexivity |]. repeat split; intros; lra.
    + apply num_lt_false in Hlt.
      eexists. split; [reflexivity |]. repeat split; intros; lra.
Qed.

(** X27: For two angles within [-pi, pi] each of the two loops that wrap
    their difference runs at most once: the result is the difference itself
    when that lies within [-pi, pi], the difference less a full turn when
    it is above pi and plus a full turn when it is below -pi, and lies
    within [-pi, pi] in every case. *)
Theorem orientation_delta_is_wrapped (fuel : nat) (angle previous : R) :
  - PI <= angle <= PI -> - PI <= previous <= PI -> (1 <= fuel)%nat ->
  exists r,
    ImuServer.wrappedDelta fuel angle previous = ImuServer.Return r
    /\ - PI <= r <= PI
    /\ (PI < angle - previous -> r = angle - previous - 2 * PI)
    /\ (angle - previous < - PI -> r = angle - previous + 2 * PI)
    /\ (- PI <= angle - previous <= PI -> r = angle - previous).
Proof. apply wrappedDelta_once. Qed.

Lemma orientation_delta_is_wrapped_witness :
  - PI <= 3 <= PI /\ - PI <= -3 <= PI
  /\ exists r,
       ImuServer.wrappedDelta 1 3 (-3) = ImuServer.Return r
       /\ - PI <= r <= PI
       /\ r = 3 - -3 - 2 * PI.
Proof.
  pose proof PI_gt_3 as H3.
  assert (Ha : - PI <= 3 <= PI) by lra.
  assert (Hp : - PI <= -3 <= PI) by lra.
  split; [exact Ha |]. split; [exact Hp |].
  destruct (orientation_delta_is_wrapped 1 3 (-3) Ha Hp (le_n 1))
    as (r & Hr & Hin & Hup & _).
  exists r. split; [exact Hr |]. split; [exact Hin |].
  apply Hup. pose proof PI_4 as H4. lra.
Defined.

(** ** The movement calculator of the variant *)

Lemma magnitude_nonneg (a : Arr3) : 0 <= ImuServer.magnitude a.
Proof. apply sqrt_pos. Qed.

Lemma pinchDistance_present (i : Imu) (g : Arr3) (pos : option Vec3) :
  gyroscope i = Some g ->
  ImuServer.calculateIMUBasedPinchDistance (Some i) pos
  = ImuServer.Return (ImuServer.pinchDistanceOf i g).
Proof.
  intros Hg. unfold ImuServer.calculateIMUBasedPinchDistance. cbn.
  by rewrite Hg.
Qed.

Lemma pinchDistance_no_gyroscope (i : Imu) (pos : option Vec3) :
  gyroscope i = None ->
  ImuServer.calculateIMUBasedPinchDistance (Some i) pos
  = ImuServer.Fail TypeError.
Proof.
  intros Hg. unfold ImuServer.calculateIMUBasedPinchDistance. cbn.
  by rewrite Hg.
Qed.

Lemma pinchDistanceOf_range (i : Imu) (g : Arr3) :
  0 <= ImuServer.pinchDistanceOf i g <= 0.05.
Proof.
  unfold ImuServer.pinchDistanceOf. pose proof PI_RGT_0 as Hpi.
  pose proof (magnitude_nonneg g) as Hm.
  assert (Hq : 0 <= Rabs (at0 (orientation i)) / (PI / 6)).
  { apply Rle_mult_inv_pos; [apply Rabs_pos | lra]. }
  assert (Hp : 0 <= Rmax 0 (1.0 - Rabs (at0 (orientation i)) / (PI / 6)) <= 1)
    by (revert Hq; generalize (Rabs (at0 (orientation i)) / (PI / 6));
        intros q Hq; solve_R).
  assert (Hs : 0 <= Rmax 0 (1.0 - ImuServer.magnitude g) <= 1)
    by (revert Hm; generalize (ImuServer.magnitude g); intros m Hm; solve_R).
  revert Hp Hs.
  generalize (Rmax 0 (1.0 - Rabs (at0 (orientation i)) / (PI / 6))).
  generalize (Rmax 0 (1.0 - ImuServer.magnitude g)).
  intros s p Hp Hs. nra.
Qed.

Lemma stale_pairing_is_null
    (fuel : nat) (id : string) (cur prev : SensorFrame) :
  (timestamp cur - timestamp prev) / 1000 <= 0
  \/ 1 < (timestamp cur - timestamp prev) / 1000 ->
  ImuServer.calculateMovementData fuel id cur (Some prev)
  = ImuServer.Return None.
Proof.
  intros Hdt. unfold ImuServer.calculateMovementData.
  destruct Hdt as [Hdt | Hdt].
  - by rewrite (proj2 (num_gt_false _ 0)) by done.
  - rewrite (proj2 (num_gt_true _ 1)) by done. by rewrite orb_true_r.
Qed.

Lemma fresh_pairing_is_measured
    (fuel : nat) (id : string) (cur prev : SensorFrame)
    (cimu pimu : Imu) (cg pg : Arr3) (cp pp : Vec3) :
  let dt := (timestamp cur - timestamp prev) / 1000 in
  0 < dt <= 1 ->
  imu cur = Some cimu -> imu prev = Some pimu ->
  gyroscope cimu = Some cg -> gyroscope pimu = Some pg ->
  position cur = Some cp -> position prev = Some pp ->
  ImuServer.anglesInRange cimu -> ImuServer.anglesInRange pimu ->
  (1 <= fuel)%nat ->
  exists md,
    ImuServer.calculateMovementData fuel id cur (Some prev)
    = ImuServer.Return (Some md)
    /\ in_range (- PI) PI (at0 (ImuServer.orientationDelta md))
    /\ in_range (- PI) PI (at1 (ImuServer.orientationDelta md))
    /\ in_range (- PI) PI (at2 (ImuServer.orientationDelta md))
    /\ ImuServer.positionDelta md
       = mkVec3 (vx cp - vx pp) (vy cp - vy pp) (vz cp - vz pp)
    /\ ImuServer.positionMagnitude md
       = norm_vec (ImuServer.positionDelta md)
    /\ ImuServer.movementMagnitude md ^ 2
       = ImuServer.positionMagnitude md ^ 2
         + ImuServer.magnitude (ImuServer.orientationDelta md) ^ 2
    /\ ImuServer.deltaTime md = dt
    /\ ImuServer.velocity md
       = mkVec3 (vx (ImuServer.positionDelta md) / dt)
                (vy (ImuServer.positionDelta md) / dt)
                (vz (ImuServer.positionDelta md) / dt)
    /\ 0 <= ImuServer.scaleFactor md <= 50
    /\ (ImuServer.pinchDistanceOf pimu pg <= 0.001 ->
        ImuServer.scaleFactor md = 1)
    /\ (0.001 < ImuServer.pinchDistanceOf pimu pg ->
        ImuServer.scaleFactor md
        = ImuServer.pinchDistanceOf cimu cg
          / ImuServer.pinchDistanceOf pimu pg).
Proof.
  cbn zeta.
  intros [Hlo Hhi] Hci Hpi Hcg Hpg Hcp Hpp (Hc0 & Hc1 & Hc2)
    (Hp0 & Hp1 & Hp2) Hfuel.
  unfold ImuServer.calculateMovementData.
  rewrite (proj2 (num_gt_true _ 0)), (proj2 (num_gt_false _ 1)) by done.
  cbn [negb orb]. rewrite Hcp, Hpp, Hci, Hpi.
  cbn [ImuServer.lift prop_of mbind ImuServer.run_bind vx vy vz].
  rewrite !num_div_nonzero by lra.
  cbn [ImuServer.lift prop_of mbind ImuServer.run_bind].
  destruct (wrappedDelta_once fuel (at0 (orientation cimu))
              (at0 (orientation pimu)) Hc0 Hp0 Hfuel) as (r0 & Hr0 & Hin0 & _).
  destruct (wrappedDelta_once fuel (at1 (orientation cimu))
              (at1 (orientation pimu)) Hc1 Hp1 Hfuel) as (r1 & Hr1 & Hin1 & _).
  destruct (wrappedDelta_once fuel (at2 (orientation cimu))
              (at2 (orientation pimu)) Hc2 Hp2 Hfuel) as (r2 & Hr2 & Hin2 & _).
  rewrite Hr0, Hr1, Hr2.
  rewrite (pinchDistance_present cimu cg _ Hcg),
    (pinchDistance_present pimu pg _ Hpg).
  cbn [mbind ImuServer.run_bind].
  pose proof (pinchDistanceOf_range cimu cg) as Hc.
  pose proof (pinchDistanceOf_range pimu pg) as Hp.
  assert (Hsq : forall x y : R, 0 <= x -> sqrt (x ^ 2 + y ^ 2) ^ 2
                                        = x ^ 2 + y ^ 2).
  { intros x y Hx. apply pow2_sqrt. nra. }
  destruct (num_gt (ImuServer.pinchDistanceOf pimu pg) 0.001) eqn:Hgt.
  + apply num_gt_true in Hgt. rewrite num_div_nonzero by lra.
    cbn [ImuServer.lift mbind ImuServer.run_bind mret ImuServer.run_ret].
    eexists. split; [reflexivity |]. cbn -[pow ImuServer.magnitude].
    split; [done |]. split; [done |]. split; [done |]. split; [done |].
    split; [unfold norm_vec, norm3; cbn; f_equal; ring |].
    split; [apply Hsq, sqrt_pos |]. split; [done |]. split; [done |].
    split; [| split; [lra | done]].
    split; [apply Rle_mult_inv_pos; lra |].
    assert (Hq : ImuServer.pinchDistanceOf cimu cg
                 / ImuServer.pinchDistanceOf pimu pg
                 * ImuServer.pinchDistanceOf pimu pg
                 = ImuServer.pinchDistanceOf cimu cg) by (field; lra).
    revert Hq.
    generalize (ImuServer.pinchDistanceOf cimu cg
                / ImuServer.pinchDistanceOf pimu pg).
    intros q Hq. nra.
  + apply num_gt_false in Hgt.
    cbn [ImuServer.lift mbind ImuServer.run_bind mret ImuServer.run_ret].
    eexists. split; [reflexivity |]. cbn -[pow ImuServer.magnitude].
    split; [done |]. split; [done |]. split; [done |]. split; [done |].
    split; [unfold norm_vec, norm3; cbn; f_equal; ring |].
    split; [apply Hsq, sqrt_pos |]. split; [done |]. split; [done |].
    split; [lra |]. split; [intros _; lra | lra].
Qed.

(** X28: The movement calculator of the variant.  It returns [null] when the
    device has no previous frame and when the two timestamps are not more
    than 0 and at most 1 second apart; a fresh pairing throws when either
    frame has no position.  Otherwise, for orientations whose angles lie
    within [-pi, pi] (one iteration of each wrapping loop), it returns
    orientation deltas within [-pi, pi], the root sum
    square of the position and orientation magnitudes as movement
    magnitude, the position delta over the time as velocity without ever
    dividing by zero, and a scale factor that is the unclamped quotient of
    the two pinch distances, between 0 and 50, or 1 when the previous pinch
    distance is at most 0.001. *)
Theorem imu_movement_calculator
    (fuel : nat) (id : string) (cur prev : SensorFrame) :
  let dt := (timestamp cur - timestamp prev) / 1000 in
  ImuServer.calculateMovementData fuel id cur None = ImuServer.Return None
  /\ (dt <= 0 \/ 1 < dt ->
      ImuServer.calculateMovementData fuel id cur (Some prev)
      = ImuServer.Return None)
  /\ (0 < dt <= 1 -> position cur = None \/ position prev = None ->
      ImuServer.calculateMovementData fuel id cur (Some prev)
      = ImuServer.Fail TypeError)
  /\ (forall cimu pimu cg pg cp pp,
        0 < dt <= 1 ->
        imu cur = Some cimu -> imu prev = Some pimu ->
        gyroscope cimu = Some cg -> gyroscope pimu = Some pg ->
        position cur = Some cp -> position prev = Some pp ->
        ImuServer.anglesInRange cimu -> ImuServer.anglesInRange pimu ->
        (1 <= fuel)%nat ->
        exists md,
          ImuServer.calculateMovementData fuel id cur (Some prev)
          = ImuServer.Return (Some md)
          /\ in_range (- PI) PI (at0 (ImuServer.orientationDelta md))
          /\ in_range (- PI) PI (at1 (ImuServer.orientationDelta md))
          /\ in_range (- PI) PI (at2 (ImuServer.orientationDelta md))
          /\ ImuServer.positionDelta md
             = mkVec3 (vx cp - vx pp) (vy cp - vy pp) (vz cp - vz pp)
          /\ ImuServer.positionMagnitude md
             = norm_vec (ImuServer.positionDelta md)
          /\ ImuServer.movementMagnitude md ^ 2
             = ImuServer.positionMagnitude md ^ 2
               + ImuServer.magnitude (ImuServer.orientationDelta md) ^ 2
          /\ ImuServer.deltaTime md = dt
          /\ ImuServer.velocity md
             = mkVec3 (vx (ImuServer.positionDelta md) / dt)
                      (vy (ImuServer.positionDelta md) / dt)
                      (vz (ImuServer.positionDelta md) / dt)
          /\ 0 <= ImuServer.scaleFactor md <= 50
          /\ (ImuServer.pinchDistanceOf pimu pg <= 0.001 ->
              ImuServer.scaleFactor md = 1)
          /\ (0.001 < ImuServer.pinchDistanceOf pimu pg ->
              ImuServer.scaleFactor md
              = ImuServer.pinchDistanceOf cimu cg
                / ImuServer.pinchDistanceOf pimu pg)).
Proof.
  cbn zeta. split; [done |]. split; [| split].
  - apply stale_pairing_is_null.
  - intros [Hlo Hhi] Hpos. unfold ImuServer.calculateMovementData.
    rewrite (proj2 (num_gt_true _ 0)), (proj2 (num_gt_false _ 1)) by done.
    cbn [negb orb].
    destruct Hpos as [-> | Hp]; [done |].
    rewrite Hp. by destruct (position cur).
  - intros cimu pimu cg pg cp pp. apply fresh_pairing_is_measured.
Qed.

Lemma anglesInRange_seam :
  ImuServer.anglesInRange (sampleImu (mkArr3 0 0 3))
  /\ ImuServer.anglesInRange (sampleImu (mkArr3 0 0 (-3))).
Proof.
  pose proof PI_gt_3. unfold ImuServer.anglesInRange. cbn.
  repeat split; lra.
Qed.

Lemma imu_movement_calculator_witness :
  exists md,
    ImuServer.calculateMovementData 1 "rightHand1" seamAfter (Some seamBefore)
    = ImuServer.Return (Some md)
    /\ in_range (- PI) PI (at2 (ImuServer.orientationDelta md))
    /\ ImuServer.deltaTime md = (100 - 0) / 1000
    /\ ImuServer.movementMagnitude md ^ 2
       = ImuServer.positionMagnitude md ^ 2
         + ImuServer.magnitude (ImuServer.orientationDelta md) ^ 2.
Proof.
  destruct (imu_movement_calculator 1 "rightHand1" seamAfter seamBefore)
    as (_ & _ & _ & H).
  destruct (H (sampleImu (mkArr3 0 0 3)) (sampleImu (mkArr3 0 0 (-3)))
              arr3_zero arr3_zero vec3_zero vec3_zero
              ltac:(cbn; lra) eq_refl eq_refl eq_refl eq_refl eq_refl eq_refl
              (proj1 anglesInRange_seam) (proj2 anglesInRange_seam) (le_n 1))
    as (md & Heq & _ & _ & Hin & _ & _ & Hmag & Hdt & _).
  exists md. split; [exact Heq |]. split; [exact Hin |].
  split; [exact Hdt | exact Hmag].
Defined.

(** ** The classifier of the variant *)

Lemma pinchDistanceOf_rolled (i : Imu) (g : Arr3) :
  PI / 6 <= Rabs (at0 (orientation i)) ->
  ImuServer.pinchDistanceOf i g = 0.
Proof.
  intros Hroll. unfold ImuServer.pinchDistanceOf. pose proof PI_RGT_0 as Hpi.
  assert (Hq : Rabs (at0 (orientation i)) / (PI / 6) * (PI / 6)
               = Rabs (at0 (orientation i))) by (field; lra).
  revert Hq. generalize (Rabs (at0 (orientation i)) / (PI / 6)).
  intros q Hq. assert (H1 : 1 <= q) by nra.
  replace (Rmax 0 (1.0 - q)) with 0 by solve_R. lra.
Qed.

Lemma classifyGesture_no_gyroscope (fr : SensorFrame) (i : Imu) :
  imu fr = Some i -> gyroscope i = None ->
  ImuServer.classifyGesture fr = ImuServer.Fail TypeError.
Proof.
  intros Hi Hg. unfold ImuServer.classifyGesture. rewrite Hi. cbn.
  by rewrite Hg.
Qed.

Lemma classifyGesture_with_gyroscope
    (fr : SensorFrame) (i : Imu) (g : Arr3) (f : Fingers) :
  imu fr = Some i -> gyroscope i = Some g -> fingers fr = Some f ->
  exists r,
    ImuServer.classifyGesture fr = ImuServer.Return r
    /\ 0.5 <= ImuServer.confidence r <= 0.95
    /\ (ImuServer.gesture r = pinch <->
        ImuServer.pinchDistanceOf i g < 0.03
        /\ ImuServer.magnitude g < 0.5)
    /\ (ImuServer.gesture r = pinch -> 0.7 < ImuServer.confidence r)
    /\ (PI / 6 <= Rabs (at0 (orientation i)) ->
        ImuServer.magnitude g < 0.5 ->
        ImuServer.gesture r = pinch /\ ImuServer.confidence r = 0.95)
    /\ (1 < ImuServer.magnitude g ->
        ImuServer.gesture r = fist
        /\ 0.75 < ImuServer.confidence r <= 0.9)
    /\ (ImuServer.gesture r = fist ->
        0.6 <= ImuServer.confidence r <= 0.9)
    /\ (ImuServer.gesture r = pointing ->
        ImuServer.confidence r = 0.85 /\ ImuServer.magnitude g < 0.3)
    /\ (ImuServer.gesture r = open_palm ->
        ImuServer.confidence r = 0.8 /\ ImuServer.magnitude g < 0.5)
    /\ (ImuServer.gesture r = neutral -> ImuServer.confidence r = 0.5).
Proof.
  intros Hi Hg Hf. unfold ImuServer.classifyGesture. rewrite Hi, Hf.
  cbn [ImuServer.lift prop_of mbind ImuServer.run_bind]. rewrite Hg.
  cbn [ImuServer.lift prop_of mbind ImuServer.run_bind].
  rewrite (pinchDistance_present i g _ Hg).
  cbn [ImuServer.lift prop_of mbind ImuServer.run_bind].
  pose proof (pinchDistanceOf_range i g) as Hd.
  pose proof (magnitude_nonneg g) as Hm.
  pose proof (pinchDistanceOf_rolled i g) as Hroll.
  revert Hd Hm Hroll.
  generalize (ImuServer.pinchDistanceOf i g) (ImuServer.magnitude g).
  intros d m Hd Hm Hroll.
  generalize (num_lt (index f) 0.3
              && (num_gt (middle f) 0.7 && num_gt (ring f) 0.7
                  && num_gt (little f) 0.7)).
  generalize (ImuServer.every (fun bend : R => num_gt bend 0.6) f).
  generalize (ImuServer.every (fun bend : R => num_lt bend 0.4) f).
  intros b3 b2 b1.
  destruct (num_lt d 0.03) eqn:H1;
    [apply num_lt_true in H1 | apply num_lt_false in H1];
    (destruct (num_lt m 0.5) eqn:H2;
     [apply num_lt_true in H2 | apply num_lt_false in H2]);
    (destruct (num_lt m 0.3) eqn:H3;
     [apply num_lt_true in H3 | apply num_lt_false in H3]);
    (destruct (num_gt m 1.0) eqn:H4;
     [apply num_gt_true in H4 | apply num_gt_false in H4]);
    try lra; destruct b1, b2, b3; cbn; eexists; (split; [reflexivity |]);
    cbn; intuition (try discriminate; try lra; try solve_R).
Qed.


(** X29: The classifier of the variant decides by the IMU first: it throws on
    an IMU without gyroscope, and reads neither thumb nor palm.  The gesture
    is pinch exactly when the pinch distance derived from the roll is below
    0.03 and the gyroscope magnitude below 0.5, whatever the fingers do, so
    a still hand rolled by 30 degrees or more is a pinch of confidence
    0.95; a gyroscope magnitude above 1 makes a fist of any hand.  The
    confidence is within [0.5, 0.95]: above 0.7 for pinch, 0.85 for
    pointing, within [0.6, 0.9] for fist, 0.8 for open palm, 0.5 for
    neutral. *)
Theorem imu_classifier (fr : SensorFrame) (i : Imu) :
  imu fr = Some i ->
  (gyroscope i = None ->
   ImuServer.classifyGesture fr = ImuServer.Fail TypeError)
  /\ (forall g f,
        gyroscope i = Some g -> fingers fr = Some f ->
        exists r,
          ImuServer.classifyGesture fr = ImuServer.Return r
          /\ 0.5 <= ImuServer.confidence r <= 0.95
          /\ (ImuServer.gesture r = pinch <->
              ImuServer.pinchDistanceOf i g < 0.03
              /\ ImuServer.magnitude g < 0.5)
          /\ (ImuServer.gesture r = pinch -> 0.7 < ImuServer.confidence r)
          /\ (PI / 6 <= Rabs (at0 (orientation i)) ->
              ImuServer.magnitude g < 0.5 ->
              ImuServer.gesture r = pinch /\ ImuServer.confidence r = 0.95)
          /\ (1 < ImuServer.magnitude g ->
              ImuServer.gesture r = fist
              /\ 0.75 < ImuServer.confidence r <= 0.9)
          /\ (ImuServer.gesture r = fist ->
              0.6 <= ImuServer.confidence r <= 0.9)
          /\ (ImuServer.gesture r = pointing ->
              ImuServer.confidence r = 0.85 /\ ImuServer.magnitude g < 0.3)
          /\ (ImuServer.gesture r = open_palm ->
              ImuServer.confidence r = 0.8 /\ ImuServer.magnitude g < 0.5)
          /\ (ImuServer.gesture r = neutral -> ImuServer.confidence r = 0.5)).
Proof.
  intros Hi. split.
  - by apply classifyGesture_no_gyroscope.
  - intros g f. by apply classifyGesture_with_gyroscope.
Qed.

Lemma imu_classifier_witness :
  imu restFrame = Some (sampleImu arr3_zero)
  /\ exists r,
       ImuServer.classifyGesture restFrame = ImuServer.Return r
       /\ 0.5 <= ImuServer.confidence r <= 0.95.
Proof.
  split; [reflexivity |].
  destruct (imu_classifier restFrame (sampleImu arr3_zero) eq_refl)
    as [_ H].
  destruct (H arr3_zero relaxedFingers eq_refl eq_refl) as (r & Hr & Hc & _).
  exists r. split; [exact Hr | exact Hc].
Defined.

(** ** Processing a frame on the variant *)

Lemma processSensorData_blind_frame
    (fuel : nat) (now : R) (fr : SensorFrame)
    (store : gmap string SensorFrame) (i : Imu) :
  imu fr = Some i -> gyroscope i = None -> position fr = None ->
  (ImuServer.processSensorData fuel now fr store).1
  = ImuServer.Fail TypeError.
Proof.
  intros Hi Hg Hp. unfold ImuServer.processSensorData.
  destruct (store !! deviceId fr) as [prev |]; cbn.
  - destruct (negb _ || _); cbn.
    + unfold ImuServer.assembleEvent.
      by rewrite (classifyGesture_no_gyroscope fr i Hi Hg).
    + by rewrite Hp.
  - unfold ImuServer.assembleEvent.
    by rewrite (classifyGesture_no_gyroscope fr i Hi Hg).
Qed.

(** X30: Processing a frame on the variant.  A frame with neither gyroscope nor
    position, as every frame of the glove simulator is, always throws.  A
    frame that carries all the variant reads is processed to an event and
    stored: with the identity movement ([defaultMovement]) when the device
    has no previous frame or the pairing is stale, and with the movement the
    calculator returns when the pairing is fresh and the angles of both
    orientations lie within [-pi, pi]. *)
Theorem imu_server_processing
    (fuel : nat) (now : R) (fr : SensorFrame)
    (store : gmap string SensorFrame) :
  (forall i, imu fr = Some i -> gyroscope i = None -> position fr = None ->
     (ImuServer.processSensorData fuel now fr store).1
     = ImuServer.Fail TypeError)
  /\ (forall tOrient tGesture tStamp d sim,
        (ImuServer.processSensorData fuel now
           (generateSensorData tOrient tGesture tStamp d sim).1 store).1
        = ImuServer.Fail TypeError)
  /\ (ImuServer.fullFrame fr ->
      store !! deviceId fr = None
      \/ (exists prev, store !! deviceId fr = Some prev
            /\ ((timestamp fr - timestamp prev) / 1000 <= 0
                \/ 1 < (timestamp fr - timestamp prev) / 1000)) ->
      exists pd i,
        imu fr = Some i
        /\ ImuServer.processSensorData fuel now fr store
           = (ImuServer.Return pd, <[deviceId fr := fr]> store)
        /\ ImuServer.movementData pd = ImuServer.defaultMovement fr i
        /\ ImuServer.orientationDelta (ImuServer.movementData pd) = arr3_zero
        /\ ImuServer.positionDelta (ImuServer.movementData pd) = vec3_zero
        /\ ImuServer.velocity (ImuServer.movementData pd) = vec3_zero
        /\ ImuServer.scaleFactor (ImuServer.movementData pd) = 1
        /\ ImuServer.movementMagnitude (ImuServer.movementData pd) = 0
        /\ ImuServer.deltaTime (ImuServer.movementData pd) = 0)
  /\ (forall prev pimu pg pp,
        ImuServer.fullFrame fr ->
        store !! deviceId fr = Some prev ->
        0 < (timestamp fr - timestamp prev) / 1000 <= 1 ->
        imu prev = Some pimu -> gyroscope pimu = Some pg ->
        position prev = Some pp ->
        (forall i, imu fr = Some i -> ImuServer.anglesInRange i) ->
        ImuServer.anglesInRange pimu -> (1 <= fuel)%nat ->
        exists pd md,
          ImuServer.processSensorData fuel now fr store
          = (ImuServer.Return pd, <[deviceId fr := fr]> store)
          /\ ImuServer.calculateMovementData fuel (deviceId fr) fr (Some prev)
             = ImuServer.Return (Some md)
          /\ ImuServer.movementData pd = md).
Proof.
  split; [| split; [| split]].
  - intros i. apply processSensorData_blind_frame.
  - intros tO tG tS d sim.
    by eapply processSensorData_blind_frame.
  - intros (Hc & [p Hp] & (i & Hi & [g Hg])) Hstale.
    destruct Hc as (_ & _ & [f Hf] & [t Ht] & [pa Hpa] & [sw Hsw]).
    assert (Hmd : ImuServer.calculateMovementData fuel (deviceId fr) fr
                    (store !! deviceId fr) = ImuServer.Return None).
    { destruct Hstale as [-> | (prev & -> & Hdt)]; [done |].
      by apply stale_pairing_is_null. }
    destruct (classifyGesture_with_gyroscope fr i g f Hi Hg Hf)
      as (r & Hr & _).
    eexists _, i. split; [done |]. split.
    + unfold ImuServer.processSensorData. cbn zeta. rewrite Hmd.
      unfold ImuServer.assembleEvent. rewrite Hr, Hi, Hsw, Ht, Hpa. cbn.
      reflexivity.
    + cbn. repeat split; try done. lra.
  - intros prev pimu pg pp (Hc & [p Hp] & (i & Hi & [g Hg])) Hprev Hdt
      Hpi Hpg Hpp Hrange Hprange Hfuel.
    destruct Hc as (_ & _ & [f Hf] & [t Ht] & [pa Hpa] & [sw Hsw]).
    destruct (fresh_pairing_is_measured fuel (deviceId fr) fr prev i pimu
                g pg p pp Hdt Hi Hpi Hg Hpg Hp Hpp (Hrange i Hi) Hprange
                Hfuel)
      as (md & Hmd & _).
    destruct (classifyGesture_with_gyroscope fr i g f Hi Hg Hf)
      as (r & Hr & _).
    eexists _, md. split.
    { unfold ImuServer.processSensorData. cbn zeta. rewrite Hprev, Hmd.
      unfold ImuServer.assembleEvent. rewrite Hr, Hi, Hsw, Ht, Hpa. cbn.
      reflexivity. }
    split; [exact Hmd | reflexivity].
Qed.

Lemma imu_server_processing_witness :
  (ImuServer.processSensorData 0 0
     (generateSensorData 1 2 3 middleDraws (showing fist)).1 ∅).1
  = ImuServer.Fail TypeError.
Proof.
  destruct (imu_server_processing 0 0 restFrame ∅) as (_ & H & _).
  apply H.
Defined.

(** * Request bodies whose imu may lack its orientation *)

Lemma wire_validFrame_true (f : Wire.SensorFrame) :
  Wire.validFrame f = true <->
  Wire.deviceId f <> ""%string
  /\ is_Some (Wire.imu f) /\ is_Some (Wire.fingers f).
Proof.
  unfold Wire.validFrame.
  rewrite !andb_true_iff, !bool_decide_eq_true, truthy_true. tauto.
Qed.

Lemma wire_velocity_returns (d : Vec3) (dt : R) :
  exists v,
    (if num_gt dt 0 then
       qx ← num_div (vx d) dt;
       qy ← num_div (vy d) dt;
       qz ← num_div (vz d) dt;
       mret (mkVec3 qx qy qz)
     else mret vec3_zero) = Normal v.
Proof.
  destruct (num_gt dt 0) eqn:Hgt; [| by eexists].
  apply num_gt_true in Hgt. rewrite !num_div_nonzero by lra. by eexists.
Qed.

Lemma wire_scale_returns (cf pf : option Fingers) (ct pt : option Thumb) :
  exists s,
    match cf, pf with
    | Some cf, Some pf =>
        if num_gt (pinchDistance pf pt) 0 then
          q ← num_div (pinchDistance cf ct) (pinchDistance pf pt);
          mret (Rmax 0.5 (Rmin 2.0 q))
        else mret 1
    | _, _ => mret 1
    end = Normal s.
Proof.
  destruct cf as [cf |], pf as [pf |]; try by eexists.
  destruct (num_gt (pinchDistance pf pt) 0) eqn:Hgt; [| by eexists].
  apply num_gt_true in Hgt. rewrite num_div_nonzero by lra. by eexists.
Qed.

(** The pairing with a stored frame throws exactly when an orientation is
    missing. *)
Lemma wire_pairing_throws (f p : Wire.SensorFrame) :
  Wire.orientationOf f = None \/ Wire.orientationOf p = None ->
  Wire.calculateMovementData f (Some p) = Abrupt TypeError.
Proof.
  intros H. unfold Wire.calculateMovementData. cbn zeta.
  destruct (wire_velocity_returns
              (mkVec3 (vx (position_or_zero (Wire.position f))
                       - vx (position_or_zero (Wire.position p)))
                      (vy (position_or_zero (Wire.position f))
                       - vy (position_or_zero (Wire.position p)))
                      (vz (position_or_zero (Wire.position f))
                       - vz (position_or_zero (Wire.position p))))
              ((Wire.timestamp f - Wire.timestamp p) / 1000)) as [v Hv].
  cbn [vx vy vz] in Hv |- *. rewrite Hv. cbn [mbind completion_bind].
  unfold Wire.orientationOf in H.
  destruct (Wire.imu f) as [ci |]; [| done]. cbn.
  destruct (Wire.orientation ci) as [co |]; [| done]. cbn.
  destruct (Wire.imu p) as [pi |]; [| done]. cbn.
  destruct (Wire.orientation pi) as [po |]; [| done].
  by destruct H.
Qed.

Lemma wire_pairing_returns (f p : Wire.SensorFrame) (co po : Arr3) :
  Wire.orientationOf f = Some co -> Wire.orientationOf p = Some po ->
  exists md,
    Wire.calculateMovementData f (Some p) = Normal md
    /\ Wire.deltaTime md = (Wire.timestamp f - Wire.timestamp p) / 1000
    /\ Wire.positionDelta md
       = mkVec3 (vx (position_or_zero (Wire.position f))
                 - vx (position_or_zero (Wire.position p)))
                (vy (position_or_zero (Wire.position f))
                 - vy (position_or_zero (Wire.position p)))
                (vz (position_or_zero (Wire.position f))
                 - vz (position_or_zero (Wire.position p)))
    /\ Wire.orientationDelta md
       = mkArr3 (at0 co - at0 po) (at1 co - at1 po) (at2 co - at2 po)
    /\ Wire.md_orientation md = Some co.
Proof.
  intros Hco Hpo. unfold Wire.calculateMovementData. cbn zeta.
  destruct (wire_velocity_returns
              (mkVec3 (vx (position_or_zero (Wire.position f))
                       - vx (position_or_zero (Wire.position p)))
                      (vy (position_or_zero (Wire.position f))
                       - vy (position_or_zero (Wire.position p)))
                      (vz (position_or_zero (Wire.position f))
                       - vz (position_or_zero (Wire.position p))))
              ((Wire.timestamp f - Wire.timestamp p) / 1000)) as [v Hv].
  cbn [vx vy vz] in Hv |- *. rewrite Hv. cbn [mbind completion_bind].
  unfold Wire.orientationOf in Hco, Hpo.
  destruct (Wire.imu f) as [ci |]; [| done].
  destruct (Wire.imu p) as [pi |]; [| done].
  cbn [prop_of mbind completion_bind]. rewrite Hco.
  cbn [prop_of mbind completion_bind]. rewrite Hpo.
  cbn [prop_of mbind completion_bind].
  destruct (wire_scale_returns (Wire.fingers f) (Wire.fingers p)
              (Wire.thumb f) (Wire.thumb p)) as [s Hs].
  rewrite Hs. cbn [mbind completion_bind].
  eexists. split; [reflexivity |]. by cbn.
Qed.

Lemma wire_first_returns (f : Wire.SensorFrame) :
  is_Some (Wire.imu f) ->
  exists md,
    Wire.calculateMovementData f None = Normal md
    /\ Wire.orientationDelta md = arr3_zero
    /\ Wire.positionDelta md = vec3_zero
    /\ Wire.movementMagnitude md = 0.
Proof.
  intros [i Hi]. unfold Wire.calculateMovementData. rewrite Hi. cbn.
  eexists. split; [reflexivity |]. by cbn.
Qed.

(** After the write to the history: the event is assembled for a complete
    frame with an orientation, and the assembly throws for any other
    validated frame. *)
Lemma wire_assembleEvent_complete
    (now : R) (f : Wire.SensorFrame) (md : Wire.MovementData) :
  Wire.completeFrame f -> is_Some (Wire.orientationOf f) ->
  exists pd,
    Wire.assembleEvent now f md = Normal pd
    /\ Wire.pd_deviceId pd = Wire.deviceId f
    /\ Wire.movementData pd = md.
Proof.
  intros (_ & [i Hi] & [ff Hf] & [t Ht] & [p Hp] & [sw Hsw]) [o Ho].
  unfold Wire.orientationOf in Ho. rewrite Hi in Ho.
  unfold Wire.assembleEvent, Wire.normalizeCursorOrientation.
  rewrite Hf, Ht, Hp, Hsw, Hi, classifyGesture_present. cbn.
  rewrite Ho. cbn. eexists. split; [reflexivity |]. by cbn.
Qed.

Lemma wire_assembleEvent_incomplete
    (now : R) (f : Wire.SensorFrame) (md : Wire.MovementData) :
  is_Some (Wire.imu f) -> is_Some (Wire.fingers f) ->
  Wire.orientationOf f = None \/ Wire.thumb f = None
  \/ Wire.palm f = None \/ Wire.switches f = None ->
  Wire.assembleEvent now f md = Abrupt TypeError.
Proof.
  intros [i Hi] [ff Hf] Hmissing.
  unfold Wire.orientationOf in Hmissing. rewrite Hi in Hmissing.
  unfold Wire.assembleEvent, Wire.normalizeCursorOrientation.
  rewrite Hi, Hf.
  destruct (Wire.thumb f) as [t |] eqn:Ht.
  - rewrite classifyGesture_present. cbn.
    destruct (Wire.orientation i); [| done]. cbn.
    destruct (Wire.switches f); [| done].
    destruct (Wire.palm f); [| done].
    by destruct Hmissing as [? | [? | [? | ?]]].
  - destruct (classifyGesture_no_thumb ff (Wire.palm f)) as [-> | [r ->]];
      [done |].
    cbn. destruct (Wire.orientation i); [| done]. cbn.
    by destruct (Wire.switches f).
Qed.

(** ** The two embeddings coincide on schema frames *)

Lemma wire_calculateMovementData (f : SensorFrame) (prev : option SensorFrame) :
  Wire.calculateMovementData (wireFrame f) (wireFrame <$> prev)
  = match calculateMovementData f prev with
    | Normal md => Normal (wireMovement md)
    | Abrupt e => Abrupt e
    end.
Proof.
  destruct prev as [p |]; cbn [fmap option_fmap option_map].
  - unfold Wire.calculateMovementData, calculateMovementData,
      frame_deltaTime.
    cbn [wireFrame Wire.timestamp Wire.position Wire.imu Wire.fingers
         Wire.thumb].
    cbn zeta.
    match goal with
    | |- context [mbind _ ?m] =>
        match m with
        | (if num_gt _ 0 then _ else _) => destruct m as [v | e]
        end
    end; [| done].
    cbn [mbind completion_bind].
    destruct (imu f) as [ci |]; [| done].
    destruct (imu p) as [pi |]; [| done].
    cbn [fmap option_fmap option_map prop_of mbind completion_bind wireImu
         Wire.orientation].
    match goal with
    | |- context [mbind _ ?m] =>
        match m with
        | (match fingers f with _ => _ end) => destruct m as [s | e]
        end
    end; [| done].
    done.
  - unfold Wire.calculateMovementData, calculateMovementData.
    cbn [wireFrame Wire.imu].
    destruct (imu f) as [ci |]; [| done]. done.
Qed.

Lemma wire_assembleEvent (now : R) (f : SensorFrame) (md : MovementData) :
  Wire.assembleEvent now (wireFrame f) (wireMovement md)
  = match assembleEvent now f md with
    | Normal pd => Normal (wireEvent pd)
    | Abrupt e => Abrupt e
    end.
Proof.
  unfold Wire.assembleEvent, assembleEvent, Wire.normalizeCursorOrientation,
    normalizeCursorOrientation.
  cbn [wireFrame Wire.fingers Wire.thumb Wire.palm Wire.imu Wire.switches
       Wire.deviceId Wire.position].
  destruct (classifyGesture (fingers f) (thumb f) (palm f)) as [r | e];
    [| done].
  cbn [mbind completion_bind].
  destruct (imu f) as [i |]; [| done].
  cbn [fmap option_fmap option_map prop_of mbind completion_bind wireImu
       Wire.orientation].
  destruct (switches f) as [sw |]; [| done].
  cbn [prop_of mbind completion_bind].
  destruct (thumb f) as [t |]; [| done].
  cbn [prop_of mbind completion_bind].
  destruct (palm f) as [p |]; [| done].
  done.
Qed.

Lemma wire_validFrame (f : SensorFrame) :
  Wire.validFrame (wireFrame f) = validFrame f.
Proof.
  unfold Wire.validFrame, validFrame. cbn [wireFrame Wire.deviceId Wire.imu
    Wire.fingers].
  by destruct (imu f).
Qed.

Lemma wire_updateHand (id : string) (pd : ProcessedData) (g : GestureState) :
  Wire.updateHand id (wireEvent pd) (wireState g)
  = wireState (updateHand id pd g).
Proof. unfold Wire.updateHand, updateHand. by destruct (includes id "left"). Qed.

(** On request bodies whose imu, where present, carries an orientation, and
    on a history of such frames, the handler of [Wire] and the handler above
    give the same response and the same next state. *)
Lemma wire_postSensorData (now : R) (f : SensorFrame) (srv : Server) :
  Wire.postSensorData now (wireFrame f) (wireServer srv)
  = ((postSensorData now f srv).1,
     wireServer (postSensorData now f srv).2).
Proof.
  unfold Wire.postSensorData, postSensorData, Wire.processSensorData,
    processSensorData.
  rewrite wire_validFrame. destruct (validFrame f); [| done]. cbn [negb].
  cbn [wireServer Wire.previousFrameData Wire.currentGestureState
       Wire.emitted].
  change (Wire.deviceId (wireFrame f)) with (deviceId f).
  rewrite lookup_fmap, wire_calculateMovementData.
  destruct (calculateMovementData f (previousFrameData srv !! deviceId f))
    as [md | [|]]; [| done ..].
  rewrite wire_assembleEvent.
  destruct (assembleEvent now f md) as [pd | [|]]; cbn.
  - unfold wireServer. cbn. rewrite fmap_insert, fmap_app, wire_updateHand.
    done.
  - unfold wireServer. cbn. by rewrite fmap_insert.
  - unfold wireServer. cbn. by rewrite fmap_insert.
Qed.

Lemma wire_post_invalid (now : R) (f : Wire.SensorFrame) (srv : Wire.Server) :
  Wire.validFrame f = false ->
  Wire.postSensorData now f srv =
  (Normal (Status400 "Missing required sensor data fields"
                     ["deviceId"; "imu"; "fingers"; "thumb"; "switches"]),
   srv).
Proof. intros H. unfold Wire.postSensorData. by rewrite H. Qed.

(** The movement calculator throws: nothing is written. *)
Lemma wire_post_blocked (now : R) (f p : Wire.SensorFrame) (srv : Wire.Server) :
  Wire.validFrame f = true ->
  Wire.previousFrameData srv !! Wire.deviceId f = Some p ->
  Wire.orientationOf f = None \/ Wire.orientationOf p = None ->
  Wire.postSensorData now f srv
  = (Normal (Status500 "Internal server error"), srv).
Proof.
  intros Hvalid Hp Hnone.
  unfold Wire.postSensorData, Wire.processSensorData.
  rewrite Hvalid, Hp, (wire_pairing_throws f p Hnone). cbn [negb].
  by destruct srv.
Qed.

Lemma wire_calculator_returns (f : Wire.SensorFrame)
    (prev : option Wire.SensorFrame) :
  is_Some (Wire.imu f) ->
  (forall p, prev = Some p ->
     is_Some (Wire.orientationOf f) /\ is_Some (Wire.orientationOf p)) ->
  exists md, Wire.calculateMovementData f prev = Normal md.
Proof.
  intros Hi Hprev. destruct prev as [p |].
  - destruct (Hprev p eq_refl) as [[co Hco] [po Hpo]].
    destruct (wire_pairing_returns f p co po Hco Hpo) as (md & Hmd & _).
    by exists md.
  - destruct (wire_first_returns f Hi) as (md & Hmd & _). by exists md.
Qed.

(** The failure comes after the write. *)
Lemma wire_post_failed (now : R) (f : Wire.SensorFrame) (srv : Wire.Server) :
  Wire.validFrame f = true ->
  (forall p, Wire.previousFrameData srv !! Wire.deviceId f = Some p ->
     is_Some (Wire.orientationOf f) /\ is_Some (Wire.orientationOf p)) ->
  Wire.orientationOf f = None \/ Wire.thumb f = None
  \/ Wire.palm f = None \/ Wire.switches f = None ->
  Wire.postSensorData now f srv =
  (Normal (Status500 "Internal server error"),
   {| Wire.previousFrameData :=
        <[Wire.deviceId f := f]> (Wire.previousFrameData srv);
      Wire.currentGestureState := Wire.currentGestureState srv;
      Wire.emitted := Wire.emitted srv |}).
Proof.
  intros Hvalid Hprev Hmissing.
  pose proof Hvalid as (Hid & Hi & Hf)%wire_validFrame_true.
  destruct (wire_calculator_returns f _ Hi Hprev) as [md Hmd].
  unfold Wire.postSensorData, Wire.processSensorData.
  rewrite Hvalid, Hmd. cbn [negb].
  by rewrite wire_assembleEvent_incomplete.
Qed.

Lemma wire_processable_valid (f : Wire.SensorFrame)
    (prev : option Wire.SensorFrame) :
  Wire.processable f prev -> Wire.validFrame f = true.
Proof.
  intros ((Hid & Hi & Hf & _) & _). by apply wire_validFrame_true.
Qed.

Lemma wire_post_processed (now : R) (f : Wire.SensorFrame) (srv : Wire.Server) :
  Wire.processable f (Wire.previousFrameData srv !! Wire.deviceId f) ->
  exists md pd,
    Wire.calculateMovementData f
      (Wire.previousFrameData srv !! Wire.deviceId f) = Normal md
    /\ Wire.movementData pd = md
    /\ Wire.pd_deviceId pd = Wire.deviceId f
    /\ Wire.postSensorData now f srv =
       (Normal (Status200 (Wire.summaryOf pd)),
        {| Wire.previousFrameData :=
             <[Wire.deviceId f := f]> (Wire.previousFrameData srv);
           Wire.currentGestureState :=
             Wire.updateHand (Wire.deviceId f) pd
                             (Wire.currentGestureState srv);
           Wire.emitted := Wire.emitted srv ++ [pd] |}).
Proof.
  intros Hproc. pose proof (wire_processable_valid _ _ Hproc) as Hvalid.
  destruct Hproc as (Hc & Ho & Hprev).
  destruct (wire_calculator_returns f
              (Wire.previousFrameData srv !! Wire.deviceId f)) as [md Hmd].
  { by destruct Hc as (_ & ? & _). }
  { intros p Hp. split; [done | by apply Hprev]. }
  destruct (wire_assembleEvent_complete now f md Hc Ho)
    as (pd & Hpd & Hdev & Hmov).
  exists md, pd. split; [done |]. split; [done |]. split; [done |].
  unfold Wire.postSensorData, Wire.processSensorData.
  rewrite Hvalid, Hmd. cbn [negb]. by rewrite Hpd.
Qed.

(** The three ways of a validated frame. *)
Lemma wire_frame_cases (f : Wire.SensorFrame)
    (prev : option Wire.SensorFrame) :
  Wire.validFrame f = true ->
  Wire.pairingThrows f prev
  \/ ((forall p, prev = Some p ->
         is_Some (Wire.orientationOf f) /\ is_Some (Wire.orientationOf p))
      /\ (Wire.orientationOf f = None \/ Wire.thumb f = None
          \/ Wire.palm f = None \/ Wire.switches f = None))
  \/ Wire.processable f prev.
Proof.
  intros (Hid & Hi & Hf)%wire_validFrame_true.
  unfold Wire.pairingThrows, Wire.processable, Wire.completeFrame.
  destruct prev as [p |].
  - destruct (Wire.orientationOf f) as [co |] eqn:Hco; [| left; eauto].
    destruct (Wire.orientationOf p) as [po |] eqn:Hpo; [| left; eauto].
    right.
    destruct (Wire.thumb f) eqn:Ht; [| left; split; [| auto];
      intros ? [= <-]; rewrite Hpo; by eauto].
    destruct (Wire.palm f) eqn:Hp; [| left; split; [| auto];
      intros ? [= <-]; rewrite Hpo; by eauto].
    destruct (Wire.switches f) eqn:Hs; [| left; split; [| auto];
      intros ? [= <-]; rewrite Hpo; by eauto].
    right. repeat split; try done; try by eexists.
    intros ? [= <-]. rewrite Hpo. by eexists.
  - right.
    destruct (Wire.orientationOf f) as [co |] eqn:Hco;
      [| left; split; [done | auto]].
    destruct (Wire.thumb f) eqn:Ht; [| left; split; [done | auto]].
    destruct (Wire.palm f) eqn:Hp; [| left; split; [done | auto]].
    destruct (Wire.switches f) eqn:Hs; [| left; split; [done | auto]].
    right. repeat split; try done; by eexists.
Qed.

Lemma wire_not_processable (f : Wire.SensorFrame)
    (prev : option Wire.SensorFrame) :
  Wire.pairingThrows f prev
  \/ (Wire.orientationOf f = None \/ Wire.thumb f = None
      \/ Wire.palm f = None \/ Wire.switches f = None) ->
  ~ Wire.processable f prev.
Proof.
  intros H ((_ & _ & _ & [t Ht] & [p Hp] & [sw Hsw]) & [o Ho] & Hprev).
  destruct H as [(q & -> & [Hn | Hn]) | [Hn | [Hn | [Hn | Hn]]]];
    try congruence.
  destruct (Hprev q eq_refl) as [? ?]. congruence.
Qed.

(** ** Internal failures *)

(** C5, as the code has it: when the processing of a validated frame fails,
    the caller receives the generic internal-error response, no event is
    broadcast, and the global gesture state and the history entries of the
    other devices are unchanged.  The entry of the frame's own device keeps
    its prior value only when the movement calculator throws, which it does
    when the device has a stored frame and that frame or the new one has no
    orientation; then the whole server state is as before.  In every other
    failure (no orientation on a first frame, no thumb, palm or switches)
    the history already holds the failed frame, because it is written
    before the classification and the assembly of the event. *)
Theorem internal_error_history_entry
    (now : R) (f : Wire.SensorFrame) (srv srv' : Wire.Server) (e : string) :
  Wire.postSensorData now f srv = (Normal (Status500 e), srv') ->
  e = "Internal server error"%string
  /\ Wire.validFrame f = true
  /\ Wire.emitted srv' = Wire.emitted srv
  /\ Wire.currentGestureState srv' = Wire.currentGestureState srv
  /\ (forall id, id <> Wire.deviceId f ->
        Wire.previousFrameData srv' !! id = Wire.previousFrameData srv !! id)
  /\ ((Wire.pairingThrows f (Wire.previousFrameData srv !! Wire.deviceId f)
       /\ srv' = srv)
      \/ (~ Wire.pairingThrows f
              (Wire.previousFrameData srv !! Wire.deviceId f)
          /\ Wire.previousFrameData srv' !! Wire.deviceId f = Some f
          /\ (Wire.orientationOf f = None \/ Wire.thumb f = None
              \/ Wire.palm f = None \/ Wire.switches f = None))).
Proof.
  intros H. destruct (Wire.validFrame f) eqn:Hvalid.
  2:{ by rewrite wire_post_invalid in H. }
  destruct (wire_frame_cases f
              (Wire.previousFrameData srv !! Wire.deviceId f) Hvalid)
    as [(p & Hp & Hnone) | [[Hprev Hmissing] | Hproc]].
  - rewrite (wire_post_blocked now f p srv Hvalid Hp Hnone) in H.
    injection H as <- <-. repeat split; try done.
    left. split; [| done]. by exists p.
  - rewrite (wire_post_failed now f srv Hvalid Hprev Hmissing) in H.
    injection H as <- <-. cbn. repeat split; try done.
    + intros id Hne. by apply lookup_insert_ne.
    + right. split; [| split; [apply lookup_insert_eq | done]].
      intros (p & Hp & Hnone). destruct (Hprev p Hp) as [[? ?] [? ?]].
      destruct Hnone; congruence.
  - destruct (wire_post_processed now f srv Hproc)
      as (md & pd & _ & _ & _ & Heq).
    rewrite Heq in H. done.
Qed.

Lemma wire_busy_lookup :
  Wire.previousFrameData (wireServer busyServer) !! "rightHand1"%string
  = Some (wireFrame restFrame).
Proof. cbn. rewrite lookup_fmap. by rewrite lookup_singleton_eq. Qed.

Lemma wire_noThumbFrame_fails_on_busyServer :
  Wire.postSensorData 100 (wireFrame noThumbFrame) (wireServer busyServer) =
  (Normal (Status500 "Internal server error"),
   {| Wire.previousFrameData :=
        <["rightHand1"%string := wireFrame noThumbFrame]>
          (Wire.previousFrameData (wireServer busyServer));
      Wire.currentGestureState :=
        Wire.currentGestureState (wireServer busyServer);
      Wire.emitted := Wire.emitted (wireServer busyServer) |}).
Proof.
  apply (wire_post_failed 100 (wireFrame noThumbFrame)).
  - reflexivity.
  - intros p. change (Wire.deviceId (wireFrame noThumbFrame))
      with "rightHand1"%string.
    rewrite wire_busy_lookup. intros [= <-]. split; by eexists.
  - right. by left.
Qed.

Lemma internal_error_history_entry_witness :
  exists srv',
    Wire.postSensorData 100 (wireFrame noThumbFrame) (wireServer busyServer)
    = (Normal (Status500 "Internal server error"), srv')
    /\ Wire.emitted srv' = Wire.emitted (wireServer busyServer)
    /\ Wire.currentGestureState srv'
       = Wire.currentGestureState (wireServer busyServer)
    /\ Wire.previousFrameData srv' !! "rightHand1"%string
       = Some (wireFrame noThumbFrame).
Proof.
  eexists. split; [apply wire_noThumbFrame_fails_on_busyServer |].
  destruct (internal_error_history_entry 100 (wireFrame noThumbFrame)
              (wireServer busyServer) _ _
              wire_noThumbFrame_fails_on_busyServer)
    as (_ & _ & He & Hg & _ & Hentry).
  split; [exact He |]. split; [exact Hg |].
  destruct Hentry as [[(p & Hp & Hnone) _] | (_ & Hstored & _)];
    [| exact Hstored].
  change (Wire.deviceId (wireFrame noThumbFrame)) with "rightHand1"%string
    in Hp.
  rewrite wire_busy_lookup in Hp. injection Hp as <-.
  destruct Hnone as [Hnone | Hnone]; discriminate Hnone.
Defined.

(** C5, as the specification words it, fails: the history holds [restFrame]
    for the right hand; a frame of that device without a thumb passes the
    validation and fails with the internal-error response, and the history
    entry is then the failed frame, not its prior value. *)
Lemma failed_frame_overwrites_history :
  exists srv',
    Wire.postSensorData 100 (wireFrame noThumbFrame) (wireServer busyServer)
    = (Normal (Status500 "Internal server error"), srv')
    /\ Wire.validFrame (wireFrame noThumbFrame) = true
    /\ Wire.emitted srv' = Wire.emitted (wireServer busyServer)
    /\ Wire.previousFrameData (wireServer busyServer) !! "rightHand1"%string
       = Some (wireFrame restFrame)
    /\ Wire.previousFrameData srv' !! "rightHand1"%string
       = Some (wireFrame noThumbFrame)
    /\ Wire.previousFrameData srv' !! "rightHand1"%string
       <> Wire.previousFrameData (wireServer busyServer)
            !! "rightHand1"%string.
Proof.
  eexists. split; [apply wire_noThumbFrame_fails_on_busyServer |].
  split; [reflexivity |]. split; [reflexivity |].
  split; [apply wire_busy_lookup |].
  cbn [Wire.previousFrameData]. rewrite lookup_insert_eq.
  split; [reflexivity |].
  change (wireFrame <$> previousFrameData busyServer)
    with (Wire.previousFrameData (wireServer busyServer)).
  rewrite wire_busy_lookup. intros [=].
Qed.

(** ** The responses of the handler *)

(** X5: The handler answers every request, and with exactly one of three
    responses.  400 with the state untouched, for a request without
    [deviceId], [imu] or [fingers].  200, with the frame stored and one
    event broadcast, for a frame that carries [thumb], [palm] and [switches]
    as well and an orientation in its imu, provided the stored frame of its
    device, if there is one, has an orientation too.  500 with nothing
    broadcast and the gesture state unchanged for every other validated
    frame. *)
Theorem postSensorData_response
    (now : R) (f : Wire.SensorFrame) (srv : Wire.Server) :
  let prev := Wire.previousFrameData srv !! Wire.deviceId f in
  (Wire.validFrame f = false
   /\ Wire.postSensorData now f srv
      = (Normal (Status400 "Missing required sensor data fields"
                   ["deviceId"; "imu"; "fingers"; "thumb"; "switches"]), srv))
  \/ (Wire.validFrame f = true /\ ~ Wire.processable f prev
      /\ exists srv',
           Wire.postSensorData now f srv
           = (Normal (Status500 "Internal server error"), srv')
           /\ Wire.emitted srv' = Wire.emitted srv
           /\ Wire.currentGestureState srv' = Wire.currentGestureState srv)
  \/ (Wire.validFrame f = true /\ Wire.processable f prev
      /\ exists pd srv',
           Wire.postSensorData now f srv
           = (Normal (Status200 (Wire.summaryOf pd)), srv')
           /\ Wire.emitted srv' = Wire.emitted srv ++ [pd]
           /\ Wire.pd_deviceId pd = Wire.deviceId f
           /\ Wire.previousFrameData srv' !! Wire.deviceId f = Some f).
Proof.
  cbn zeta. destruct (Wire.validFrame f) eqn:Hvalid.
  2:{ left. split; [done |]. by apply wire_post_invalid. }
  right.
  destruct (wire_frame_cases f
              (Wire.previousFrameData srv !! Wire.deviceId f) Hvalid)
    as [Hthrows | [[Hprev Hmissing] | Hproc]].
  - left. split; [done |].
    split; [apply wire_not_processable; by left |].
    destruct Hthrows as (p & Hp & Hnone).
    exists srv. by rewrite (wire_post_blocked now f p srv Hvalid Hp Hnone).
  - left. split; [done |].
    split; [apply wire_not_processable; by right |].
    eexists. by rewrite (wire_post_failed now f srv Hvalid Hprev Hmissing).
  - right. split; [done |]. split; [done |].
    destruct (wire_post_processed now f srv Hproc)
      as (md & pd & _ & _ & Hdev & Heq).
    exists pd. eexists. split; [exact Heq |]. cbn.
    split; [done |]. split; [done |]. apply lookup_insert_eq.
Qed.

Lemma postSensorData_response_witness :
  exists srv',
    Wire.postSensorData 0 bareImuFrame Wire.initialServer
    = (Normal (Status500 "Internal server error"), srv')
    /\ Wire.emitted srv' = Wire.emitted Wire.initialServer.
Proof.
  destruct (postSensorData_response 0 bareImuFrame Wire.initialServer)
    as [[Hinvalid _] | [(_ & _ & srv' & Heq & He & _)
                       | (_ & (_ & [o Ho] & _) & _)]].
  - discriminate Hinvalid.
  - exists srv'. split; [exact Heq | exact He].
  - discriminate Ho.
Defined.

(** ** Consecutive frames and missing orientations *)

(** X7: The movement of a processed frame is computed against the latest
    frame of its device that was stored.  When no orientation is missing, a
    validated frame is stored whether it is then processed or fails, and the
    next complete frame of the device is paired with it.  A first frame
    whose imu has no orientation is stored as well, and fails; from then on
    the movement calculator throws on every frame of that device before the
    history is written, so each gets the internal-error response and leaves
    the server as it is: the device is not processed again. *)
Theorem movement_pairs_with_latest_valid_frame
    (now1 now2 : R) (f1 f2 : Wire.SensorFrame) (srv : Wire.Server) :
  Wire.validFrame f1 = true ->
  Wire.validFrame f2 = true ->
  Wire.deviceId f2 = Wire.deviceId f1 ->
  let prev := Wire.previousFrameData srv !! Wire.deviceId f1 in
  let srv1 := (Wire.postSensorData now1 f1 srv).2 in
  (is_Some (Wire.orientationOf f1) ->
   (forall p, prev = Some p -> is_Some (Wire.orientationOf p)) ->
   Wire.previousFrameData srv1 !! Wire.deviceId f1 = Some f1
   /\ (Wire.completeFrame f2 -> is_Some (Wire.orientationOf f2) ->
       exists pd srv2,
         Wire.postSensorData now2 f2 srv1
         = (Normal (Status200 (Wire.summaryOf pd)), srv2)
         /\ Wire.calculateMovementData f2 (Some f1)
            = Normal (Wire.movementData pd)
         /\ Wire.deltaTime (Wire.movementData pd)
            = (Wire.timestamp f2 - Wire.timestamp f1) / 1000
         /\ Wire.previousFrameData srv2 !! Wire.deviceId f2 = Some f2))
  /\ (prev = None -> Wire.orientationOf f1 = None ->
      (Wire.postSensorData now1 f1 srv).1
      = Normal (Status500 "Internal server error")
      /\ Wire.previousFrameData srv1 !! Wire.deviceId f1 = Some f1
      /\ Wire.postSensorData now2 f2 srv1
         = (Normal (Status500 "Internal server error"), srv1))
  /\ ((exists p, prev = Some p /\ Wire.orientationOf p = None) ->
      Wire.postSensorData now1 f1 srv
      = (Normal (Status500 "Internal server error"), srv)
      /\ Wire.postSensorData now2 f2 srv
         = (Normal (Status500 "Internal server error"), srv)).
Proof.
  intros Hv1 Hv2 Hid. cbn zeta. split; [| split].
  - intros Ho1 Hprev.
    assert (Hstored :
      Wire.previousFrameData (Wire.postSensorData now1 f1 srv).2
        !! Wire.deviceId f1 = Some f1).
    { destruct (wire_frame_cases f1
                  (Wire.previousFrameData srv !! Wire.deviceId f1) Hv1)
        as [(p & Hp & Hnone) | [[Hprev' Hmissing] | Hproc]].
      - destruct Ho1 as [o1 Ho1]. destruct (Hprev p Hp) as [op Hop].
        destruct Hnone; congruence.
      - rewrite (wire_post_failed now1 f1 srv Hv1 Hprev' Hmissing).
        apply lookup_insert_eq.
      - destruct (wire_post_processed now1 f1 srv Hproc)
          as (md & pd & _ & _ & _ & ->).
        apply lookup_insert_eq. }
    split; [exact Hstored |]. intros Hc2 Ho2.
    assert (Hproc2 : Wire.processable f2
              (Wire.previousFrameData (Wire.postSensorData now1 f1 srv).2
                 !! Wire.deviceId f2)).
    { rewrite Hid, Hstored. split; [done |]. split; [done |].
      by intros p [= <-]. }
    destruct (wire_post_processed now2 f2 _ Hproc2)
      as (md & pd & Hmd & Hmov & _ & Heq).
    rewrite Hid, Hstored in Hmd.
    exists pd. eexists. split; [exact Heq |].
    rewrite Hmov. split; [exact Hmd |].
    destruct Ho1 as [o1 Ho1]. destruct Ho2 as [o2 Ho2].
    destruct (wire_pairing_returns f2 f1 o2 o1 Ho2 Ho1)
      as (md' & Hmd' & Hdt & _).
    rewrite Hmd in Hmd'. injection Hmd' as <-.
    split; [exact Hdt |]. apply lookup_insert_eq.
  - intros Hnone Ho1.
    assert (Heq1 : Wire.postSensorData now1 f1 srv =
      (Normal (Status500 "Internal server error"),
       {| Wire.previousFrameData :=
            <[Wire.deviceId f1 := f1]> (Wire.previousFrameData srv);
          Wire.currentGestureState := Wire.currentGestureState srv;
          Wire.emitted := Wire.emitted srv |})).
    { apply wire_post_failed; [done | | by left].
      intros p Hp. congruence. }
    rewrite Heq1. cbn [fst snd Wire.previousFrameData].
    split; [done |]. split; [apply lookup_insert_eq |].
    apply (wire_post_blocked now2 f2 f1); [done | | by right].
    cbn [Wire.previousFrameData]. rewrite Hid. apply lookup_insert_eq.
  - intros (p & Hp & Hop). split.
    + apply (wire_post_blocked now1 f1 p); [done | done | by right].
    + apply (wire_post_blocked now2 f2 p); [done | by rewrite Hid |
                                            by right].
Qed.

Lemma movement_pairs_with_latest_valid_frame_witness :
  Wire.validFrame bareImuFrame = true
  /\ Wire.validFrame (wireFrame openPalmFrame) = true
  /\ (Wire.postSensorData 100 bareImuFrame Wire.initialServer).1
     = Normal (Status500 "Internal server error")
  /\ Wire.postSensorData 200 (wireFrame openPalmFrame)
       (Wire.postSensorData 100 bareImuFrame Wire.initialServer).2
     = (Normal (Status500 "Internal server error"),
        (Wire.postSensorData 100 bareImuFrame Wire.initialServer).2).
Proof.
  split; [reflexivity |]. split; [reflexivity |].
  destruct (movement_pairs_with_latest_valid_frame 100 200 bareImuFrame
              (wireFrame openPalmFrame) Wire.initialServer
              eq_refl eq_refl eq_refl) as (_ & H & _).
  destruct (H (lookup_empty _) eq_refl) as (H1 & _ & H2).
  split; [exact H1 | exact H2].
Defined.
